(** * NHITS: the interpolation basis, the stack builder and the forecast
    assembler of [nbs/models.nhits.ipynb], embedded in Rocq.

    Tensor entries are exact rationals ([Qc], canonical fractions with
    Leibniz equality): the development reasons about the algebra the
    program performs.  Where rounding matters, in the linear interpolation
    of the basis, the kernel takes the rounding of its arithmetic as a
    parameter: [F.exact] for none, [float32.rnd] for the single precision
    of the library's tensors.  A tensor of rank [n] is a list
    nested [n] times, in row-major order, and is meant to be rectangular;
    its shape is read along the first entry of every axis, as the shape of
    a rectangular tensor is.  Python raising an exception is an [Err]. *)

From Stdlib Require Import String Ascii.
From Stdlib Require Import ZArith QArith Qabs Qcanon Qround Bool Lia Arith List.
Import ListNotations.

Set Implicit Arguments.

Local Open Scope string_scope.
Local Open Scope list_scope.

(** ** Exceptions and the error monad *)

Inductive error : Type :=
| AssertionError (msg : string)
| IndexError (msg : string)
| ZeroDivisionError (msg : string)
| NotImplementedError (msg : string)
| UnboundLocalError (msg : string)
| RuntimeError (msg : string).

Inductive result (A : Type) : Type :=
| Ok (a : A)
| Err (e : error).

Arguments Ok {A} a.
Arguments Err {A} e.

Definition bind {A B : Type} (r : result A) (k : A -> result B) : result B :=
  match r with
  | Ok a => k a
  | Err e => Err e
  end.

Notation "x <- r ;; k" := (bind r (fun x => k))
  (at level 61, r at next level, right associativity).
Notation "' pat <- r ;; k" := (bind r (fun x => match x with pat => k end))
  (at level 61, pat pattern, r at next level, right associativity).

(** A [for] loop over a list of indices whose body may raise: the state is
    threaded through the iterations and the first exception ends the loop. *)
Fixpoint for_each {I S : Type} (idx : list I) (body : I -> S -> result S) (s : S)
  : result S :=
  match idx with
  | [] => Ok s
  | i :: rest => s' <- body i s ;; for_each rest body s'
  end.

(** ** Python lists and integers *)

Module Py.

(** [range(n)] for a Python integer [n]: empty when [n <= 0]. *)
Definition range (n : Z) : list nat := seq 0 (Z.to_nat n).

Definition len {A : Type} (l : list A) : Z := Z.of_nat (length l).

Definition out_of_range : error := IndexError "list index out of range".

(** [l[i]]: a negative index counts from the end; outside the list it
    raises [IndexError]. *)
Definition index {A : Type} (l : list A) (i : Z) : result A :=
  let j := (if i <? 0 then i + len l else i)%Z in
  if (j <? 0)%Z then Err out_of_range
  else match nth_error l (Z.to_nat j) with
       | Some a => Ok a
       | None => Err out_of_range
       end.

(** A slice bound clipped to the list, negative bounds counting from the
    end. *)
Definition clip (n : nat) (i : Z) : nat :=
  if (i <? 0)%Z then Z.to_nat (i + Z.of_nat n) else Nat.min (Z.to_nat i) n.

(** [l[lo:hi]], a missing bound being [None]. *)
Definition slice {A : Type} (lo hi : option Z) (l : list A) : list A :=
  let n := length l in
  let a := match lo with Some i => clip n i | None => 0%nat end in
  let b := match hi with Some i => clip n i | None => n end in
  firstn (b - a) (skipn a l).

(** [a // b]; Rocq's [Z.div] rounds towards minus infinity as Python
    does. *)
Definition floordiv (a b : Z) : result Z :=
  if (b =? 0)%Z then Err (ZeroDivisionError "integer division or modulo by zero")
  else Ok (a / b)%Z.

(** [int(np.ceil(a / b))] on Python integers; the true division raises on
    a zero divisor. *)
Definition ceil_div (a b : Z) : result Z :=
  if (b =? 0)%Z then Err (ZeroDivisionError "division by zero")
  else Ok (- ((- a) / b))%Z.

(** [s in l] for a list of strings. *)
Definition mem (s : string) (l : list string) : bool :=
  existsb (String.eqb s) l.

(** [sub in s] for strings: [sub] occurs somewhere in [s]. *)
Definition contains (sub s : string) : bool :=
  match String.index 0 sub s with
  | Some _ => true
  | None => false
  end.

End Py.

(** ** Tensors *)

Abbreviation tensor1 := (list Qc).
Abbreviation tensor2 := (list tensor1).
Abbreviation tensor3 := (list tensor2).
Abbreviation tensor4 := (list tensor3).

(** A value whose rank is only known when the program runs. *)
Inductive tensor : Type :=
| T2 (t : tensor2)
| T3 (t : tensor3)
| T4 (t : tensor4).

Definition shape1 (t : tensor1) : list nat := [length t].
Definition shape2 (t : tensor2) : list nat := length t :: shape1 (hd [] t).
Definition shape3 (t : tensor3) : list nat := length t :: shape2 (hd [] t).
Definition shape4 (t : tensor4) : list nat := length t :: shape3 (hd [] t).

Definition shape (t : tensor) : list nat :=
  match t with
  | T2 t => shape2 t
  | T3 t => shape3 t
  | T4 t => shape4 t
  end.

(** Rectangular tensors of a given shape. *)
Definition has_shape1 (n : nat) (t : tensor1) : Prop := length t = n.
Definition has_shape2 (m n : nat) (t : tensor2) : Prop :=
  length t = m /\ Forall (has_shape1 n) t.
Definition has_shape3 (k m n : nat) (t : tensor3) : Prop :=
  length t = k /\ Forall (has_shape2 m n) t.

Definition Qc_of_nat (n : nat) : Qc := Q2Qc (inject_Z (Z.of_nat n)).
Definition Qc_of_Z (n : Z) : Qc := Q2Qc (inject_Z n).

Definition Qcmax (x y : Qc) : Qc := if Qclt_le_dec x y then y else x.
Definition Qcmin (x y : Qc) : Qc := if Qclt_le_dec x y then x else y.

Module Torch.

Open Scope Qc_scope.

(** *** Broadcasting *)

(** Shapes are aligned at their last axis; two sizes agree when they are
    equal or one of them is 1.  The lists here are reversed shapes. *)
Fixpoint broadcast_rev (a b : list nat) : option (list nat) :=
  match a, b with
  | [], _ => Some b
  | _, [] => Some a
  | x :: a', y :: b' =>
      match broadcast_rev a' b' with
      | None => None
      | Some r =>
          if (x =? y)%nat then Some (x :: r)
          else if (x =? 1)%nat then Some (y :: r)
          else if (y =? 1)%nat then Some (x :: r)
          else None
      end
  end.

Definition broadcast_shapes (a b : list nat) : option (list nat) :=
  option_map (@rev nat) (broadcast_rev (rev a) (rev b)).

Definition shape_eqb (a b : list nat) : bool :=
  if list_eq_dec Nat.eq_dec a b then true else false.

Fixpoint zip_with {A B C : Type} (f : A -> B -> C) (xs : list A) (ys : list B)
  : list C :=
  match xs, ys with
  | x :: xs', y :: ys' => f x y :: zip_with f xs' ys'
  | _, _ => []
  end.

(** One axis of a broadcast binary operation: an axis of size 1 is
    stretched along the other operand. *)
Definition bmap {A B C : Type} (f : A -> B -> C) (xs : list A) (ys : list B)
  : list C :=
  match xs, ys with
  | [x], _ => map (f x) ys
  | _, [y] => map (fun x => f x y) xs
  | _, _ => zip_with f xs ys
  end.

Definition size_mismatch : error :=
  RuntimeError "The size of tensor a must match the size of tensor b".

(** Elementwise binary operations with broadcasting, on operands of the
    same rank. *)
Definition binop2 (f : Qc -> Qc -> Qc) (a b : tensor2) : result tensor2 :=
  match broadcast_shapes (shape2 a) (shape2 b) with
  | Some _ => Ok (bmap (bmap f) a b)
  | None => Err size_mismatch
  end.

Definition binop3 (f : Qc -> Qc -> Qc) (a b : tensor3) : result tensor3 :=
  match broadcast_shapes (shape3 a) (shape3 b) with
  | Some _ => Ok (bmap (bmap (bmap f)) a b)
  | None => Err size_mismatch
  end.

Definition sub2 := binop2 Qcminus.
Definition mul2 := binop2 Qcmult.
Definition add3 := binop3 Qcplus.

(** [a += b] on a rank-2 view [a] with a rank-3 operand: an in-place
    operation may not change the shape of its target, so the broadcast
    shape has to be the shape of [a] itself.  Were it so, the operand
    would be read through its leading entry. *)
Definition iadd2_3 (a : tensor2) (b : tensor3) : result tensor2 :=
  match broadcast_shapes (shape2 a) (shape3 b) with
  | Some s =>
      if shape_eqb s (shape2 a) then Ok (bmap (bmap Qcplus) a (hd [] b))
      else Err (RuntimeError "output with shape of a doesn't match the broadcast shape")
  | None => Err size_mismatch
  end.

(** *** Moving axes around *)

(** [t.flip(dims=(-1,))] *)
Definition flip_last (t : tensor2) : tensor2 := map (@rev Qc) t.

(** Exchange of the two axes of a matrix of [A]s; [d] fills the holes of a
    ragged one. *)
Definition transpose {A : Type} (d : A) (m : list (list A)) : list (list A) :=
  map (fun j => map (fun r => nth j r d) m) (seq 0 (length (hd [] m))).

(** [t.permute(0,2,1)] *)
Definition permute021 (t : tensor3) : tensor3 := map (transpose (Q2Qc 0)) t.

(** [t.permute(1,0,2,3)] *)
Definition permute1023 (t : tensor4) : tensor4 := transpose [] t.

(** [t.unsqueeze(1)] and [t.squeeze(1)] on a batch of rows. *)
Definition unsqueeze1 (t : tensor2) : tensor3 := map (fun r => [r]) t.

Definition squeeze1 (t : tensor3) : tensor :=
  match shape3 t with
  | [_; 1%nat; _] => T2 (map (fun m => hd [] m) t)
  | _ => T3 t
  end.

(** [t.squeeze(-1)]: the last axis goes when its size is 1. *)
Definition squeeze_last3 (t : tensor3) : tensor :=
  match shape3 t with
  | [_; _; 1%nat] => T2 (map (map (fun r => hd (Q2Qc 0) r)) t)
  | _ => T3 t
  end.

Definition squeeze_last4 (t : tensor4) : tensor :=
  match shape4 t with
  | [_; _; _; 1%nat] => T3 (map (map (map (fun r => hd (Q2Qc 0) r))) t)
  | _ => T4 t
  end.

(** [t.repeat(1, n, 1)]: the middle axis is tiled [n] times; a negative
    count raises. *)
Definition repeat_1n1 (n : Z) (t : tensor3) : result tensor3 :=
  if (n <? 0)%Z then
    Err (RuntimeError "Trying to create tensor with negative dimension")
  else Ok (map (fun m => concat (repeat m (Z.to_nat n))) t).

(** [torch.stack(ts)]: every tensor must have the shape of the first. *)
Definition stack (ts : list tensor3) : result tensor4 :=
  match ts with
  | [] => Err (RuntimeError "stack expects a non-empty TensorList")
  | t0 :: _ =>
      if forallb (fun t => shape_eqb (shape3 t) (shape3 t0)) ts then Ok ts
      else Err (RuntimeError "stack expects each tensor to be equal size")
  end.

(** [torch.cat((a, b), dim=1)] on matrices. *)
Definition cat1 (a b : tensor2) : result tensor2 :=
  if (length a =? length b)%nat then Ok (zip_with (@app Qc) a b)
  else Err (RuntimeError "Sizes of tensors must match except in dimension 1").

(** [torch.zeros((m, n))]; a negative size raises. *)
Definition zeros2 (m n : Z) : result tensor2 :=
  if ((m <? 0) || (n <? 0))%Z%bool then
    Err (RuntimeError "Trying to create tensor with negative dimension")
  else Ok (repeat (repeat (Q2Qc 0) (Z.to_nat n)) (Z.to_nat m)).

(** *** Reshaping *)

(** Cut a row into [q] consecutive pieces of [n] entries. *)
Definition chunks (q n : nat) (row : tensor1) : tensor2 :=
  map (fun j => firstn n (skipn (j * n) row)) (seq 0 q).

(** [t.reshape(len(t), q, -1)] on a matrix: the width has to be a
    multiple of [q]. *)
Definition reshape_q (q : Z) (t : tensor2) : result tensor3 :=
  let w := length (hd [] t) in
  if ((length t =? 0)%nat || (q <=? 0)%Z)%bool then
    Err (RuntimeError "cannot reshape: the unspecified dimension is ambiguous")
  else if (Z.of_nat w mod q =? 0)%Z then
    Ok (map (chunks (Z.to_nat q) (w / Z.to_nat q)) t)
  else Err (RuntimeError "shape is invalid for input size").

(** [t.reshape(b, -1)] on a rank-3 tensor: all entries in order, cut into
    [b] rows. *)
Definition reshape_rows (b : nat) (t : tensor3) : result tensor2 :=
  let flat := concat (concat t) in
  if (b =? 0)%nat then
    Err (RuntimeError "cannot reshape: the unspecified dimension is ambiguous")
  else if (length flat mod b =? 0)%nat then
    Ok (chunks b (length flat / b) flat)
  else Err (RuntimeError "shape is invalid for input size").

End Torch.

(** ** Single precision

    The numbers of a [float32] tensor, as far as they are finite: a result
    is rounded to the nearest number with 24 significant bits, a tie going
    to the even one, with the fixed spacing 2^-149 below 2^-126. *)

Module float32.

Definition pow2 (e : Z) : Q :=
  if (0 <=? e)%Z then inject_Z (2 ^ e) else / inject_Z (2 ^ (- e)).

(** The exponent [e] with [2^e <= |x| < 2^(e+1)], for [x] other than 0. *)
Definition exponent (x : Q) : Z :=
  let e := (Z.log2 (Z.abs (Qnum x)) - Z.log2 (Zpos (Qden x)))%Z in
  if Qle_bool (pow2 e) (Qabs x) then e else (e - 1)%Z.

(** The nearest integer, a tie going to the even one. *)
Definition nearest_even (x : Q) : Z :=
  let f := Qfloor x in
  match Qcompare (x - inject_Z f) (1 # 2) with
  | Lt => f
  | Gt => (f + 1)%Z
  | Eq => if Z.even f then f else (f + 1)%Z
  end.

Definition rnd (x : Qc) : Qc :=
  if Qeq_bool x 0 then x
  else
    let spacing := pow2 (Z.max (exponent x) (-126) - 23) in
    Q2Qc (inject_Z (nearest_even (x / spacing)) * spacing).

End float32.

(** ** Library layers: interpolation and pooling *)

Module F.

Open Scope Qc_scope.

Definition half : Qc := Q2Qc (1 # 2).

(** Modelled from the spec: "standard 1-D upsampling" is
    [torch.nn.functional.interpolate] on a batch of channels, which is
    library code and not part of the repository.  Output position [i]
    of [size] reads input position [min (floor (i * n / size)) (n - 1)]
    in [nearest] mode. *)
Definition nearest1d (size : nat) (xs : tensor1) : tensor1 :=
  let n := length xs in
  map (fun i => nth (Nat.min (i * n / size) (n - 1)) xs 0) (seq 0 size).

(** The arithmetic of a kernel is given by [rnd], which rounds the exact
    result of every operation to the number format of the tensor; [exact]
    leaves the results as they are. *)
Definition exact : Qc -> Qc := fun x => x.

(** Modelled from the spec: [linear] mode with the library's default
    [align_corners=False].  Output position [i] sits at the real input
    coordinate [max (n / size * (i + 1/2) - 1/2) 0]; the two neighbours
    [i0 = floor] (kept inside the input) and [i1] (the next one, if any)
    are mixed with weights [1 - lam] and [lam], [lam] being the
    fractional part kept inside [0, 1].  Between equal sizes position [i]
    reads input [i] with weights 1 and 0. *)
Definition linear_source (rnd : Qc -> Qc) (n size i : nat) : nat * nat * Qc * Qc :=
  if (n =? size)%nat then (i, i, 1, 0)
  else
    let scale := rnd (Qc_of_nat n / Qc_of_nat size) in
    let real := Qcmax (rnd (rnd (scale * rnd (Qc_of_nat i + half)) - half)) 0 in
    let i0 := Nat.min (Z.to_nat (Qfloor real)) (n - 1) in
    let lam1 := Qcmin (Qcmax (rnd (real - Qc_of_nat i0)) 0) 1 in
    let lam0 := rnd (1 - lam1) in
    let i1 := if (i0 <? n - 1)%nat then (i0 + 1)%nat else i0 in
    (i0, i1, lam0, lam1).

Definition linear1d_with (rnd : Qc -> Qc) (size : nat) (xs : tensor1) : tensor1 :=
  map (fun i =>
         let '(i0, i1, lam0, lam1) := linear_source rnd (length xs) size i in
         rnd (rnd (lam0 * nth i0 xs 0) + rnd (lam1 * nth i1 xs 0)))
      (seq 0 size).

Definition linear1d : nat -> tensor1 -> tensor1 := linear1d_with exact.

(** The two cubic convolution polynomials, with the library's [A = -3/4]. *)
Definition A : Qc := Q2Qc (-3 # 4).
Definition cubic_convolution1 (x : Qc) : Qc :=
  ((A + Qc_of_nat 2) * x - (A + Qc_of_nat 3)) * x * x + 1.
Definition cubic_convolution2 (x : Qc) : Qc :=
  ((A * x - Qc_of_nat 5 * A) * x + Qc_of_nat 8 * A) * x - Qc_of_nat 4 * A.

Definition cubic_coefficients (t : Qc) : list Qc :=
  [cubic_convolution2 (t + 1); cubic_convolution1 t;
   cubic_convolution1 (1 - t); cubic_convolution2 (1 - t + 1)].

(** For output position [o]: the integer input position and the four
    weights of its neighbours at offsets -1, 0, 1, 2. *)
Definition cubic_source (n size o : nat) : Z * list Qc :=
  let real := Qc_of_nat n / Qc_of_nat size * (Qc_of_nat o + half) - half in
  let i := Qfloor real in
  (i, cubic_coefficients (real - Qc_of_Z i)).

Definition clamp_index (n : nat) (i : Z) : nat :=
  Z.to_nat (Z.max 0 (Z.min i (Z.of_nat n - 1))).

Definition weighted_sum (ws xs : list Qc) : Qc :=
  fold_left Qcplus (Torch.zip_with Qcmult ws xs) 0.

(** Modelled from the spec: the "2-D (bicubic) interpolation" of the
    library, [align_corners=False], of one plane to [oh] rows and [ow]
    columns; neighbours outside the plane are read at its border. *)
Definition bicubic2d (oh ow : nat) (plane : tensor2) : tensor2 :=
  let ih := length plane in
  let iw := length (hd [] plane) in
  map (fun oy =>
         let '(iy, cy) := cubic_source ih oh oy in
         map (fun ox =>
                let '(ix, cx) := cubic_source iw ow ox in
                weighted_sum cy
                  (map (fun di =>
                          let row := nth (clamp_index ih (iy - 1 + Z.of_nat di)) plane [] in
                          weighted_sum cx
                            (map (fun dj => nth (clamp_index iw (ix - 1 + Z.of_nat dj)) row 0)
                                 (seq 0 4)))
                       (seq 0 4)))
             (seq 0 ow))
      (seq 0 oh).

Definition bad_size : error :=
  RuntimeError "Input and output sizes should be greater than 0".

(** [F.interpolate(input, size=size, mode=mode)]: a rank-3 input has one
    spatial axis, which [nearest] and [linear] resize; a rank-4 input has
    two, and an integer [size] is the new size of both. *)
Definition interpolate_with (rnd : Qc -> Qc) (input : tensor3) (size : Z)
           (mode : string) : result tensor3 :=
  match shape3 input with
  | [_; _; n] =>
      if ((n =? 0)%nat || (size <=? 0)%Z)%bool then Err bad_size
      else if String.eqb mode "nearest" then
        Ok (map (map (nearest1d (Z.to_nat size))) input)
      else if String.eqb mode "linear" then
        Ok (map (map (linear1d_with rnd (Z.to_nat size))) input)
      else Err (NotImplementedError "Got 3D input, but the mode needs another rank")
  | _ => Err bad_size
  end.

Definition interpolate : tensor3 -> Z -> string -> result tensor3 :=
  interpolate_with exact.

Definition interpolate_bicubic (input : tensor4) (size : Z) : result tensor4 :=
  match shape4 input with
  | [_; _; ih; iw] =>
      if ((ih =? 0)%nat || (iw =? 0)%nat || (size <=? 0)%Z)%bool then Err bad_size
      else Ok (map (map (bicubic2d (Z.to_nat size) (Z.to_nat size))) input)
  | _ => Err bad_size
  end.

End F.

Module nn.

Open Scope Qc_scope.

Inductive pooling : Type :=
| MaxPool1d (kernel_size : Z)
| AvgPool1d (kernel_size : Z).

Definition kernel_size (p : pooling) : Z :=
  match p with MaxPool1d k => k | AvgPool1d k => k end.

Definition reduce (p : pooling) (window : tensor1) : Qc :=
  match p with
  | MaxPool1d _ => fold_left Qcmax (tl window) (hd 0 window)
  | AvgPool1d _ => fold_left Qcplus window 0 / Qc_of_nat (length window)
  end.

(** One channel pooled with [stride = kernel_size] and [ceil_mode=True]:
    windows of [k] entries, the last one cut at the end of the row. *)
Definition pool_row (p : pooling) (row : tensor1) : tensor1 :=
  let k := Z.to_nat (kernel_size p) in
  map (fun j => reduce p (firstn k (skipn (j * k) row)))
      (seq 0 ((length row + k - 1) / k)).

(** The pooling layer on a batch of channels. *)
Definition pool_forward (p : pooling) (input : tensor3) : result tensor3 :=
  match shape3 input with
  | [_; _; n] =>
      if ((kernel_size p <=? 0)%Z || (n =? 0)%nat)%bool then
        Err (RuntimeError "pooling: kernel size and input length must be positive")
      else Ok (map (map (pool_row p)) input)
  | _ => Err (RuntimeError "pooling: expected a batch of channels")
  end.

(** The modules of a [Sequential]: affine layers, known here by their
    widths, and activations, known by their name. *)
Inductive module : Type :=
| Linear (in_features out_features : Z)
| Activation (name : string).

(** [nn.Linear(in_features, out_features)]: the constructor allocates the
    weight matrix and the bias, which raises on a negative size. *)
Definition Linear_init (in_features out_features : Z) : result module :=
  if ((in_features <? 0) || (out_features <? 0))%Z%bool then
    Err (RuntimeError "Trying to create tensor with negative dimension")
  else Ok (Linear in_features out_features).

(** A [Sequential] with its parameters: [apply] is the function of one
    input row that the layers compute with their current weights. *)
Record Sequential : Type := {
  modules : list module;
  apply : tensor1 -> tensor1
}.

(** The width check of every affine layer along the chain; [w] is the
    width of the rows that enter. *)
Fixpoint check_widths (ms : list module) (w : Z) : result Z :=
  match ms with
  | [] => Ok w
  | Linear i o :: rest =>
      if (w =? i)%Z then check_widths rest o
      else Err (RuntimeError "mat1 and mat2 shapes cannot be multiplied")
  | Activation _ :: rest => check_widths rest w
  end.

Definition Sequential_forward (s : Sequential) (input : tensor2) : result tensor2 :=
  _ <- check_widths (modules s) (Z.of_nat (length (hd [] input))) ;;
  Ok (map (apply s) input).

End nn.

(** ** [_IdentityBasis] *)

Module _IdentityBasis.

Record t : Type := {
  forecast_size : Z;
  backcast_size : Z;
  interpolation_mode : string;
  out_features : Z
}.

Definition __init__ (backcast_size forecast_size : Z) (interpolation_mode : string)
           (out_features : Z) : result t :=
  if (Py.mem interpolation_mode ["linear"; "nearest"]
      || Py.contains "cubic" interpolation_mode)%bool
  then Ok {| forecast_size := forecast_size;
             backcast_size := backcast_size;
             interpolation_mode := interpolation_mode;
             out_features := out_features |}
  else Err (AssertionError "").

(** The body of the loop over sub-batches of the cubic branch. *)
Definition cubic_step (self : t) (knots : tensor4) (batch_size : Z)
           (i : nat) (forecast : tensor2) : result tensor2 :=
  let lo := (Z.of_nat i * batch_size)%Z in
  let hi := ((Z.of_nat i + 1) * batch_size)%Z in
  forecast_i <- F.interpolate_bicubic (Py.slice (Some lo) (Some hi) knots)
                                      (forecast_size self) ;;
  (* forecast_i[:,0,:,:] *)
  picked <- for_each forecast_i
              (fun c acc => m <- Py.index c 0 ;; Ok (acc ++ [m])) [] ;;
  updated <- Torch.iadd2_3 (Py.slice (Some lo) (Some hi) forecast) picked ;;
  Ok (Py.slice None (Some lo) forecast ++ updated ++ Py.slice (Some hi) None forecast).

(** [forward], the arithmetic of the interpolation being [rnd]. *)
Definition forward_with (rnd : Qc -> Qc) (self : t) (theta : tensor2)
  : result (tensor2 * tensor3) :=
  let backcast := map (Py.slice None (Some (backcast_size self))) theta in
  let knots := map (Py.slice (Some (backcast_size self)) None) theta in
  knots <- Torch.reshape_q (out_features self) knots ;;
  forecast <-
    (if Py.mem (interpolation_mode self) ["nearest"; "linear"] then
       forecast <- F.interpolate_with rnd knots (forecast_size self)
                                      (interpolation_mode self) ;;
       Ok (T3 forecast)
     else if Py.contains "cubic" (interpolation_mode self) then
       let batch_size := Py.len backcast in
       let knots := map (fun x => [x]) knots in
       forecast <- Torch.zeros2 (Py.len knots) (forecast_size self) ;;
       n_batches <- Py.ceil_div (Py.len knots) batch_size ;;
       forecast <- for_each (Py.range n_batches)
                            (cubic_step self knots batch_size) forecast ;;
       Ok (T2 forecast)
     else Err (UnboundLocalError "forecast")) ;;
  (* [B,Q,H] -> [B,H,Q] *)
  match forecast with
  | T3 forecast => Ok (backcast, Torch.permute021 forecast)
  | _ => Err (RuntimeError "permute: number of dims don't match")
  end.

(** [forward] in exact arithmetic. *)
Definition forward : t -> tensor2 -> result (tensor2 * tensor3) :=
  forward_with F.exact.

End _IdentityBasis.

(** ** [NHITSBlock] *)

Definition ACTIVATIONS : list string :=
  ["ReLU"; "Softplus"; "Tanh"; "SELU"; "LeakyReLU"; "PReLU"; "Sigmoid"].

Definition POOLING : list string := ["MaxPool1d"; "AvgPool1d"].

Module NHITSBlock.

Record t : Type := {
  dropout_prob : Qc;
  futr_input_size : Z;
  hist_input_size : Z;
  stat_input_size : Z;
  pooling_layer : nn.pooling;
  layers : nn.Sequential;
  basis : _IdentityBasis.t
}.

(** [f'{s} is not in {l}']: the list is printed as Python prints a list of
    strings. *)
Definition not_in (s : string) (l : list string) : string :=
  (s ++ " is not in ["
     ++ String.concat ", " (map (fun x => "'" ++ x ++ "'") l) ++ "]")%string.

(** The loop over [mlp_units] that grows [hidden_layers]. *)
Definition add_layer (activation : string) (dropout_prob : Qc)
           (layer : list Z) (hidden_layers : list nn.module)
  : result (list nn.module) :=
  i <- Py.index layer 0 ;;
  o <- Py.index layer 1 ;;
  linear <- nn.Linear_init i o ;;
  let hidden_layers := hidden_layers ++ [linear; nn.Activation activation] in
  if Qclt_le_dec (Q2Qc 0) dropout_prob then Err (NotImplementedError "dropout")
  else Ok hidden_layers.

(** The constructor.  [init] stands for the initialisation of the
    weights: the function the fresh layers compute. *)
Definition __init__ (init : list nn.module -> tensor1 -> tensor1)
           (input_size h n_theta : Z) (mlp_units : list (list Z))
           (basis : _IdentityBasis.t)
           (futr_input_size hist_input_size stat_input_size : Z)
           (n_pool_kernel_size : Z) (pooling_mode : string)
           (dropout_prob : Qc) (activation : string) : result t :=
  pooled_hist_size <- Py.ceil_div input_size n_pool_kernel_size ;;
  pooled_futr_size <- Py.ceil_div (input_size + h) n_pool_kernel_size ;;
  let input_size := (pooled_hist_size + hist_input_size * pooled_hist_size
                     + futr_input_size * pooled_futr_size + stat_input_size)%Z in
  if negb (Py.mem activation ACTIVATIONS) then
    Err (AssertionError (not_in activation ACTIVATIONS))
  else if negb (Py.mem pooling_mode POOLING) then
    Err (AssertionError (not_in pooling_mode POOLING))
  else
    let pooling_layer :=
      if String.eqb pooling_mode "MaxPool1d" then nn.MaxPool1d n_pool_kernel_size
      else nn.AvgPool1d n_pool_kernel_size in
    first <- Py.index mlp_units 0 ;;
    width <- Py.index first 0 ;;
    input_layer <- nn.Linear_init input_size width ;;
    hidden_layers <- for_each mlp_units (add_layer activation dropout_prob)
                              [input_layer] ;;
    last <- Py.index mlp_units (-1) ;;
    width <- Py.index last 1 ;;
    output_layer <- nn.Linear_init width n_theta ;;
    let layers := hidden_layers ++ [output_layer] in
    Ok {| dropout_prob := dropout_prob;
          futr_input_size := futr_input_size;
          hist_input_size := hist_input_size;
          stat_input_size := stat_input_size;
          pooling_layer := pooling_layer;
          layers := {| nn.modules := layers; nn.apply := init layers |};
          basis := basis |}.

(** Pool an exogenous tensor over time and flatten it to one row per
    sample, then append it to the features. *)
Definition pooled_features (self : t) (batch_size : nat) (insample_y : tensor2)
           (exog : tensor3) : result tensor2 :=
  let exog := Torch.permute021 exog in
  exog <- nn.pool_forward (pooling_layer self) exog ;;
  let exog := Torch.permute021 exog in
  flat <- Torch.reshape_rows batch_size exog ;;
  Torch.cat1 insample_y flat.

Definition forward (self : t) (insample_y : tensor2) (futr_exog hist_exog : tensor3)
           (stat_exog : tensor2) : result (tensor2 * tensor3) :=
  let insample_y := Torch.unsqueeze1 insample_y in
  insample_y <- nn.pool_forward (pooling_layer self) insample_y ;;
  (* squeeze(1): the axis added above, of size 1 *)
  let insample_y := map (fun m => hd [] m) insample_y in
  let batch_size := length insample_y in
  insample_y <-
    (if (0 <? hist_input_size self)%Z
     then pooled_features self batch_size insample_y hist_exog
     else Ok insample_y) ;;
  insample_y <-
    (if (0 <? futr_input_size self)%Z
     then pooled_features self batch_size insample_y futr_exog
     else Ok insample_y) ;;
  insample_y <-
    (if (0 <? stat_input_size self)%Z
     then (* a matrix is flattened like a rank-3 tensor of one matrix *)
          flat <- Torch.reshape_rows batch_size [stat_exog] ;;
          Torch.cat1 insample_y flat
     else Ok insample_y) ;;
  theta <- nn.Sequential_forward (layers self) insample_y ;;
  _IdentityBasis.forward (basis self) theta.

End NHITSBlock.

(** ** [NHITS] *)

Module NHITS.

(** What the model uses of its loss, an external collaborator: the number
    of outputs per horizon step and the mapping to the output domain. *)
Record loss_t : Type := {
  outputsize_multiplier : Z;
  domain_map : tensor3 -> tensor
}.

Record t : Type := {
  h : Z;
  loss : loss_t;
  futr_input_size : Z;
  hist_input_size : Z;
  stat_input_size : Z;
  decompose_forecast : bool;
  blocks : list NHITSBlock.t
}.

Definition block_type_not_found (stack_type : string) : string :=
  "Block type " ++ stack_type ++ " not found!".

(** The body of the inner loop of [create_stack], for stack [i].  [init]
    gives the freshly initialised projector of the block at a position of
    the block list. *)
Definition create_block (loss : loss_t)
           (init : nat -> list nn.module -> tensor1 -> tensor1)
           (h input_size : Z) (stack_types : list string)
           (mlp_units : list (list Z)) (n_pool_kernel_size n_freq_downsample : list Z)
           (pooling_mode interpolation_mode : string) (dropout_prob_theta : Qc)
           (activation : string) (futr_input_size hist_input_size stat_input_size : Z)
           (i : nat) (block_list : list NHITSBlock.t) : result (list NHITSBlock.t) :=
  stack_type <- Py.index stack_types (Z.of_nat i) ;;
  if negb (String.eqb stack_type "identity") then
    Err (AssertionError (block_type_not_found stack_type))
  else
    d <- Py.index n_freq_downsample (Z.of_nat i) ;;
    q <- Py.floordiv h d ;;
    let n_theta := (input_size + outputsize_multiplier loss * Z.max q 1)%Z in
    basis <- _IdentityBasis.__init__ input_size h interpolation_mode
                                     (outputsize_multiplier loss) ;;
    k <- Py.index n_pool_kernel_size (Z.of_nat i) ;;
    nbeats_block <- NHITSBlock.__init__ (init (length block_list))
                      input_size h n_theta mlp_units basis
                      futr_input_size hist_input_size stat_input_size
                      k pooling_mode dropout_prob_theta activation ;;
    Ok (block_list ++ [nbeats_block]).

(** The body of the outer loop of [create_stack]: the blocks of stack
    [i]. *)
Definition create_stack_blocks (loss : loss_t)
           (init : nat -> list nn.module -> tensor1 -> tensor1)
           (h input_size : Z) (stack_types : list string) (n_blocks : list Z)
           (mlp_units : list (list Z)) (n_pool_kernel_size n_freq_downsample : list Z)
           (pooling_mode interpolation_mode : string) (dropout_prob_theta : Qc)
           (activation : string) (futr_input_size hist_input_size stat_input_size : Z)
           (i : nat) (block_list : list NHITSBlock.t) : result (list NHITSBlock.t) :=
  n <- Py.index n_blocks (Z.of_nat i) ;;
  for_each (Py.range n)
    (fun _ block_list =>
       create_block loss init h input_size stack_types mlp_units
         n_pool_kernel_size n_freq_downsample pooling_mode interpolation_mode
         dropout_prob_theta activation
         futr_input_size hist_input_size stat_input_size i block_list)
    block_list.

Definition create_stack (loss : loss_t)
           (init : nat -> list nn.module -> tensor1 -> tensor1)
           (h input_size : Z) (stack_types : list string) (n_blocks : list Z)
           (mlp_units : list (list Z)) (n_pool_kernel_size n_freq_downsample : list Z)
           (pooling_mode interpolation_mode : string) (dropout_prob_theta : Qc)
           (activation : string) (futr_input_size hist_input_size stat_input_size : Z)
  : result (list NHITSBlock.t) :=
  for_each (Py.range (Py.len stack_types))
    (create_stack_blocks loss init h input_size stack_types n_blocks mlp_units
       n_pool_kernel_size n_freq_downsample pooling_mode interpolation_mode
       dropout_prob_theta activation futr_input_size hist_input_size stat_input_size)
    [].

(** The arguments of the constructor that reach the architecture. *)
Record config : Type := {
  cfg_h : Z;
  cfg_input_size : Z;
  futr_exog_list : list string;
  hist_exog_list : list string;
  stat_exog_list : list string;
  stack_types : list string;
  n_blocks : list Z;
  mlp_units : list (list Z);
  n_pool_kernel_size : list Z;
  n_freq_downsample : list Z;
  pooling_mode : string;
  interpolation_mode : string;
  dropout_prob_theta : Qc;
  activation : string;
  cfg_loss : loss_t
}.

(** The constructor, after the base class has stored [h], the loss and
    the lists of exogenous columns; a new model does not decompose. *)
Definition __init__ (init : nat -> list nn.module -> tensor1 -> tensor1)
           (c : config) : result t :=
  let futr_input_size := Py.len (futr_exog_list c) in
  let hist_input_size := Py.len (hist_exog_list c) in
  let stat_input_size := Py.len (stat_exog_list c) in
  blocks <- create_stack (cfg_loss c) init (cfg_h c) (cfg_input_size c)
              (stack_types c) (n_blocks c) (mlp_units c)
              (n_pool_kernel_size c) (n_freq_downsample c)
              (pooling_mode c) (interpolation_mode c) (dropout_prob_theta c)
              (activation c) futr_input_size hist_input_size stat_input_size ;;
  Ok {| h := cfg_h c;
        loss := cfg_loss c;
        futr_input_size := futr_input_size;
        hist_input_size := hist_input_size;
        stat_input_size := stat_input_size;
        decompose_forecast := false;
        blocks := blocks |}.

Record windows_batch : Type := {
  insample_y : tensor2;
  insample_mask : tensor2;
  futr_exog : tensor3;
  hist_exog : tensor3;
  stat_exog : tensor2
}.

(** The variables the loop over the blocks updates. *)
Record state : Type := {
  residuals : tensor2;
  forecast : tensor3;
  block_forecasts : list tensor3
}.

(** [insample_y[:, -1:, None]] *)
Definition level (insample_y : tensor2) : tensor3 :=
  map (fun row => map (fun y => [y]) (Py.slice (Some (-1)%Z) None row)) insample_y.

Definition init_state (self : t) (windows_batch : windows_batch) : result state :=
  let forecast := level (insample_y windows_batch) in
  repeated <- Torch.repeat_1n1 (h self) forecast ;;
  Ok {| residuals := Torch.flip_last (insample_y windows_batch);
        forecast := forecast;
        block_forecasts := [repeated] |}.

(** The body of the loop over the blocks; [insample_mask] is the flipped
    mask. *)
Definition block_step (self : t) (windows_batch : windows_batch)
           (insample_mask : tensor2) (block : NHITSBlock.t) (s : state)
  : result state :=
  '(backcast, block_forecast) <-
     NHITSBlock.forward block (residuals s) (futr_exog windows_batch)
                        (hist_exog windows_batch) (stat_exog windows_batch) ;;
  difference <- Torch.sub2 (residuals s) backcast ;;
  residuals <- Torch.mul2 difference insample_mask ;;
  forecast <- Torch.add3 (forecast s) block_forecast ;;
  Ok {| residuals := residuals;
        forecast := forecast;
        block_forecasts :=
          if decompose_forecast self
          then block_forecasts s ++ [block_forecast]
          else block_forecasts s |}.

Definition run_blocks (self : t) (windows_batch : windows_batch)
           (blocks : list NHITSBlock.t) : result state :=
  s <- init_state self windows_batch ;;
  for_each blocks
           (block_step self windows_batch
                       (Torch.flip_last (insample_mask windows_batch)))
           s.

Definition forward (self : t) (windows_batch : windows_batch) : result tensor :=
  s <- run_blocks self windows_batch (blocks self) ;;
  let forecast := domain_map (loss self) (forecast s) in
  if decompose_forecast self then
    block_forecasts <- Torch.stack (block_forecasts s) ;;
    let block_forecasts := Torch.permute1023 block_forecasts in
    Ok (Torch.squeeze_last4 block_forecasts)
  else Ok forecast.

End NHITS.


(** * Vocabulary of the statements *)

(** The output width of the projector of a block: the [out_features] of its
    last affine layer. *)
Definition projector_out_features (b : NHITSBlock.t) : option Z :=
  match last (nn.modules (NHITSBlock.layers b)) (nn.Activation "") with
  | nn.Linear _ o => Some o
  | nn.Activation _ => None
  end.

(** The stack every block of the block list belongs to, in the order the
    blocks are built. *)
Definition block_stacks (c : NHITS.config) : list nat :=
  flat_map (fun i => repeat i (Z.to_nat (nth i (NHITS.n_blocks c) 0%Z)))
           (seq 0 (length (NHITS.stack_types c))).

(** What is expected of a block built for stack [i] of a configuration. *)
Definition built_for (c : NHITS.config) (i : nat) (b : NHITSBlock.t) : Prop :=
  exists d,
    nth_error (NHITS.n_freq_downsample c) i = Some d
    /\ projector_out_features b
       = Some (_IdentityBasis.backcast_size (NHITSBlock.basis b)
               + _IdentityBasis.out_features (NHITSBlock.basis b)
                 * Z.max (NHITS.cfg_h c / d) 1)%Z
    /\ _IdentityBasis.backcast_size (NHITSBlock.basis b) = NHITS.cfg_input_size c
    /\ _IdentityBasis.out_features (NHITSBlock.basis b)
       = NHITS.outputsize_multiplier (NHITS.cfg_loss c)
    /\ _IdentityBasis.forecast_size (NHITSBlock.basis b) = NHITS.cfg_h c.

(** An entry of [mlp_units] gives the two widths of a layer, both
    positive. *)
Definition layer_widths (layer : list Z) : Prop :=
  (2 <= length layer)%nat /\ (0 < nth 0 layer 0)%Z /\ (0 < nth 1 layer 0)%Z.

(** The settings every block shares are acceptable to the constructors:
    known names, no dropout, layers with positive widths, and a positive
    horizon, lookback and number of outputs. *)
Definition valid_settings (c : NHITS.config) : Prop :=
  Py.mem (NHITS.activation c) ACTIVATIONS = true
  /\ Py.mem (NHITS.pooling_mode c) POOLING = true
  /\ (Py.mem (NHITS.interpolation_mode c) ["linear"; "nearest"]
      || Py.contains "cubic" (NHITS.interpolation_mode c))%bool = true
  /\ ~ (Q2Qc 0 < NHITS.dropout_prob_theta c)%Qc
  /\ NHITS.mlp_units c <> []
  /\ Forall layer_widths (NHITS.mlp_units c)
  /\ (0 < NHITS.cfg_h c)%Z
  /\ (0 < NHITS.cfg_input_size c)%Z
  /\ (0 < NHITS.outputsize_multiplier (NHITS.cfg_loss c))%Z.

(** Stack [i] is an identity stack with a positive pooling kernel and a
    downsampling ratio other than zero. *)
Definition stack_ready (c : NHITS.config) (i : nat) : Prop :=
  nth_error (NHITS.stack_types c) i = Some "identity"
  /\ (exists d, nth_error (NHITS.n_freq_downsample c) i = Some d /\ d <> 0%Z)
  /\ (exists k, nth_error (NHITS.n_pool_kernel_size c) i = Some k /\ (0 < k)%Z).

(** Every stack is an identity stack, and the lists of kernel sizes and of
    downsampling ratios have an entry for each of them, the kernel sizes
    positive and the ratios not zero. *)
Definition stacks_ready (c : NHITS.config) : Prop :=
  Forall (eq "identity") (NHITS.stack_types c)
  /\ (length (NHITS.stack_types c) <= length (NHITS.n_pool_kernel_size c))%nat
  /\ (length (NHITS.stack_types c) <= length (NHITS.n_freq_downsample c))%nat
  /\ Forall (fun k => (0 < k)%Z) (NHITS.n_pool_kernel_size c)
  /\ Forall (fun d => d <> 0%Z) (NHITS.n_freq_downsample c).

(** A configuration with other stack types. *)
Definition with_stack_types (c : NHITS.config) (stack_types : list string)
  : NHITS.config :=
  {| NHITS.cfg_h := NHITS.cfg_h c;
     NHITS.cfg_input_size := NHITS.cfg_input_size c;
     NHITS.futr_exog_list := NHITS.futr_exog_list c;
     NHITS.hist_exog_list := NHITS.hist_exog_list c;
     NHITS.stat_exog_list := NHITS.stat_exog_list c;
     NHITS.stack_types := stack_types;
     NHITS.n_blocks := NHITS.n_blocks c;
     NHITS.mlp_units := NHITS.mlp_units c;
     NHITS.n_pool_kernel_size := NHITS.n_pool_kernel_size c;
     NHITS.n_freq_downsample := NHITS.n_freq_downsample c;
     NHITS.pooling_mode := NHITS.pooling_mode c;
     NHITS.interpolation_mode := NHITS.interpolation_mode c;
     NHITS.dropout_prob_theta := NHITS.dropout_prob_theta c;
     NHITS.activation := NHITS.activation c;
     NHITS.cfg_loss := NHITS.cfg_loss c |}.


(** The naive forecast: for every sample the last value of the lookback
    window, at each of [h] horizon steps and [q] output features. *)
Definition baseline (h q : nat) (insample_y : tensor2) : tensor3 :=
  map (fun row => repeat (repeat (last row (Q2Qc 0)) q) h) insample_y.

(** Entry by entry sum of two tensors of one shape. *)
Definition add_entrywise (a b : tensor3) : tensor3 :=
  Torch.zip_with (Torch.zip_with (Torch.zip_with Qcplus)) a b.

(** The forecasts of the blocks of a model along the chain of residuals:
    each block is run on the residual its predecessor left, and
    [block_outputs wb mask r blocks bfs] holds when every block of [blocks]
    returns and the residual updates go through, [bfs] being the block
    forecasts in order. *)
Inductive block_outputs (wb : NHITS.windows_batch) (mask : tensor2)
  : tensor2 -> list NHITSBlock.t -> list tensor3 -> Prop :=
| outputs_nil (r : tensor2) : block_outputs wb mask r [] []
| outputs_cons (r : tensor2) (block : NHITSBlock.t) (blocks : list NHITSBlock.t)
               (backcast difference r' : tensor2) (block_forecast : tensor3)
               (bfs : list tensor3) :
    NHITSBlock.forward block r (NHITS.futr_exog wb) (NHITS.hist_exog wb)
                       (NHITS.stat_exog wb) = Ok (backcast, block_forecast) ->
    Torch.sub2 r backcast = Ok difference ->
    Torch.mul2 difference mask = Ok r' ->
    block_outputs wb mask r' blocks bfs ->
    block_outputs wb mask r (block :: blocks) (block_forecast :: bfs).

(** All blocks of a model forecast the horizon of the model with the
    number of outputs of its loss. *)
Definition uniform_bases (m : NHITS.t) : Prop :=
  Forall (fun b =>
            _IdentityBasis.forecast_size (NHITSBlock.basis b) = NHITS.h m
            /\ _IdentityBasis.out_features (NHITSBlock.basis b)
               = NHITS.outputsize_multiplier (NHITS.loss m))
         (NHITS.blocks m).

(** The width of the row of features a block assembles from a lookback of
    [l] steps, a horizon of [h], a pooling kernel of [k] and [ch], [cf]
    and [cs] historic, future and static exogenous variables: the pooled
    lookback, the pooled historic variables, the pooled future variables
    (which span lookback and horizon) and the static ones. *)
Definition feature_width (l h k ch cf cs : nat) : nat :=
  let l1 := ((l + k - 1) / k)%nat in
  let l2 := ((l + h + k - 1) / k)%nat in
  (l1 + l1 * ch + l2 * cf + cs)%nat.

(** A block that fits a model with lookback [l], horizon [h], [q] outputs
    per horizon step and [ch], [cf], [cs] exogenous variables: its basis
    has these sizes and interpolates in nearest or linear mode, its kernel
    is positive, and its layers take the features of the block to rows of
    [l + q * n] entries, for some number [n] of knots. *)
Definition well_formed_block (l h q ch cf cs : nat) (b : NHITSBlock.t) : Prop :=
  _IdentityBasis.forecast_size (NHITSBlock.basis b) = Z.of_nat h
  /\ _IdentityBasis.backcast_size (NHITSBlock.basis b) = Z.of_nat l
  /\ _IdentityBasis.out_features (NHITSBlock.basis b) = Z.of_nat q
  /\ Py.mem (_IdentityBasis.interpolation_mode (NHITSBlock.basis b))
            ["nearest"; "linear"] = true
  /\ (0 < nn.kernel_size (NHITSBlock.pooling_layer b))%Z
  /\ NHITSBlock.hist_input_size b = Z.of_nat ch
  /\ NHITSBlock.futr_input_size b = Z.of_nat cf
  /\ NHITSBlock.stat_input_size b = Z.of_nat cs
  /\ exists n,
      (0 < n)%nat
      /\ nn.check_widths
           (nn.modules (NHITSBlock.layers b))
           (Z.of_nat (feature_width l h
                        (Z.to_nat (nn.kernel_size (NHITSBlock.pooling_layer b)))
                        ch cf cs))
         = Ok (Z.of_nat (l + q * n))
      /\ forall x, length (nn.apply (NHITSBlock.layers b) x) = (l + q * n)%nat.

(** The exogenous tensors of a batch of [b] windows, where they are used. *)
Definition well_formed_exog (b l h ch cf cs : nat) (wb : NHITS.windows_batch) : Prop :=
  ((0 < ch)%nat -> has_shape3 b l ch (NHITS.hist_exog wb))
  /\ ((0 < cf)%nat -> has_shape3 b (l + h) cf (NHITS.futr_exog wb))
  /\ ((0 < cs)%nat -> has_shape2 b cs (NHITS.stat_exog wb)).

(** A batch of [b] windows for such a model. *)
Definition well_formed_window (b l h ch cf cs : nat) (wb : NHITS.windows_batch) : Prop :=
  has_shape2 b l (NHITS.insample_y wb)
  /\ has_shape2 b l (NHITS.insample_mask wb)
  /\ well_formed_exog b l h ch cf cs wb.

(** A model all of whose blocks fit it. *)
Definition well_formed_model (l h q ch cf cs : nat) (m : NHITS.t) : Prop :=
  NHITS.h m = Z.of_nat h
  /\ NHITS.outputsize_multiplier (NHITS.loss m) = Z.of_nat q
  /\ Forall (well_formed_block l h q ch cf cs) (NHITS.blocks m).

(** The two modules the constructor of a block adds for one entry of
    [mlp_units]. *)
Definition layer_modules (activation : string) (layer : list Z) : list nn.module :=
  [nn.Linear (nth 0 layer 0%Z) (nth 1 layer 0%Z); nn.Activation activation].

(** The modules of the projector of a block: an affine layer from the
    [width] features to the first width of [mlp_units], one affine layer
    and one activation for every entry of [mlp_units], and an affine layer
    to [n_theta] outputs. *)
Definition projector_modules (width : Z) (activation : string)
           (mlp_units : list (list Z)) (n_theta : Z) : list nn.module :=
  nn.Linear width (nth 0 (hd [] mlp_units) 0%Z)
  :: flat_map (layer_modules activation) mlp_units
  ++ [nn.Linear (nth 1 (last mlp_units []) 0%Z) n_theta].

(** Every layer of [mlp_units] takes rows of the width [w] the layer before
    it gives. *)
Fixpoint chained (w : Z) (mlp_units : list (list Z)) : Prop :=
  match mlp_units with
  | [] => True
  | layer :: rest => nth 0 layer 0%Z = w /\ chained (nth 1 layer 0%Z) rest
  end.

(** The layers an initialisation builds return rows of the width their
    last affine layer declares. *)
Definition respects_widths (init : nat -> list nn.module -> tensor1 -> tensor1) : Prop :=
  forall position modules i o x,
    last modules (nn.Activation "") = nn.Linear i o ->
    length (init position modules x) = Z.to_nat o.

(** A configuration whose blocks can run: positive sizes and kernels,
    nearest or linear interpolation, chained layer widths. *)
Definition runnable (c : NHITS.config) : Prop :=
  (0 < NHITS.cfg_h c)%Z
  /\ (0 < NHITS.cfg_input_size c)%Z
  /\ (0 < NHITS.outputsize_multiplier (NHITS.cfg_loss c))%Z
  /\ Py.mem (NHITS.interpolation_mode c) ["nearest"; "linear"] = true
  /\ Forall (fun k => (0 < k)%Z) (NHITS.n_pool_kernel_size c)
  /\ chained (nth 0 (hd [] (NHITS.mlp_units c)) 0%Z) (NHITS.mlp_units c).

(** * Worked examples *)

(** A projector whose weights are all zero and whose output bias counts up
    from the position of its block in the block list. *)
Definition counting_init (position : nat) (modules : list nn.module) (_ : tensor1)
  : tensor1 :=
  match last modules (nn.Activation "") with
  | nn.Linear _ o => map (fun j => Qc_of_nat (position + j)) (seq 0 (Z.to_nat o))
  | nn.Activation _ => []
  end.

(** A loss with [q] outputs per horizon step whose output mapping drops a
    trailing axis of size 1, as the point losses do. *)
Definition example_loss (q : Z) : NHITS.loss_t :=
  {| NHITS.outputsize_multiplier := q; NHITS.domain_map := Torch.squeeze_last3 |}.

(** Lookback 4, horizon 2, no exogenous variables. *)
Definition example_config (q : Z) (stack_types : list string) (n_blocks : list Z)
           (n_freq_downsample : list Z) (interpolation_mode : string) : NHITS.config :=
  {| NHITS.cfg_h := 2;
     NHITS.cfg_input_size := 4;
     NHITS.futr_exog_list := [];
     NHITS.hist_exog_list := [];
     NHITS.stat_exog_list := [];
     NHITS.stack_types := stack_types;
     NHITS.n_blocks := n_blocks;
     NHITS.mlp_units := [[8; 8]; [8; 8]]%Z;
     NHITS.n_pool_kernel_size := [2; 2]%Z;
     NHITS.n_freq_downsample := n_freq_downsample;
     NHITS.pooling_mode := "MaxPool1d";
     NHITS.interpolation_mode := interpolation_mode;
     NHITS.dropout_prob_theta := Q2Qc 0;
     NHITS.activation := "ReLU";
     NHITS.cfg_loss := example_loss q |}.

Definition no_blocks (q : Z) : NHITS.t :=
  {| NHITS.h := 2;
     NHITS.loss := example_loss q;
     NHITS.futr_input_size := 0;
     NHITS.hist_input_size := 0;
     NHITS.stat_input_size := 0;
     NHITS.decompose_forecast := false;
     NHITS.blocks := [] |}.

(** The model a configuration builds. *)
Definition model_of (c : NHITS.config) : NHITS.t :=
  match NHITS.__init__ counting_init c with
  | Ok m => m
  | Err _ => no_blocks 1
  end.

(** The model with decomposition switched on or off. *)
Definition set_decompose (flag : bool) (m : NHITS.t) : NHITS.t :=
  {| NHITS.h := NHITS.h m;
     NHITS.loss := NHITS.loss m;
     NHITS.futr_input_size := NHITS.futr_input_size m;
     NHITS.hist_input_size := NHITS.hist_input_size m;
     NHITS.stat_input_size := NHITS.stat_input_size m;
     NHITS.decompose_forecast := flag;
     NHITS.blocks := NHITS.blocks m |}.

Definition example_window : NHITS.windows_batch :=
  {| NHITS.insample_y := map (map Qc_of_Z) [[1; 2; 3; 4]; [5; 6; 7; 8]]%Z;
     NHITS.insample_mask := map (map Qc_of_Z) [[0; 1; 1; 1]; [1; 1; 1; 1]]%Z;
     NHITS.futr_exog := [];
     NHITS.hist_exog := [];
     NHITS.stat_exog := [] |}.

(** Two identity stacks, one block each, one output per horizon step. *)
Definition two_blocks : NHITS.t :=
  model_of (example_config 1 ["identity"; "identity"] [1; 1]%Z [2; 1]%Z "linear").

(** The same with two outputs per horizon step. *)
Definition two_blocks_two_outputs : NHITS.t :=
  model_of (example_config 2 ["identity"; "identity"] [1; 1]%Z [2; 1]%Z "linear").

(** * Properties *)

(** ** Tactics and list facts *)

Ltac inv_bind H :=
  match type of H with
  | bind ?r _ = Ok _ =>
      let x := fresh "x" in
      let E := fresh "E" in
      destruct r as [x|?] eqn:E; [cbn [bind] in H | discriminate H]
  end.

Lemma bind_ok {A B : Type} (r : result A) (k : A -> result B) (a : A) :
  r = Ok a -> bind r k = k a.
Proof. intros ->. reflexivity. Qed.

Lemma map_nth_seq0 {A : Type} (d : A) (l : list A) :
  map (fun i => nth i l d) (seq 0 (length l)) = l.
Proof.
  induction l as [|a l IH]; [reflexivity|].
  cbn [length seq map nth]. f_equal.
  rewrite <- seq_shift, map_map. exact IH.
Qed.


Lemma nth_skipn_add {A : Type} (d : A) (k i : nat) (l : list A) :
  nth i (skipn k l) d = nth (k + i) l d.
Proof.
  revert l. induction k as [|k IH]; intros l; [reflexivity|].
  destruct l as [|a l]; [destruct i; reflexivity|]. cbn. apply IH.
Qed.

Lemma nth_firstn_lt {A : Type} (d : A) (k i : nat) (l : list A) :
  (i < k)%nat -> nth i (firstn k l) d = nth i l d.
Proof.
  revert i l. induction k as [|k IH]; intros i l Hi; [lia|].
  destruct l as [|a l]; [destruct i; reflexivity|].
  destruct i as [|i]; [reflexivity|]. cbn. apply IH. lia.
Qed.

Lemma slice_to {A : Type} (n : nat) (l : list A) :
  Py.slice None (Some (Z.of_nat n)) l = firstn n l.
Proof.
  unfold Py.slice, Py.clip.
  destruct (Z.ltb_spec (Z.of_nat n) 0) as [H|_]; [lia|].
  rewrite Nat2Z.id, Nat.sub_0_r. cbn [skipn].
  destruct (Nat.le_ge_cases n (length l)) as [H|H].
  - now rewrite Nat.min_l.
  - rewrite Nat.min_r by assumption. now rewrite !firstn_all2.
Qed.

Lemma slice_from {A : Type} (n : nat) (l : list A) :
  Py.slice (Some (Z.of_nat n)) None l = skipn n l.
Proof.
  unfold Py.slice, Py.clip.
  destruct (Z.ltb_spec (Z.of_nat n) 0) as [H|_]; [lia|].
  rewrite Nat2Z.id.
  destruct (Nat.le_ge_cases n (length l)) as [H|H].
  - rewrite Nat.min_l by assumption.
    apply firstn_all2. rewrite length_skipn. lia.
  - rewrite Nat.min_r by assumption.
    rewrite Nat.sub_diag. cbn [firstn]. symmetry. now apply skipn_all2.
Qed.

(** ** Rational arithmetic of the interpolation weights *)

Lemma Qc_of_nat_nonneg (n : nat) : (0 <= Qc_of_nat n)%Qc.
Proof.
  unfold Qc_of_nat, Qcle. cbn [this Q2Qc].
  rewrite !Qred_correct. unfold Qle. cbn. lia.
Qed.

Lemma Qc_of_nat_nonzero (n : nat) : (0 < n)%nat -> Qc_of_nat n <> Q2Qc 0.
Proof.
  intros Hn E. apply (f_equal this) in E. unfold Qc_of_nat in E. cbn [this Q2Qc] in E.
  assert (Hq : (inject_Z (Z.of_nat n) == 0)%Q).
  { rewrite <- (Qred_correct (inject_Z (Z.of_nat n))), E. apply Qred_correct. }
  unfold Qeq in Hq. cbn in Hq. lia.
Qed.

Lemma Qfloor_of_nat (n : nat) : Qfloor (Qc_of_nat n) = Z.of_nat n.
Proof.
  unfold Qc_of_nat. cbn [this Q2Qc].
  rewrite (Qfloor_comp _ _ (Qred_correct _)). apply Qfloor_Z.
Qed.

Lemma Qcmax_nonneg (x : Qc) : (0 <= x)%Qc -> Qcmax x 0 = x.
Proof.
  intros H. unfold Qcmax. destruct (Qclt_le_dec x 0) as [Hlt|_]; [|reflexivity].
  exfalso. exact (Qclt_not_le _ _ Hlt H).
Qed.

(** ** The interpolation kernels at their two extreme sizes *)

Lemma nearest1d_same_size (xs : tensor1) :
  F.nearest1d (length xs) xs = xs.
Proof.
  unfold F.nearest1d.
  transitivity (map (fun i => nth i xs (Q2Qc 0)) (seq 0 (length xs)));
    [|apply map_nth_seq0].
  apply map_ext_in. intros i Hi. apply in_seq in Hi.
  rewrite Nat.div_mul by lia. f_equal. lia.
Qed.

Lemma Qcmax_idem (x : Qc) : Qcmax x x = x.
Proof. unfold Qcmax. destruct (Qclt_le_dec x x); reflexivity. Qed.

Lemma lam_zero : Qcmin (Qcmax (Q2Qc 0) (Q2Qc 0)) (Q2Qc 1) = Q2Qc 0.
Proof.
  rewrite Qcmax_idem. unfold Qcmin.
  destruct (Qclt_le_dec (Q2Qc 0) (Q2Qc 1)) as [_|H]; [reflexivity|].
  exfalso. apply (Qcle_not_lt _ _ H). reflexivity.
Qed.

Lemma linear1d_same_size (xs : tensor1) :
  F.linear1d (length xs) xs = xs.
Proof.
  unfold F.linear1d, F.linear1d_with, F.linear_source.
  rewrite Nat.eqb_refl.
  transitivity (map (fun i => nth i xs (Q2Qc 0)) (seq 0 (length xs)));
    [|apply map_nth_seq0].
  apply map_ext. intros i. unfold F.exact. cbv beta iota. ring.
Qed.


Lemma linear1d_with_length (rnd : Qc -> Qc) (size : nat) (xs : tensor1) :
  length (F.linear1d_with rnd size xs) = size.
Proof. unfold F.linear1d_with. now rewrite length_map, length_seq. Qed.

(** ** Shapes *)

Lemma shape3_of_has_shape (k m n : nat) (t : tensor3) :
  (0 < k)%nat -> (0 < m)%nat -> has_shape3 k m n t -> shape3 t = [k; m; n].
Proof.
  intros Hk Hm [Hlen Hall]. destruct t as [|a t]; [cbn in Hlen; lia|].
  apply Forall_inv in Hall. destruct Hall as [Ha Hrows].
  destruct a as [|r a]; [cbn in Ha; lia|].
  apply Forall_inv in Hrows. rename Hrows into Hr.
  unfold shape3, shape2, shape1. cbn [hd]. now rewrite Hlen, Ha, Hr.
Qed.

Lemma shape2_of_has_shape (m n : nat) (t : tensor2) :
  (0 < m)%nat -> has_shape2 m n t -> shape2 t = [m; n].
Proof.
  intros Hm [Hlen Hall]. destruct t as [|r t]; [cbn in Hlen; lia|].
  apply Forall_inv in Hall. rename Hall into Hr.
  unfold shape2, shape1. cbn [hd]. now rewrite Hlen, Hr.
Qed.

Lemma chunks_has_shape (q n : nat) (row : tensor1) :
  length row = (q * n)%nat -> has_shape2 q n (Torch.chunks q n row).
Proof.
  intros Hrow. unfold Torch.chunks. split.
  - now rewrite length_map, length_seq.
  - apply Forall_forall. intros c Hc. apply in_map_iff in Hc as [j [<- Hj]].
    apply in_seq in Hj. unfold has_shape1.
    rewrite length_firstn, length_skipn, Hrow. nia.
Qed.

Lemma reshape_q_ok (q n : nat) (t : tensor2) :
  t <> [] -> (0 < q)%nat -> Forall (fun r => length r = (q * n)%nat) t ->
  Torch.reshape_q (Z.of_nat q) t = Ok (map (Torch.chunks q n) t).
Proof.
  intros Ht Hq Hall. unfold Torch.reshape_q.
  destruct t as [|r t]; [congruence|].
  apply Forall_inv in Hall. rename Hall into Hr. cbn [hd length].
  cbn [Nat.eqb orb].
  destruct (Z.leb_spec (Z.of_nat q) 0) as [H|_]; [lia|].
  rewrite Hr, Nat2Z.inj_mul, Z.mul_comm, Z_mod_mult. cbn [Z.eqb].
  rewrite Nat2Z.id, Nat.mul_comm, Nat.div_mul by lia. reflexivity.
Qed.

Lemma reshape_q_has_shape (q n : nat) (t : tensor2) :
  Forall (fun r => length r = (q * n)%nat) t ->
  has_shape3 (length t) q n (map (Torch.chunks q n) t).
Proof.
  intros Hall. split; [apply length_map|].
  apply Forall_map. eapply Forall_impl; [|exact Hall].
  intros r Hr. now apply chunks_has_shape.
Qed.

Lemma interpolate_with_ok (rnd : Qc -> Qc) (k m n size : nat) (mode : string)
      (t : tensor3) :
  (0 < k)%nat -> (0 < m)%nat -> (0 < n)%nat -> (0 < size)%nat ->
  has_shape3 k m n t ->
  F.interpolate_with rnd t (Z.of_nat size) mode
  = if String.eqb mode "nearest" then Ok (map (map (F.nearest1d size)) t)
    else if String.eqb mode "linear" then Ok (map (map (F.linear1d_with rnd size)) t)
    else Err (NotImplementedError "Got 3D input, but the mode needs another rank").
Proof.
  intros Hk Hm Hn Hs Ht. unfold F.interpolate_with.
  rewrite (shape3_of_has_shape Hk Hm Ht).
  destruct n as [|n]; [lia|]. cbn [Nat.eqb orb].
  destruct (Z.leb_spec (Z.of_nat size) 0) as [H|_]; [lia|].
  now rewrite Nat2Z.id.
Qed.

Lemma interpolate_ok (k m n size : nat) (mode : string) (t : tensor3) :
  (0 < k)%nat -> (0 < m)%nat -> (0 < n)%nat -> (0 < size)%nat ->
  has_shape3 k m n t ->
  F.interpolate t (Z.of_nat size) mode
  = if String.eqb mode "nearest" then Ok (map (map (F.nearest1d size)) t)
    else if String.eqb mode "linear" then Ok (map (map (F.linear1d size)) t)
    else Err (NotImplementedError "Got 3D input, but the mode needs another rank").
Proof. apply interpolate_with_ok. Qed.

Lemma transpose_rect (m n : nat) (t : tensor2) :
  (0 < m)%nat -> has_shape2 m n t ->
  Torch.transpose (Q2Qc 0) t
  = map (fun j => map (fun r => nth j r (Q2Qc 0)) t) (seq 0 n).
Proof.
  intros Hm [Hlen Hall]. unfold Torch.transpose.
  destruct t as [|r t]; [cbn in Hlen; lia|].
  apply Forall_inv in Hall. rename Hall into Hr. cbn [hd]. now rewrite Hr.
Qed.



Lemma basis_slices (L : nat) (theta : tensor2) :
  map (Py.slice None (Some (Z.of_nat L))) theta = map (firstn L) theta
  /\ map (Py.slice (Some (Z.of_nat L)) None) theta = map (@skipn Qc L) theta.
Proof.
  split; apply map_ext; intros row; [apply slice_to | apply slice_from].
Qed.

Lemma knots_width (L w : nat) (theta : tensor2) :
  Forall (fun row => length row = (L + w)%nat) theta ->
  Forall (fun r => length r = w) (map (@skipn Qc L) theta).
Proof.
  intros H. apply Forall_map. eapply Forall_impl; [|exact H].
  cbn beta. intros row Hrow. rewrite length_skipn. lia.
Qed.

(** The knots of one sample, laid out as the forecast is: horizon step by
    horizon step, one entry per output feature. *)
Lemma transpose_chunks (L H Q : nat) (row : tensor1) :
  (0 < Q)%nat -> length row = (L + Q * H)%nat ->
  Torch.transpose (Q2Qc 0) (Torch.chunks Q H (skipn L row))
  = map (fun t => map (fun q => nth (L + q * H + t) row (Q2Qc 0)) (seq 0 Q)) (seq 0 H).
Proof.
  intros HQ Hrow.
  rewrite (@transpose_rect Q H) by
    (first [assumption | apply chunks_has_shape; rewrite length_skipn; lia]).
  apply map_ext_in. intros t Ht. apply in_seq in Ht.
  unfold Torch.chunks. rewrite map_map. apply map_ext. intros q.
  rewrite nth_firstn_lt by lia. rewrite !nth_skipn_add. f_equal. lia.
Qed.

(** C7.  When there are as many knots per output feature as horizon steps,
    the basis in nearest and in linear mode is the identity on the knots:
    the backcast is the first [backcast_size] entries of theta, and entry
    [(t, q)] of the forecast of a sample is knot [t] of feature [q], entry
    [backcast_size + q * H + t] of its theta. *)
Theorem basis_identity_when_knots_eq_horizon
        (mode : string) (L H Q : nat) (theta : tensor2) :
  mode = "nearest" \/ mode = "linear" ->
  (0 < H)%nat -> (0 < Q)%nat -> theta <> [] ->
  Forall (fun row => length row = (L + Q * H)%nat) theta ->
  _IdentityBasis.forward
    {| _IdentityBasis.forecast_size := Z.of_nat H;
       _IdentityBasis.backcast_size := Z.of_nat L;
       _IdentityBasis.interpolation_mode := mode;
       _IdentityBasis.out_features := Z.of_nat Q |} theta
  = Ok (map (firstn L) theta,
        map (fun row =>
               map (fun t => map (fun q => nth (L + q * H + t) row (Q2Qc 0)) (seq 0 Q))
                   (seq 0 H))
            theta).
Proof.
  intros Hmode HH HQ Hne Hrows.
  unfold _IdentityBasis.forward, _IdentityBasis.forward_with.
  change (F.interpolate_with F.exact) with F.interpolate.
  cbn [_IdentityBasis.forecast_size _IdentityBasis.backcast_size
       _IdentityBasis.interpolation_mode _IdentityBasis.out_features].
  destruct (basis_slices L theta) as [-> ->].
  pose proof (knots_width _ _ Hrows) as Hk.
  rewrite (@reshape_q_ok Q H) by
    (first [assumption | destruct theta; [congruence | discriminate]]).
  cbn [bind].
  assert (Hshape : has_shape3 (length theta) Q H
                     (map (Torch.chunks Q H) (map (@skipn Qc L) theta))).
  { pose proof (@reshape_q_has_shape Q H _ Hk) as Hs.
    rewrite length_map in Hs. exact Hs. }
  assert (HB : (0 < length theta)%nat) by (destruct theta; [congruence | cbn; lia]).
  assert (Hinterp :
            F.interpolate (map (Torch.chunks Q H) (map (@skipn Qc L) theta))
                          (Z.of_nat H) mode
            = Ok (map (Torch.chunks Q H) (map (@skipn Qc L) theta))).
  { rewrite (interpolate_ok mode HB HQ HH HH Hshape).
    assert (Hid : forall kernel : nat -> tensor1 -> tensor1,
               (forall xs, kernel (length xs) xs = xs) ->
               map (map (kernel H)) (map (Torch.chunks Q H) (map (@skipn Qc L) theta))
               = map (Torch.chunks Q H) (map (@skipn Qc L) theta)).
    { intros kernel Hkernel. destruct Hshape as [_ Hall].
      rewrite <- (map_id (map (Torch.chunks Q H) (map (@skipn Qc L) theta))) at 2.
      apply map_ext_in. intros m Hm.
      rewrite Forall_forall in Hall. destruct (Hall m Hm) as [_ Hm'].
      rewrite <- (map_id m) at 2. apply map_ext_in. intros c Hc.
      rewrite Forall_forall in Hm'. rewrite <- (Hm' c Hc). apply Hkernel. }
    destruct Hmode as [-> | ->].
    - replace ("nearest" =? "nearest")%string with true by reflexivity.
      now rewrite (Hid F.nearest1d nearest1d_same_size).
    - replace ("linear" =? "nearest")%string with false by reflexivity.
      replace ("linear" =? "linear")%string with true by reflexivity.
      now rewrite (Hid F.linear1d linear1d_same_size). }
  assert (Hmem : Py.mem mode ["nearest"; "linear"] = true)
    by (destruct Hmode as [-> | ->]; reflexivity).
  rewrite Hmem, Hinterp. cbn [bind]. f_equal. f_equal.
  unfold Torch.permute021. rewrite !map_map.
  apply map_ext_in. intros row Hrow.
  rewrite Forall_forall in Hrows. now apply transpose_chunks; [|apply Hrows].
Qed.

(** ** Loops *)

Lemma for_each_app {I S : Type} (l1 l2 : list I) (body : I -> S -> result S) (s : S) :
  for_each (l1 ++ l2) body s = (s' <- for_each l1 body s ;; for_each l2 body s').
Proof.
  revert s. induction l1 as [|i l1 IH]; intros s; [reflexivity|].
  cbn [app for_each]. destruct (body i s) as [s'|e]; cbn [bind]; [apply IH | reflexivity].
Qed.

Lemma for_each_ext_in {I S : Type} (idx : list I) (body body' : I -> S -> result S) :
  (forall i s, In i idx -> body i s = body' i s) ->
  forall s, for_each idx body s = for_each idx body' s.
Proof.
  induction idx as [|i idx IH]; intros Hext s; [reflexivity|].
  cbn [for_each]. rewrite (Hext i s) by (left; reflexivity).
  destruct (body' i s); cbn [bind]; [|reflexivity].
  apply IH. intros j s' Hj. apply Hext. now right.
Qed.

Lemma for_each_raises_at {I S : Type} (idx : list I) (body : I -> S -> result S) (i : I) :
  In i idx -> (forall s, exists e, body i s = Err e) ->
  forall s, exists e, for_each idx body s = Err e.
Proof.
  intros Hin Hbody. induction idx as [|j idx IH]; intros s; [contradiction|].
  cbn [for_each]. destruct Hin as [-> | Hin].
  - destruct (Hbody s) as [e ->]. now exists e.
  - destruct (body j s) as [s'|e]; cbn [bind]; [now apply IH | now exists e].
Qed.

(** ** Python indexing *)

Lemma nth_error_lt {A : Type} (l : list A) (i : nat) (a : A) :
  nth_error l i = Some a -> (i < length l)%nat.
Proof. intros H. apply nth_error_Some. congruence. Qed.

Lemma nth_error_firstn_lt {A : Type} (l : list A) (i j : nat) :
  (j < i)%nat -> nth_error (firstn i l) j = nth_error l j.
Proof.
  revert l j. induction i as [|i IH]; intros l j Hj; [lia|].
  destruct l as [|a l]; [reflexivity|].
  destruct j as [|j]; [reflexivity|]. cbn. apply IH. lia.
Qed.

Lemma index_of_nat {A : Type} (l : list A) (i : nat) :
  Py.index l (Z.of_nat i)
  = match nth_error l i with Some a => Ok a | None => Err Py.out_of_range end.
Proof.
  unfold Py.index.
  destruct (Z.ltb_spec (Z.of_nat i) 0) as [H|_]; [lia|].
  destruct (Z.ltb_spec (Z.of_nat i) 0) as [H|_]; [lia|].
  now rewrite Nat2Z.id.
Qed.

Lemma index_last {A : Type} (d : A) (l : list A) :
  l <> [] -> Py.index l (-1) = Ok (last l d).
Proof.
  intros Hl. unfold Py.index, Py.len. cbn [Z.ltb Z.compare].
  destruct (exists_last Hl) as [l' [a ->]].
  rewrite length_app, last_last. cbn [length].
  destruct (Z.ltb_spec (-1 + Z.of_nat (length l' + 1)) 0) as [H|_]; [lia|].
  replace (Z.to_nat (-1 + Z.of_nat (length l' + 1))) with (length l' + 0)%nat by lia.
  now rewrite nth_error_app2, Nat.add_0_r, Nat.sub_diag by lia.
Qed.

Lemma index_0 {A : Type} (a : A) (l : list A) : Py.index (a :: l) 0 = Ok a.
Proof. reflexivity. Qed.

Lemma index_1 {A : Type} (a b : A) (l : list A) : Py.index (a :: b :: l) 1 = Ok b.
Proof. reflexivity. Qed.

(** ** What the constructors build *)

Ltac inv_ok H :=
  repeat match type of H with
    | bind ?r _ = Ok _ =>
        let E := fresh "E" in
        destruct r eqn:E; cbn [bind] in H; [|discriminate H]
    | (if ?c then _ else _) = Ok _ =>
        let E := fresh "E" in
        destruct c eqn:E; try discriminate H
    end.

Lemma Linear_init_ok (i o : Z) :
  (0 <= i)%Z -> (0 <= o)%Z -> nn.Linear_init i o = Ok (nn.Linear i o).
Proof.
  intros Hi Ho. unfold nn.Linear_init.
  destruct (Z.ltb_spec i 0) as [|_]; [lia|].
  destruct (Z.ltb_spec o 0) as [|_]; [lia|]. reflexivity.
Qed.

Lemma Linear_init_inv (i o : Z) (m : nn.module) :
  nn.Linear_init i o = Ok m -> m = nn.Linear i o /\ (0 <= i)%Z /\ (0 <= o)%Z.
Proof.
  unfold nn.Linear_init.
  destruct (Z.ltb_spec i 0) as [|Hi]; [discriminate|].
  destruct (Z.ltb_spec o 0) as [|Ho]; [discriminate|].
  cbn [orb]. intros H. injection H as <-. auto.
Qed.

Lemma block_init_layers init input_size h n_theta mlp_units basis
      futr hist stat k pooling_mode dropout activation b :
  NHITSBlock.__init__ init input_size h n_theta mlp_units basis
                      futr hist stat k pooling_mode dropout activation = Ok b ->
  NHITSBlock.basis b = basis
  /\ exists hidden width,
      nn.modules (NHITSBlock.layers b) = hidden ++ [nn.Linear width n_theta].
Proof.
  unfold NHITSBlock.__init__. intros H. inv_ok H.
  injection H as <-. cbn. split; [reflexivity|].
  match goal with
  | E : nn.Linear_init ?w n_theta = Ok _ |- _ => apply Linear_init_inv in E as [-> _]
  end.
  eauto.
Qed.

Lemma add_layers_ok (activation : string) (dropout : Qc)
      (layers : list (list Z)) (acc : list nn.module) :
  ~ (Q2Qc 0 < dropout)%Qc ->
  Forall layer_widths layers ->
  exists hidden,
    for_each layers (NHITSBlock.add_layer activation dropout) acc = Ok hidden.
Proof.
  intros Hdrop Hall. revert acc.
  induction Hall as [|layer layers Hlayer _ IH]; intros acc; cbn [for_each].
  - now exists acc.
  - destruct Hlayer as (Hlen & Hin & Hout).
    destruct layer as [|a [|b layer]]; cbn in Hlen; try lia.
    cbn [nth] in Hin, Hout.
    unfold NHITSBlock.add_layer at 1. rewrite index_0, index_1. cbn [bind].
    rewrite Linear_init_ok by lia. cbn [bind].
    destruct (Qclt_le_dec (Q2Qc 0) dropout) as [Hlt|_]; [contradiction|].
    apply IH.
Qed.

Lemma ceil_nonneg (a k : Z) : (0 <= a)%Z -> (0 < k)%Z -> (0 <= - (- a / k))%Z.
Proof.
  intros Ha Hk. assert (- a / k <= 0)%Z; [|lia].
  apply Z.div_le_upper_bound; lia.
Qed.

Section CreateStack.

Variable init : nat -> list nn.module -> tensor1 -> tensor1.
Variable c : NHITS.config.

Local Abbreviation create_block :=
  (NHITS.create_block (NHITS.cfg_loss c) init (NHITS.cfg_h c) (NHITS.cfg_input_size c)
     (NHITS.stack_types c) (NHITS.mlp_units c)
     (NHITS.n_pool_kernel_size c) (NHITS.n_freq_downsample c)
     (NHITS.pooling_mode c) (NHITS.interpolation_mode c)
     (NHITS.dropout_prob_theta c) (NHITS.activation c)
     (Py.len (NHITS.futr_exog_list c)) (Py.len (NHITS.hist_exog_list c))
     (Py.len (NHITS.stat_exog_list c))).

Local Abbreviation create_stack_blocks :=
  (NHITS.create_stack_blocks (NHITS.cfg_loss c) init (NHITS.cfg_h c)
     (NHITS.cfg_input_size c) (NHITS.stack_types c) (NHITS.n_blocks c)
     (NHITS.mlp_units c) (NHITS.n_pool_kernel_size c) (NHITS.n_freq_downsample c)
     (NHITS.pooling_mode c) (NHITS.interpolation_mode c)
     (NHITS.dropout_prob_theta c) (NHITS.activation c)
     (Py.len (NHITS.futr_exog_list c)) (Py.len (NHITS.hist_exog_list c))
     (Py.len (NHITS.stat_exog_list c))).

Lemma create_block_built (i : nat) (bl bl' : list NHITSBlock.t) :
  create_block i bl = Ok bl' -> exists b, bl' = bl ++ [b] /\ built_for c i b.
Proof.
  unfold NHITS.create_block. intros H.
  rewrite !index_of_nat in H.
  destruct (nth_error (NHITS.stack_types c) i) as [t|]; cbn [bind] in H; [|discriminate].
  destruct (negb (t =? "identity")%string); [discriminate|].
  destruct (nth_error (NHITS.n_freq_downsample c) i) as [d|] eqn:Ed;
    cbn [bind] in H; [|discriminate].
  unfold Py.floordiv in H. destruct (d =? 0)%Z; cbn [bind] in H; [discriminate|].
  unfold _IdentityBasis.__init__ in H.
  destruct (_ || _)%bool; cbn [bind] in H; [|discriminate].
  destruct (nth_error (NHITS.n_pool_kernel_size c) i) as [k|];
    cbn [bind] in H; [|discriminate].
  match type of H with bind ?r _ = _ => destruct r as [b|] eqn:Eb end;
    cbn [bind] in H; [|discriminate].
  injection H as <-. exists b. split; [reflexivity|].
  apply block_init_layers in Eb as [Hbasis [hidden [width Hmods]]].
  exists d. split; [exact Ed|].
  split; [unfold projector_out_features; rewrite Hmods, last_last, Hbasis; reflexivity|].
  rewrite Hbasis. cbn. repeat split; reflexivity.
Qed.

Lemma inner_loop_built (i : nat) (idx : list nat) (bl bl' : list NHITSBlock.t) :
  for_each idx (fun _ bl => create_block i bl) bl = Ok bl' ->
  exists new, bl' = bl ++ new /\ Forall2 (built_for c) (repeat i (length idx)) new.
Proof.
  revert bl. induction idx as [|j idx IH]; intros bl H; cbn [for_each] in H.
  - injection H as <-. exists []. rewrite app_nil_r. split; [reflexivity | constructor].
  - match type of H with bind ?r _ = _ => destruct r as [bl1|] eqn:E end;
      cbn [bind] in H; [|discriminate].
    apply create_block_built in E as [b [-> Hb]].
    apply IH in H as [new [-> Hnew]].
    exists (b :: new). rewrite <- app_assoc. split; [reflexivity|].
    cbn [length repeat]. now constructor.
Qed.

Lemma outer_loop_built (idx : list nat) (bl bl' : list NHITSBlock.t) :
  for_each idx create_stack_blocks bl = Ok bl' ->
  exists new,
    bl' = bl ++ new
    /\ Forall2 (built_for c)
               (flat_map (fun i => repeat i (Z.to_nat (nth i (NHITS.n_blocks c) 0%Z))) idx)
               new.
Proof.
  revert bl. induction idx as [|i idx IH]; intros bl H; cbn [for_each] in H.
  - injection H as <-. exists []. rewrite app_nil_r. split; [reflexivity | constructor].
  - match type of H with bind ?r _ = _ => destruct r as [bl1|] eqn:E end;
      cbn [bind] in H; [|discriminate].
    unfold NHITS.create_stack_blocks in E. rewrite index_of_nat in E.
    destruct (nth_error (NHITS.n_blocks c) i) as [n|] eqn:En;
      cbn [bind] in E; [|discriminate].
    apply inner_loop_built in E as [new1 [-> H1]].
    apply IH in H as [new2 [-> H2]].
    exists (new1 ++ new2). rewrite <- app_assoc. split; [reflexivity|].
    cbn [flat_map]. apply Forall2_app; [|exact H2].
    rewrite (nth_error_nth _ _ _ En).
    unfold Py.range in H1. now rewrite length_seq in H1.
Qed.

(** *** When construction goes through *)

Lemma block_init_ok init' n_theta basis k :
  valid_settings c -> (0 < k)%Z -> (0 <= n_theta)%Z ->
  exists b,
    NHITSBlock.__init__ init' (NHITS.cfg_input_size c) (NHITS.cfg_h c) n_theta
      (NHITS.mlp_units c) basis
      (Py.len (NHITS.futr_exog_list c)) (Py.len (NHITS.hist_exog_list c))
      (Py.len (NHITS.stat_exog_list c))
      k (NHITS.pooling_mode c) (NHITS.dropout_prob_theta c) (NHITS.activation c) = Ok b.
Proof.
  intros (Hact & Hpool & _ & Hdrop & Hne & Hlayers & Hh & Hl & _) Hk Htheta.
  unfold NHITSBlock.__init__, Py.ceil_div.
  destruct (Z.eqb_spec k 0) as [->|_]; [lia|]. cbn [bind].
  rewrite Hact, Hpool. cbn [negb].
  destruct (NHITS.mlp_units c) as [|first rest] eqn:Eunits; [congruence|].
  rewrite index_0. cbn [bind].
  pose proof (Forall_inv Hlayers) as (Hfirst & Hin & _).
  destruct first as [|a [|b first]]; cbn in Hfirst; try lia.
  cbn [nth] in Hin.
  rewrite index_0. cbn [bind].
  rewrite Linear_init_ok; [|
    pose proof (@ceil_nonneg (NHITS.cfg_input_size c) k ltac:(lia) Hk);
    pose proof (@ceil_nonneg (NHITS.cfg_input_size c + NHITS.cfg_h c) k ltac:(lia) Hk);
    unfold Py.len; nia | lia].
  cbn [bind].
  match goal with
  | |- context [for_each _ _ ?acc] =>
      destruct (@add_layers_ok (NHITS.activation c) (NHITS.dropout_prob_theta c)
                  _ acc Hdrop Hlayers) as [hidden ->]
  end.
  cbn [bind].
  rewrite (index_last []) by discriminate. cbn [bind].
  assert (Hlast : layer_widths (last ((a :: b :: first) :: rest) [])).
  { rewrite Forall_forall in Hlayers. apply Hlayers.
    destruct (@exists_last _ ((a :: b :: first) :: rest)) as [l' [x E]];
      [discriminate|].
    rewrite E, last_last. apply in_or_app. right. now left. }
  destruct Hlast as (Hlast & _ & Hout).
  destruct (last ((a :: b :: first) :: rest) []) as [|x [|y l]]; cbn in Hlast; try lia.
  cbn [nth] in Hout.
  rewrite index_1. cbn [bind]. rewrite Linear_init_ok by lia. cbn [bind]. eauto.
Qed.

Lemma create_block_ok (i : nat) (bl : list NHITSBlock.t) :
  valid_settings c -> stack_ready c i ->
  exists b, create_block i bl = Ok (bl ++ [b]).
Proof.
  intros Hvalid (Ht & (d & Hd & Hd0) & (k & Hk & Hk0)).
  unfold NHITS.create_block.
  rewrite !index_of_nat, Ht, Hd, Hk. cbn [bind].
  replace ("identity" =? "identity")%string with true by reflexivity. cbn [negb].
  unfold Py.floordiv. destruct (Z.eqb_spec d 0) as [->|_]; [congruence|]. cbn [bind].
  unfold _IdentityBasis.__init__.
  pose proof Hvalid as (_ & _ & Hmode & _ & _ & _ & _ & Hl & Hq). rewrite Hmode.
  cbn [bind].
  match goal with
  | |- context [NHITSBlock.__init__ ?f _ _ ?n _ ?bs _ _ _ _ _ _ _] =>
      destruct (@block_init_ok f n bs k Hvalid Hk0) as [b ->]; [nia|]
  end.
  cbn [bind]. eauto.
Qed.

Lemma inner_loop_ok (i : nat) (idx : list nat) (bl : list NHITSBlock.t) :
  valid_settings c -> stack_ready c i ->
  exists new, for_each idx (fun _ bl => create_block i bl) bl = Ok (bl ++ new).
Proof.
  intros Hvalid Hready. revert bl.
  induction idx as [|j idx IH]; intros bl; cbn [for_each].
  - exists []. now rewrite app_nil_r.
  - destruct (@create_block_ok i bl Hvalid Hready) as [b ->]. cbn [bind].
    destruct (IH (bl ++ [b])) as [new ->].
    exists (b :: new). now rewrite <- app_assoc.
Qed.

Lemma outer_loop_ok (idx : list nat) (bl : list NHITSBlock.t) :
  valid_settings c ->
  (forall i, In i idx -> stack_ready c i /\ (i < length (NHITS.n_blocks c))%nat) ->
  exists new, for_each idx create_stack_blocks bl = Ok (bl ++ new).
Proof.
  intros Hvalid. revert bl.
  induction idx as [|i idx IH]; intros bl Hidx; cbn [for_each].
  - exists []. now rewrite app_nil_r.
  - destruct (Hidx i (or_introl eq_refl)) as [Hready Hi].
    unfold NHITS.create_stack_blocks at 1. rewrite index_of_nat.
    destruct (nth_error (NHITS.n_blocks c) i) as [n|] eqn:En;
      [|apply nth_error_None in En; lia].
    cbn [bind].
    destruct (@inner_loop_ok i (Py.range n) bl Hvalid Hready) as [new1 ->].
    cbn [bind].
    destruct (IH (bl ++ new1)) as [new2 ->];
      [intros j Hj; apply Hidx; now right|].
    exists (new1 ++ new2). now rewrite <- app_assoc.
Qed.

Lemma stacks_ready_at (i : nat) :
  stacks_ready c -> (i < length (NHITS.stack_types c))%nat -> stack_ready c i.
Proof.
  intros (Hid & Hk & Hd & Hk0 & Hd0) Hi. unfold stack_ready.
  rewrite Forall_forall in Hid, Hk0, Hd0. repeat split.
  - destruct (nth_error (NHITS.stack_types c) i) as [t|] eqn:E;
      [|apply nth_error_None in E; lia].
    now rewrite (Hid t (nth_error_In _ _ E)).
  - destruct (nth_error (NHITS.n_freq_downsample c) i) as [d|] eqn:E;
      [|apply nth_error_None in E; lia].
    exists d. split; [reflexivity|]. apply Hd0. eapply nth_error_In, E.
  - destruct (nth_error (NHITS.n_pool_kernel_size c) i) as [k|] eqn:E;
      [|apply nth_error_None in E; lia].
    exists k. split; [reflexivity|]. apply Hk0. eapply nth_error_In, E.
Qed.

(** The loop over the first [n] stacks. *)
Lemma stacks_loop_ok (n : nat) :
  valid_settings c -> stacks_ready c ->
  (n <= length (NHITS.stack_types c))%nat -> (n <= length (NHITS.n_blocks c))%nat ->
  exists blocks, for_each (seq 0 n) create_stack_blocks [] = Ok blocks.
Proof.
  intros Hvalid Hready Hn Hlen.
  destruct (@outer_loop_ok (seq 0 n) [] Hvalid) as [new Hnew].
  - intros i Hi. apply in_seq in Hi.
    split; [apply stacks_ready_at; [assumption|lia] | lia].
  - exists new. exact Hnew.
Qed.

(** *** When a stack is not an identity stack *)

Lemma stack_body_rejects (i : nat) (t : string) (bl : list NHITSBlock.t) :
  nth_error (NHITS.stack_types c) i = Some t -> t <> "identity" ->
  (forall n, nth_error (NHITS.n_blocks c) i = Some n -> (0 < n)%Z) ->
  create_stack_blocks i bl
  = Err (if (i <? length (NHITS.n_blocks c))%nat
         then AssertionError (NHITS.block_type_not_found t)
         else Py.out_of_range).
Proof.
  intros Ht Hneq Hn. unfold NHITS.create_stack_blocks. rewrite index_of_nat.
  destruct (nth_error (NHITS.n_blocks c) i) as [n|] eqn:En; cbn [bind].
  - pose proof (nth_error_lt _ _ En) as Hi.
    destruct (Nat.ltb_spec i (length (NHITS.n_blocks c))) as [_|]; [|lia].
    specialize (Hn n eq_refl). unfold Py.range.
    destruct (Z.to_nat n) as [|m] eqn:Em; [lia|].
    cbn [seq for_each]. unfold NHITS.create_block at 1.
    rewrite index_of_nat, Ht. cbn [bind].
    apply String.eqb_neq in Hneq. rewrite Hneq. reflexivity.
  - apply nth_error_None in En.
    destruct (Nat.ltb_spec i (length (NHITS.n_blocks c))) as [|_]; [lia|].
    reflexivity.
Qed.

End CreateStack.

(** ** Construction of a model *)

Lemma create_block_firstn loss init h input_size stack_types mlp_units
      n_pool_kernel_size n_freq_downsample pooling_mode interpolation_mode
      dropout activation futr hist stat (i j : nat) (bl : list NHITSBlock.t) :
  (j < i)%nat ->
  NHITS.create_block loss init h input_size (firstn i stack_types) mlp_units
    n_pool_kernel_size n_freq_downsample pooling_mode interpolation_mode
    dropout activation futr hist stat j bl
  = NHITS.create_block loss init h input_size stack_types mlp_units
      n_pool_kernel_size n_freq_downsample pooling_mode interpolation_mode
      dropout activation futr hist stat j bl.
Proof.
  intros Hj. unfold NHITS.create_block.
  now rewrite !index_of_nat, nth_error_firstn_lt.
Qed.

Lemma create_stack_blocks_firstn loss init h input_size stack_types n_blocks mlp_units
      n_pool_kernel_size n_freq_downsample pooling_mode interpolation_mode
      dropout activation futr hist stat (i j : nat) (bl : list NHITSBlock.t) :
  (j < i)%nat ->
  NHITS.create_stack_blocks loss init h input_size (firstn i stack_types) n_blocks
    mlp_units n_pool_kernel_size n_freq_downsample pooling_mode interpolation_mode
    dropout activation futr hist stat j bl
  = NHITS.create_stack_blocks loss init h input_size stack_types n_blocks
      mlp_units n_pool_kernel_size n_freq_downsample pooling_mode interpolation_mode
      dropout activation futr hist stat j bl.
Proof.
  intros Hj. unfold NHITS.create_stack_blocks.
  destruct (Py.index n_blocks (Z.of_nat j)) as [n|e]; cbn [bind]; [|reflexivity].
  apply for_each_ext_in. intros _ s _. now apply create_block_firstn.
Qed.

Lemma init_unfold init c :
  NHITS.__init__ init c
  = (blocks <- for_each (seq 0 (length (NHITS.stack_types c)))
                 (NHITS.create_stack_blocks (NHITS.cfg_loss c) init (NHITS.cfg_h c)
                    (NHITS.cfg_input_size c) (NHITS.stack_types c) (NHITS.n_blocks c)
                    (NHITS.mlp_units c) (NHITS.n_pool_kernel_size c)
                    (NHITS.n_freq_downsample c) (NHITS.pooling_mode c)
                    (NHITS.interpolation_mode c) (NHITS.dropout_prob_theta c)
                    (NHITS.activation c) (Py.len (NHITS.futr_exog_list c))
                    (Py.len (NHITS.hist_exog_list c)) (Py.len (NHITS.stat_exog_list c)))
                 [] ;;
     Ok {| NHITS.h := NHITS.cfg_h c;
           NHITS.loss := NHITS.cfg_loss c;
           NHITS.futr_input_size := Py.len (NHITS.futr_exog_list c);
           NHITS.hist_input_size := Py.len (NHITS.hist_exog_list c);
           NHITS.stat_input_size := Py.len (NHITS.stat_exog_list c);
           NHITS.decompose_forecast := false;
           NHITS.blocks := blocks |}).
Proof.
  unfold NHITS.__init__, NHITS.create_stack, Py.range, Py.len.
  now rewrite Nat2Z.id.
Qed.

(** C9.  Every block of a constructed model has a projector of output
    width [n_theta = backcast_size + out_features * max (H // d) 1], where
    [backcast_size] is the input size, [out_features] the
    [outputsize_multiplier] of the loss and [d] the frequency-downsample
    ratio of the stack the block belongs to. *)
Theorem constructed_blocks_n_theta
        (init : nat -> list nn.module -> tensor1 -> tensor1)
        (c : NHITS.config) (m : NHITS.t) :
  NHITS.__init__ init c = Ok m ->
  Forall2 (built_for c) (block_stacks c) (NHITS.blocks m).
Proof.
  rewrite init_unfold. intros H.
  match type of H with bind ?r _ = _ => destruct r as [blocks|] eqn:E end;
    cbn [bind] in H; [|discriminate].
  injection H as <-. cbn [NHITS.blocks].
  apply outer_loop_built in E as [new [-> Hnew]]. exact Hnew.
Qed.

(** C5, as the code has it.  The constructor never compares the lengths of
    the per-stack lists.  With settings the constructors accept (known
    names, no dropout, layers of positive widths, a positive horizon,
    lookback and number of outputs) and identity stacks that all have a
    positive kernel size and a downsampling ratio other than zero,
    construction goes through whenever [n_blocks] has at least as many
    entries as [stack_types], equal lengths or not, and it stops on a bare
    [IndexError] when [n_blocks] has fewer. *)
Theorem construction_ignores_list_lengths
        (init : nat -> list nn.module -> tensor1 -> tensor1) (c : NHITS.config) :
  valid_settings c -> stacks_ready c ->
  ((length (NHITS.stack_types c) <= length (NHITS.n_blocks c))%nat ->
   exists m, NHITS.__init__ init c = Ok m)
  /\ ((length (NHITS.n_blocks c) < length (NHITS.stack_types c))%nat ->
      NHITS.__init__ init c = Err (IndexError "list index out of range")).
Proof.
  intros Hvalid Hready. rewrite init_unfold. split; intros Hlen.
  - destruct (@stacks_loop_ok init c (length (NHITS.stack_types c)) Hvalid Hready)
      as [blocks ->]; [lia | lia |].
    cbn [bind]. eauto.
  - replace (length (NHITS.stack_types c))
      with (length (NHITS.n_blocks c)
            + S (length (NHITS.stack_types c) - length (NHITS.n_blocks c) - 1))%nat
      by lia.
    rewrite seq_app, for_each_app.
    destruct (@stacks_loop_ok init c (length (NHITS.n_blocks c)) Hvalid Hready)
      as [blocks ->]; [lia | lia |].
    cbn [bind Nat.add seq for_each].
    unfold NHITS.create_stack_blocks at 1. rewrite index_of_nat.
    destruct (nth_error (NHITS.n_blocks c) (length (NHITS.n_blocks c))) eqn:E;
      [|reflexivity].
    apply nth_error_lt in E. lia.
Qed.

(** C6, as the code has it.  A stack type other than "identity" at a stack
    that is to have at least one block makes construction fail.  When the
    stacks before it can be built, the exception is the assertion error
    "Block type <type> not found!", which gives the type of the stack and
    not its index, if [n_blocks] has an entry for the stack, and the
    [IndexError] of the lookup [n_blocks[i]] if it has none. *)
Theorem non_identity_stack_rejected
        (init : nat -> list nn.module -> tensor1 -> tensor1) (c : NHITS.config)
        (i : nat) (t : string) :
  nth_error (NHITS.stack_types c) i = Some t -> t <> "identity" ->
  (forall n, nth_error (NHITS.n_blocks c) i = Some n -> (0 < n)%Z) ->
  (exists e, NHITS.__init__ init c = Err e)
  /\ (forall m,
         NHITS.__init__ init (with_stack_types c (firstn i (NHITS.stack_types c))) = Ok m ->
         NHITS.__init__ init c
         = Err (if (i <? length (NHITS.n_blocks c))%nat
                then AssertionError ("Block type " ++ t ++ " not found!")
                else IndexError "list index out of range")).
Proof.
  intros Ht Hneq Hn. pose proof (nth_error_lt _ _ Ht) as Hi. split.
  - rewrite init_unfold.
    destruct (@for_each_raises_at _ _ (seq 0 (length (NHITS.stack_types c)))
                (NHITS.create_stack_blocks (NHITS.cfg_loss c) init (NHITS.cfg_h c)
                   (NHITS.cfg_input_size c) (NHITS.stack_types c) (NHITS.n_blocks c)
                   (NHITS.mlp_units c) (NHITS.n_pool_kernel_size c)
                   (NHITS.n_freq_downsample c) (NHITS.pooling_mode c)
                   (NHITS.interpolation_mode c) (NHITS.dropout_prob_theta c)
                   (NHITS.activation c) (Py.len (NHITS.futr_exog_list c))
                   (Py.len (NHITS.hist_exog_list c)) (Py.len (NHITS.stat_exog_list c)))
                i) with (s := @nil NHITSBlock.t) as [e He].
    + apply in_seq. lia.
    + intros bl. rewrite (@stack_body_rejects init c i t bl Ht Hneq Hn). eauto.
    + rewrite He. cbn [bind]. eauto.
  - intros m Hprefix. rewrite init_unfold in Hprefix |- *.
    cbn [with_stack_types NHITS.stack_types NHITS.cfg_loss NHITS.cfg_h
         NHITS.cfg_input_size NHITS.n_blocks NHITS.mlp_units NHITS.n_pool_kernel_size
         NHITS.n_freq_downsample NHITS.pooling_mode NHITS.interpolation_mode
         NHITS.dropout_prob_theta NHITS.activation NHITS.futr_exog_list
         NHITS.hist_exog_list NHITS.stat_exog_list] in Hprefix.
    rewrite length_firstn, Nat.min_l in Hprefix by lia.
    rewrite (for_each_ext_in (seq 0 i) _
               (NHITS.create_stack_blocks (NHITS.cfg_loss c) init (NHITS.cfg_h c)
                  (NHITS.cfg_input_size c) (NHITS.stack_types c) (NHITS.n_blocks c)
                  (NHITS.mlp_units c) (NHITS.n_pool_kernel_size c)
                  (NHITS.n_freq_downsample c) (NHITS.pooling_mode c)
                  (NHITS.interpolation_mode c) (NHITS.dropout_prob_theta c)
                  (NHITS.activation c) (Py.len (NHITS.futr_exog_list c))
                  (Py.len (NHITS.hist_exog_list c)) (Py.len (NHITS.stat_exog_list c))))
      in Hprefix
      by (intros j s Hj; apply in_seq in Hj; apply create_stack_blocks_firstn; lia).
    replace (length (NHITS.stack_types c))
      with (i + S (length (NHITS.stack_types c) - i - 1))%nat by lia.
    rewrite seq_app, for_each_app.
    match type of Hprefix with bind ?r _ = _ => destruct r as [blocks|] eqn:E end;
      cbn [bind] in Hprefix; [|discriminate].
    cbn [bind Nat.add seq for_each].
    rewrite (@stack_body_rejects init c i t blocks Ht Hneq Hn).
    cbn [bind]. now destruct (i <? length (NHITS.n_blocks c))%nat.
Qed.

(** ** Shapes of what a block returns *)

Lemma interpolate_with_inv (rnd : Qc -> Qc) (t r : tensor3) (size : Z)
      (mode : string) :
  F.interpolate_with rnd t size mode = Ok r ->
  (0 < size)%Z
  /\ exists kernel : tensor1 -> tensor1,
      r = map (map kernel) t
      /\ forall xs, length (kernel xs) = Z.to_nat size.
Proof.
  unfold F.interpolate_with. destruct (shape3 t) as [|? [|? [|n [|? ?]]]]; try discriminate.
  destruct (n =? 0)%nat; cbn [orb]; [discriminate|].
  destruct (Z.leb_spec size 0) as [|Hs]; [discriminate|].
  destruct (mode =? "nearest")%string; [|destruct (mode =? "linear")%string];
    intros H; try discriminate; injection H as <-; (split; [assumption|]).
  - exists (F.nearest1d (Z.to_nat size)). split; [reflexivity|].
    intros xs. unfold F.nearest1d. now rewrite length_map, length_seq.
  - exists (F.linear1d_with rnd (Z.to_nat size)). split; [reflexivity|].
    intros xs. apply linear1d_with_length.
Qed.

Lemma reshape_q_inv (q : Z) (t : tensor2) (r : tensor3) :
  Torch.reshape_q q t = Ok r ->
  (0 < q)%Z /\ (0 < length t)%nat
  /\ r = map (Torch.chunks (Z.to_nat q) (length (hd [] t) / Z.to_nat q)) t.
Proof.
  unfold Torch.reshape_q.
  destruct (Nat.eqb_spec (length t) 0) as [|Ht]; cbn [orb]; [discriminate|].
  destruct (Z.leb_spec q 0) as [|Hq]; [discriminate|].
  destruct (_ =? 0)%Z; [|discriminate].
  intros H. injection H as <-. repeat split; [assumption | lia].
Qed.

Lemma transpose_has_shape (m n : nat) (t : tensor2) :
  (0 < m)%nat -> has_shape2 m n t -> has_shape2 n m (Torch.transpose (Q2Qc 0) t).
Proof.
  intros Hm Ht. rewrite (transpose_rect Hm Ht). destruct Ht as [Hlen _]. split.
  - now rewrite length_map, length_seq.
  - apply Forall_map, Forall_forall. intros j _. unfold has_shape1.
    now rewrite length_map.
Qed.

Lemma basis_forward_with_shape (rnd : Qc -> Qc) (self : _IdentityBasis.t)
      (theta backcast : tensor2) (forecast : tensor3) :
  _IdentityBasis.forward_with rnd self theta = Ok (backcast, forecast) ->
  (0 < _IdentityBasis.forecast_size self)%Z
  /\ (0 < _IdentityBasis.out_features self)%Z
  /\ (0 < length theta)%nat
  /\ length backcast = length theta
  /\ has_shape3 (length theta) (Z.to_nat (_IdentityBasis.forecast_size self))
                (Z.to_nat (_IdentityBasis.out_features self)) forecast.
Proof.
  unfold _IdentityBasis.forward_with. intros H.
  match type of H with bind ?r _ = _ => destruct r as [knots|] eqn:Ek end;
    cbn [bind] in H; [|discriminate].
  apply reshape_q_inv in Ek as (Hq & Hb & ->). rewrite length_map in Hb.
  destruct (Py.mem _ _).
  - match type of H with bind (bind ?r _) _ = _ => destruct r as [f|] eqn:Ef end;
      cbn [bind] in H; [|discriminate].
    apply interpolate_with_inv in Ef as (Hs & kernel & -> & Hkernel).
    injection H as <- <-. rewrite !length_map. repeat split; try assumption.
    + unfold Torch.permute021. now rewrite !length_map.
    + unfold Torch.permute021. rewrite !map_map.
      apply Forall_map, Forall_forall. intros row _.
      apply transpose_has_shape; [lia|]. split.
      * unfold Torch.chunks. now rewrite !length_map, length_seq.
      * apply Forall_map, Forall_forall. intros x _. apply Hkernel.
  - destruct (Py.contains _ _); cbn [bind] in H; [|discriminate].
    destruct (Torch.zeros2 _ _); cbn [bind] in H; [|discriminate].
    destruct (Py.ceil_div _ _); cbn [bind] in H; [|discriminate].
    destruct (for_each _ _ _); cbn [bind] in H; discriminate.
Qed.

Lemma basis_forward_shape (self : _IdentityBasis.t) (theta backcast : tensor2)
      (forecast : tensor3) :
  _IdentityBasis.forward self theta = Ok (backcast, forecast) ->
  (0 < _IdentityBasis.forecast_size self)%Z
  /\ (0 < _IdentityBasis.out_features self)%Z
  /\ (0 < length theta)%nat
  /\ length backcast = length theta
  /\ has_shape3 (length theta) (Z.to_nat (_IdentityBasis.forecast_size self))
                (Z.to_nat (_IdentityBasis.out_features self)) forecast.
Proof. apply basis_forward_with_shape. Qed.

Lemma cat1_length (a b r : tensor2) :
  Torch.cat1 a b = Ok r -> length r = length a.
Proof.
  unfold Torch.cat1. destruct (Nat.eqb_spec (length a) (length b)) as [E|]; [|discriminate].
  intros H. injection H as <-. revert b E.
  induction a as [|x a IH]; intros [|y b] E; cbn in *; try lia. f_equal. apply IH. lia.
Qed.

Lemma pool_forward_length (p : nn.pooling) (t r : tensor3) :
  nn.pool_forward p t = Ok r -> length r = length t.
Proof.
  unfold nn.pool_forward. destruct (shape3 t) as [|? [|? [|n [|? ?]]]]; try discriminate.
  destruct (_ || _)%bool; [discriminate|].
  intros H. injection H as <-. apply length_map.
Qed.

Lemma pooled_features_length (self : NHITSBlock.t) (n : nat) (y r : tensor2)
      (exog : tensor3) :
  NHITSBlock.pooled_features self n y exog = Ok r -> length r = length y.
Proof.
  unfold NHITSBlock.pooled_features. intros H.
  destruct (nn.pool_forward _ _); cbn [bind] in H; [|discriminate].
  destruct (Torch.reshape_rows _ _); cbn [bind] in H; [|discriminate].
  now apply cat1_length in H.
Qed.

Lemma block_forward_shape (self : NHITSBlock.t) (y backcast : tensor2)
      (futr hist : tensor3) (stat : tensor2) (forecast : tensor3) :
  NHITSBlock.forward self y futr hist stat = Ok (backcast, forecast) ->
  (0 < _IdentityBasis.forecast_size (NHITSBlock.basis self))%Z
  /\ (0 < _IdentityBasis.out_features (NHITSBlock.basis self))%Z
  /\ (0 < length y)%nat
  /\ length backcast = length y
  /\ has_shape3 (length y)
                (Z.to_nat (_IdentityBasis.forecast_size (NHITSBlock.basis self)))
                (Z.to_nat (_IdentityBasis.out_features (NHITSBlock.basis self)))
                forecast.
Proof.
  unfold NHITSBlock.forward. intros H.
  match type of H with bind ?r _ = _ => destruct r as [y1|] eqn:E1 end;
    cbn [bind] in H; [|discriminate].
  apply pool_forward_length in E1. unfold Torch.unsqueeze1 in E1.
  rewrite length_map in E1.
  match type of H with bind ?r _ = _ => destruct r as [y2|] eqn:E2 end;
    cbn [bind] in H; [|discriminate].
  assert (H2 : length y2 = length y).
  { destruct (0 <? NHITSBlock.hist_input_size self)%Z.
    - apply pooled_features_length in E2. now rewrite E2, length_map.
    - injection E2 as <-. now rewrite length_map. }
  match type of H with bind ?r _ = _ => destruct r as [y3|] eqn:E3 end;
    cbn [bind] in H; [|discriminate].
  assert (H3 : length y3 = length y).
  { destruct (0 <? NHITSBlock.futr_input_size self)%Z.
    - apply pooled_features_length in E3. congruence.
    - injection E3 as <-. exact H2. }
  match type of H with bind ?r _ = _ => destruct r as [y4|] eqn:E4 end;
    cbn [bind] in H; [|discriminate].
  assert (H4 : length y4 = length y).
  { destruct (0 <? NHITSBlock.stat_input_size self)%Z.
    - destruct (Torch.reshape_rows _ _); cbn [bind] in E4; [|discriminate].
      apply cat1_length in E4. congruence.
    - injection E4 as <-. exact H3. }
  match type of H with bind ?r _ = _ => destruct r as [theta|] eqn:E5 end;
    cbn [bind] in H; [|discriminate].
  unfold nn.Sequential_forward in E5.
  destruct (nn.check_widths _ _); cbn [bind] in E5; [|discriminate].
  injection E5 as <-.
  apply basis_forward_shape in H. rewrite length_map, H4 in H. exact H.
Qed.

(** ** Broadcasting *)

Lemma broadcast_rev_same (s : list nat) : Torch.broadcast_rev s s = Some s.
Proof.
  induction s as [|x s IH]; [reflexivity|].
  cbn [Torch.broadcast_rev]. now rewrite IH, Nat.eqb_refl.
Qed.

Lemma broadcast_shapes_same (s : list nat) : Torch.broadcast_shapes s s = Some s.
Proof.
  unfold Torch.broadcast_shapes. rewrite broadcast_rev_same. cbn [option_map].
  now rewrite rev_involutive.
Qed.

Lemma broadcast_shapes_level (b h q : nat) :
  exists s, Torch.broadcast_shapes [b; 1; 1]%nat [b; h; q] = Some s.
Proof.
  unfold Torch.broadcast_shapes. cbn [rev app Torch.broadcast_rev].
  rewrite Nat.eqb_refl.
  destruct (1 =? h)%nat; destruct (1 =? q)%nat; cbn; eauto.
Qed.

Ltac same_length n :=
  transitivity n; [eassumption | symmetry; eassumption].

Lemma zip_with_length {A B C : Type} (f : A -> B -> C) (xs : list A) (ys : list B) :
  length xs = length ys -> length (Torch.zip_with f xs ys) = length xs.
Proof.
  revert ys. induction xs as [|x xs IH]; intros [|y ys] H; cbn in *; try lia.
  f_equal. apply IH. lia.
Qed.

Lemma bmap_same_length {A B C : Type} (f : A -> B -> C) (xs : list A) (ys : list B) :
  length xs = length ys -> Torch.bmap f xs ys = Torch.zip_with f xs ys.
Proof.
  intros H. destruct xs as [|x [|x' xs]]; destruct ys as [|y [|y' ys]];
    cbn in H; try lia; reflexivity.
Qed.

Lemma zip_with_ext_in {A B C : Type} (f g : A -> B -> C) (xs : list A) (ys : list B) :
  (forall x y, In x xs -> In y ys -> f x y = g x y) ->
  Torch.zip_with f xs ys = Torch.zip_with g xs ys.
Proof.
  revert ys. induction xs as [|x xs IH]; intros [|y ys] H; cbn; try reflexivity.
  f_equal; [apply H; now left|]. apply IH. intros; apply H; now right.
Qed.

Lemma zip_with_Forall {A B C : Type} (P : A -> Prop) (Q : B -> Prop) (R : C -> Prop)
      (f : A -> B -> C) (xs : list A) (ys : list B) :
  (forall x y, P x -> Q y -> R (f x y)) ->
  Forall P xs -> Forall Q ys -> Forall R (Torch.zip_with f xs ys).
Proof.
  intros Hf Hxs. revert ys. induction Hxs as [|x xs Hx _ IH]; intros ys Hys; cbn.
  - constructor.
  - destruct Hys as [|y ys Hy Hys]; constructor; [now apply Hf | now apply IH].
Qed.

Lemma zip_with_repeat {A B C : Type} (f : A -> B -> C) (x : A) (ys : list B) :
  Torch.zip_with f (repeat x (length ys)) ys = map (f x) ys.
Proof.
  induction ys as [|y ys IH]; [reflexivity|]. cbn. now rewrite IH.
Qed.

(** Broadcasting between tensors of one shape adds entry by entry. *)
Lemma add3_same_shape (k m n : nat) (a b : tensor3) :
  (0 < k)%nat -> (0 < m)%nat ->
  has_shape3 k m n a -> has_shape3 k m n b ->
  Torch.add3 a b = Ok (add_entrywise a b) /\ has_shape3 k m n (add_entrywise a b).
Proof.
  intros Hk Hm Ha Hb. unfold Torch.add3, Torch.binop3.
  rewrite (shape3_of_has_shape Hk Hm Ha), (shape3_of_has_shape Hk Hm Hb).
  rewrite broadcast_shapes_same.
  destruct Ha as [Hla Ha], Hb as [Hlb Hb]. unfold add_entrywise. split.
  - apply f_equal. rewrite bmap_same_length by same_length k.
    apply zip_with_ext_in. intros x y Hx Hy.
    rewrite Forall_forall in Ha, Hb.
    destruct (Ha x Hx) as [Hlx Hx'], (Hb y Hy) as [Hly Hy'].
    rewrite bmap_same_length by same_length m.
    apply zip_with_ext_in. intros u v Hu Hv.
    rewrite Forall_forall in Hx', Hy'.
    apply bmap_same_length.
    pose proof (Hx' u Hu) as Hlu. pose proof (Hy' v Hv) as Hlv.
    unfold has_shape1 in Hlu, Hlv. same_length n.
  - split; [rewrite zip_with_length; [assumption | same_length k]|].
    apply (zip_with_Forall (P := has_shape2 m n) (Q := has_shape2 m n));
      [|assumption|assumption].
    intros x y [Hlx Hx] [Hly Hy].
    split; [rewrite zip_with_length; [assumption | same_length m]|].
    apply (zip_with_Forall (P := has_shape1 n) (Q := has_shape1 n));
      [|assumption|assumption].
    unfold has_shape1. intros u v Hu Hv.
    rewrite zip_with_length; [assumption | same_length n].
Qed.

(** ** The level and the baseline *)

Lemma slice_last_entry (row : tensor1) :
  row <> [] -> Py.slice (Some (-1)%Z) None row = [last row (Q2Qc 0)].
Proof.
  intros Hrow. destruct (exists_last Hrow) as [l [a ->]].
  unfold Py.slice, Py.clip. cbn [Z.ltb Z.compare].
  rewrite last_last, length_app. cbn [length].
  replace (Z.to_nat (-1 + Z.of_nat (length l + 1))) with (length l) by lia.
  replace (length l + 1 - length l)%nat with 1%nat by lia.
  rewrite skipn_app, skipn_all, Nat.sub_diag. reflexivity.
Qed.

Lemma level_last (insample_y : tensor2) :
  Forall (fun row => row <> []) insample_y ->
  NHITS.level insample_y = map (fun row => [[last row (Q2Qc 0)]]) insample_y.
Proof.
  intros H. unfold NHITS.level. apply map_ext_in. intros row Hrow.
  rewrite Forall_forall in H. now rewrite slice_last_entry by now apply H.
Qed.

Lemma level_has_shape (insample_y : tensor2) :
  Forall (fun row => row <> []) insample_y ->
  has_shape3 (length insample_y) 1 1 (NHITS.level insample_y).
Proof.
  intros H. rewrite (level_last H). split; [apply length_map|].
  apply Forall_map, Forall_forall. intros row _.
  split; [reflexivity|]. repeat constructor.
Qed.

Lemma baseline_has_shape (h q : nat) (insample_y : tensor2) :
  has_shape3 (length insample_y) h q (baseline h q insample_y).
Proof.
  unfold baseline. split; [apply length_map|].
  apply Forall_map, Forall_forall. intros row _.
  split; [apply repeat_length|].
  apply Forall_forall. intros r Hr. apply repeat_spec in Hr as ->. apply repeat_length.
Qed.

(** Adding a block forecast to the level broadcasts the level over the
    horizon and the output features. *)
Lemma add3_level (h q : nat) (insample_y : tensor2) (bf : tensor3) :
  (0 < length insample_y)%nat -> (0 < h)%nat ->
  Forall (fun row => row <> []) insample_y ->
  has_shape3 (length insample_y) h q bf ->
  Torch.add3 (NHITS.level insample_y) bf
  = Ok (add_entrywise (baseline h q insample_y) bf).
Proof.
  intros Hb Hh Hrows Hbf. unfold Torch.add3, Torch.binop3.
  rewrite (shape3_of_has_shape Hb Nat.lt_0_1 (level_has_shape Hrows)).
  rewrite (shape3_of_has_shape Hb Hh Hbf).
  destruct (broadcast_shapes_level (length insample_y) h q) as [s ->].
  apply f_equal. rewrite (level_last Hrows). destruct Hbf as [Hlen Hbf].
  rewrite bmap_same_length by (rewrite length_map; symmetry; exact Hlen).
  unfold add_entrywise, baseline. clear Hb Hrows.
  revert bf Hlen Hbf. induction insample_y as [|row y IH]; intros [|m bf] Hlen Hbf;
    cbn in Hlen; try lia; [reflexivity|].
  cbn [map Torch.zip_with]. f_equal.
  - apply Forall_inv in Hbf. destruct Hbf as [Hm Hrows].
    cbn [Torch.bmap]. rewrite <- Hm, zip_with_repeat.
    apply map_ext_in. intros r Hr. rewrite Forall_forall in Hrows.
    rewrite <- (Hrows r Hr), zip_with_repeat. reflexivity.
  - apply IH; [lia | now apply Forall_inv_tail in Hbf].
Qed.

(** ** The loop over the blocks *)

Lemma binop2_length (f : Qc -> Qc -> Qc) (a b r : tensor2) :
  Torch.binop2 f a b = Ok r -> length a = length b -> length r = length a.
Proof.
  unfold Torch.binop2. destruct (Torch.broadcast_shapes _ _); [|discriminate].
  intros H Hlen. injection H as <-.
  rewrite bmap_same_length by assumption. now apply zip_with_length.
Qed.

Lemma fold_add_has_shape (k m n : nat) (bfs : list tensor3) (a : tensor3) :
  (0 < k)%nat -> (0 < m)%nat ->
  has_shape3 k m n a -> Forall (has_shape3 k m n) bfs ->
  has_shape3 k m n (fold_left add_entrywise bfs a).
Proof.
  intros Hk Hm Ha Hbfs. revert a Ha.
  induction Hbfs as [|bf bfs Hbf _ IH]; intros a Ha; [exact Ha|].
  cbn [fold_left]. apply IH. now apply (add3_same_shape Hk Hm Ha Hbf).
Qed.

(** The head of the list of block forecasts: the level repeated over the
    horizon, which is the baseline with one output feature. *)
Lemma repeat_level (h : Z) (insample_y : tensor2) :
  (0 <= h)%Z -> Forall (fun row => row <> []) insample_y ->
  Torch.repeat_1n1 h (NHITS.level insample_y)
  = Ok (baseline (Z.to_nat h) 1 insample_y).
Proof.
  intros Hh Hrows. unfold Torch.repeat_1n1.
  destruct (Z.ltb_spec h 0) as [|_]; [lia|]. f_equal.
  rewrite (level_last Hrows). unfold baseline.
  rewrite map_map. apply map_ext. intros row.
  induction (Z.to_nat h) as [|n IH]; cbn; [reflexivity | now rewrite IH].
Qed.

Section Assembler.

Variable m : NHITS.t.
Variable wb : NHITS.windows_batch.

Local Abbreviation mask := (Torch.flip_last (NHITS.insample_mask wb)).
Local Abbreviation H := (Z.to_nat (NHITS.h m)).
Local Abbreviation Q := (Z.to_nat (NHITS.outputsize_multiplier (NHITS.loss m))).
Local Abbreviation uniform blocks :=
  (Forall (fun b =>
             _IdentityBasis.forecast_size (NHITSBlock.basis b) = NHITS.h m
             /\ _IdentityBasis.out_features (NHITSBlock.basis b)
                = NHITS.outputsize_multiplier (NHITS.loss m))
          blocks).

(** Every block forecast of a chain has the shape batch x horizon x
    features, and the horizon is positive as soon as there is a block. *)
Lemma block_outputs_shape (r : tensor2) (blocks : list NHITSBlock.t)
      (bfs : list tensor3) :
  block_outputs wb mask r blocks bfs ->
  uniform blocks -> length mask = length r ->
  Forall (has_shape3 (length r) H Q) bfs
  /\ length bfs = length blocks
  /\ (blocks <> [] -> (0 < length r)%nat /\ (0 < H)%nat /\ (0 < Q)%nat).
Proof.
  intros Hout. induction Hout as [r | r block blocks backcast difference r' bf bfs
                                      Hfwd Hsub Hmul Hout IH]; intros Huni Hmask.
  - repeat split; try constructor; congruence.
  - apply block_forward_shape in Hfwd as (Hh & Hq & Hb & Hbc & Hbf).
    pose proof (Forall_inv Huni) as [Eh Eq]. rewrite Eh, Eq in *.
    apply binop2_length in Hsub; [|now symmetry].
    apply binop2_length in Hmul; [|congruence].
    assert (Hr' : length r' = length r) by congruence.
    destruct IH as (IH1 & IH2 & _); [now apply Forall_inv_tail in Huni | congruence |].
    rewrite Hr' in IH1. repeat split; try lia.
    + now constructor.
    + cbn. now rewrite IH2.
Qed.

(** The loop, started in a state whose forecast already has its final
    shape. *)
Lemma run_from (B : nat) (r : tensor2) (blocks : list NHITSBlock.t)
      (bfs : list tensor3) :
  block_outputs wb mask r blocks bfs ->
  forall s,
    NHITS.residuals s = r ->
    Forall (has_shape3 B H Q) bfs -> (0 < B)%nat -> (0 < H)%nat ->
    has_shape3 B H Q (NHITS.forecast s) ->
    exists r',
      for_each blocks (NHITS.block_step m wb mask) s
      = Ok {| NHITS.residuals := r';
              NHITS.forecast := fold_left add_entrywise bfs (NHITS.forecast s);
              NHITS.block_forecasts :=
                if NHITS.decompose_forecast m
                then NHITS.block_forecasts s ++ bfs
                else NHITS.block_forecasts s |}.
Proof.
  intros Hout. induction Hout as [r | r block blocks backcast difference r' bf bfs
                                      Hfwd Hsub Hmul Hout IH];
    intros s Hs Hbfs HB HH Hforecast.
  - exists r. cbn [for_each fold_left]. rewrite app_nil_r. subst r.
    destruct s. cbn. now destruct (NHITS.decompose_forecast m).
  - cbn [for_each]. unfold NHITS.block_step at 1.
    rewrite Hs, Hfwd. cbn [bind]. rewrite Hsub. cbn [bind]. rewrite Hmul. cbn [bind].
    pose proof (Forall_inv Hbfs) as Hbf.
    destruct (add3_same_shape HB HH Hforecast Hbf) as [-> Hsum]. cbn [bind].
    match goal with
    | |- context [for_each blocks _ ?s1] => destruct (IH s1) as [r'' ->]
    end; try assumption; try reflexivity.
    + now apply Forall_inv_tail in Hbfs.
    + exists r''. cbn [NHITS.forecast NHITS.block_forecasts fold_left].
      destruct (NHITS.decompose_forecast m); [|reflexivity].
      now rewrite <- app_assoc.
Qed.

(** The whole loop of a model with at least one block. *)
Lemma run_blocks_sum (blocks : list NHITSBlock.t) (bfs : list tensor3) :
  blocks <> [] -> uniform blocks ->
  length (NHITS.insample_mask wb) = length (NHITS.insample_y wb) ->
  Forall (fun row => row <> []) (NHITS.insample_y wb) ->
  block_outputs wb mask (Torch.flip_last (NHITS.insample_y wb)) blocks bfs ->
  exists r',
    NHITS.run_blocks m wb blocks
    = Ok {| NHITS.residuals := r';
            NHITS.forecast :=
              fold_left add_entrywise bfs (baseline H Q (NHITS.insample_y wb));
            NHITS.block_forecasts :=
              if NHITS.decompose_forecast m
              then baseline H 1 (NHITS.insample_y wb) :: bfs
              else [baseline H 1 (NHITS.insample_y wb)] |}
    /\ Forall (has_shape3 (length (NHITS.insample_y wb)) H Q) bfs
    /\ (0 < length (NHITS.insample_y wb))%nat /\ (0 < H)%nat /\ (0 < Q)%nat.
Proof.
  intros Hne Huni Hmask Hrows Hout.
  assert (Hflip : forall t : tensor2, length (Torch.flip_last t) = length t)
    by (intros t; apply length_map).
  destruct (block_outputs_shape Hout Huni) as (Hshapes & _ & Hpos);
    [rewrite !Hflip; exact Hmask|].
  rewrite Hflip in Hshapes, Hpos. destruct (Hpos Hne) as (HB & HH & HQ).
  inversion Hout as [|r block rest backcast difference r' bf bfs' Hfwd Hsub Hmul Hrest];
    subst; [congruence|].
  unfold NHITS.run_blocks, NHITS.init_state.
  assert (Hh0 : (0 <= NHITS.h m)%Z) by lia.
  rewrite (repeat_level Hh0 Hrows).
  cbn [bind for_each]. unfold NHITS.block_step at 1.
  cbn [NHITS.residuals NHITS.forecast NHITS.block_forecasts].
  rewrite Hfwd. cbn [bind]. rewrite Hsub. cbn [bind]. rewrite Hmul. cbn [bind].
  pose proof (Forall_inv Hshapes) as Hbf.
  rewrite (add3_level HB HH Hrows Hbf). cbn [bind].
  match goal with
  | |- context [for_each rest _ ?s1] =>
      destruct (@run_from (length (NHITS.insample_y wb)) _ _ _ Hrest s1) as [r'' ->]
  end; try assumption; try reflexivity.
  - now apply Forall_inv_tail in Hshapes.
  - cbn [NHITS.forecast].
    apply (add3_same_shape HB HH (baseline_has_shape H Q _) Hbf).
  - exists r''. cbn [NHITS.forecast NHITS.block_forecasts fold_left app].
    repeat split; try assumption.
    now destruct (NHITS.decompose_forecast m).
Qed.

End Assembler.

(** ** Entries of a broadcast product *)







(** C10.  A model without blocks that does not decompose returns the
    output mapping of the level alone: one horizon step per sample, holding
    the last value of its lookback window, whatever the horizon of the
    model, which must not be negative for the repetition of the level that
    forward prepares for the decomposition. *)
Theorem forward_without_blocks (m : NHITS.t) (wb : NHITS.windows_batch) :
  NHITS.blocks m = [] -> NHITS.decompose_forecast m = false ->
  (0 <= NHITS.h m)%Z ->
  Forall (fun row => row <> []) (NHITS.insample_y wb) ->
  NHITS.forward m wb
  = Ok (NHITS.domain_map (NHITS.loss m)
          (map (fun row => [[last row (Q2Qc 0)]]) (NHITS.insample_y wb)))
  /\ has_shape3 (length (NHITS.insample_y wb)) 1 1
                (map (fun row => [[last row (Q2Qc 0)]]) (NHITS.insample_y wb)).
Proof.
  intros Hblocks Hdec Hh Hrows. rewrite <- (level_last Hrows).
  split; [|now apply level_has_shape].
  unfold NHITS.forward, NHITS.run_blocks, NHITS.init_state.
  rewrite (repeat_level Hh Hrows), Hblocks, Hdec. reflexivity.
Qed.

(** C1, as the code has it.  For a model with at least one block that does
    not decompose, whose blocks all return, forward returns the output
    mapping of the baseline, the last value of the lookback window at every
    horizon step and output feature, plus the block forecasts added one
    after the other. *)
Theorem forward_sums_block_forecasts
        (m : NHITS.t) (wb : NHITS.windows_batch) (bfs : list tensor3) :
  NHITS.blocks m <> [] -> NHITS.decompose_forecast m = false ->
  uniform_bases m ->
  length (NHITS.insample_mask wb) = length (NHITS.insample_y wb) ->
  Forall (fun row => row <> []) (NHITS.insample_y wb) ->
  block_outputs wb (Torch.flip_last (NHITS.insample_mask wb))
                (Torch.flip_last (NHITS.insample_y wb)) (NHITS.blocks m) bfs ->
  NHITS.forward m wb
  = Ok (NHITS.domain_map (NHITS.loss m)
          (fold_left add_entrywise bfs
             (baseline (Z.to_nat (NHITS.h m))
                       (Z.to_nat (NHITS.outputsize_multiplier (NHITS.loss m)))
                       (NHITS.insample_y wb)))).
Proof.
  intros Hne Hdec Huni Hmask Hrows Hout.
  destruct (run_blocks_sum m Hne Huni Hmask Hrows Hout) as (r' & Hrun & _).
  unfold NHITS.forward. rewrite Hrun, Hdec. reflexivity.
Qed.

(** C3 at its failing inputs.  When decomposition is requested of a model
    with at least one block whose loss asks for more than one output per
    horizon step, the list to stack holds a baseline with one feature and
    block forecasts with several, and forward raises. *)
Theorem decomposition_raises_for_several_outputs
        (m : NHITS.t) (wb : NHITS.windows_batch) (bfs : list tensor3) :
  NHITS.blocks m <> [] -> NHITS.decompose_forecast m = true ->
  uniform_bases m ->
  (1 < NHITS.outputsize_multiplier (NHITS.loss m))%Z ->
  length (NHITS.insample_mask wb) = length (NHITS.insample_y wb) ->
  Forall (fun row => row <> []) (NHITS.insample_y wb) ->
  block_outputs wb (Torch.flip_last (NHITS.insample_mask wb))
                (Torch.flip_last (NHITS.insample_y wb)) (NHITS.blocks m) bfs ->
  NHITS.forward m wb
  = Err (RuntimeError "stack expects each tensor to be equal size").
Proof.
  intros Hne Hdec Huni Hq Hmask Hrows Hout.
  destruct (run_blocks_sum m Hne Huni Hmask Hrows Hout)
    as (r' & Hrun & Hshapes & HB & HH & _).
  unfold NHITS.forward. rewrite Hrun, Hdec. cbn [bind NHITS.block_forecasts].
  inversion Hout as [|? ? ? ? ? ? bf bfs' _ _ _ _]; subst; [congruence|].
  apply Forall_inv in Hshapes.
  unfold Torch.stack. cbn [forallb].
  rewrite (shape3_of_has_shape HB HH
             (baseline_has_shape (Z.to_nat (NHITS.h m)) 1 (NHITS.insample_y wb))).
  rewrite (shape3_of_has_shape HB HH Hshapes).
  unfold Torch.shape_eqb at 2.
  destruct (list_eq_dec Nat.eq_dec _ _) as [E|_]; [injection E; lia|].
  now rewrite andb_false_r.
Qed.

(** C4 at its failing inputs, which are all inputs.  In cubic mode the
    basis never returns: the sub-batch, a rank-3 tensor of shape batch x
    horizon x horizon, cannot be added in place to the batch x horizon
    buffer, and that buffer has no third axis to permute. *)
Theorem cubic_forward_raises (self : _IdentityBasis.t) (theta : tensor2) :
  Py.mem (_IdentityBasis.interpolation_mode self) ["nearest"; "linear"] = false ->
  Py.contains "cubic" (_IdentityBasis.interpolation_mode self) = true ->
  exists e, _IdentityBasis.forward self theta = Err e.
Proof.
  intros Hmem Hcubic. unfold _IdentityBasis.forward, _IdentityBasis.forward_with.
  change (F.interpolate_with F.exact) with F.interpolate.
  destruct (Torch.reshape_q _ _); cbn [bind]; [|eauto].
  rewrite Hmem, Hcubic.
  destruct (Torch.zeros2 _ _); cbn [bind]; [|eauto].
  destruct (Py.ceil_div _ _); cbn [bind]; [|eauto].
  destruct (for_each _ _ _); cbn [bind]; eauto.
Qed.

(** ** Pooling and the assembly of the features *)

Lemma pool_row_length (p : nn.pooling) (row : tensor1) :
  length (nn.pool_row p row)
  = ((length row + Z.to_nat (nn.kernel_size p) - 1) / Z.to_nat (nn.kernel_size p))%nat.
Proof. unfold nn.pool_row. now rewrite length_map, length_seq. Qed.

Lemma ceil_div_pos (a k : Z) :
  (0 < k)%Z -> (- ((- a) / k) = (a + k - 1) / k)%Z.
Proof.
  intros Hk. apply Z.div_unique with (r := (k - 1 - (- a) mod k)%Z).
  - left. pose proof (Z.mod_pos_bound (- a) k Hk). lia.
  - pose proof (Z.div_mod (- a) k ltac:(lia)). lia.
Qed.

Lemma ceil_div_nat (a k : nat) :
  (0 < k)%nat ->
  Z.to_nat (- ((- Z.of_nat a) / Z.of_nat k)) = ((a + k - 1) / k)%nat.
Proof.
  intros Hk. rewrite ceil_div_pos by lia.
  replace (Z.of_nat a + Z.of_nat k - 1)%Z with (Z.of_nat (a + k - 1)) by lia.
  rewrite <- Nat2Z.inj_div. apply Nat2Z.id.
Qed.

Lemma pool_forward_ok (p : nn.pooling) (b c n : nat) (t : tensor3) :
  (0 < b)%nat -> (0 < c)%nat -> (0 < n)%nat -> (0 < nn.kernel_size p)%Z ->
  has_shape3 b c n t ->
  nn.pool_forward p t = Ok (map (map (nn.pool_row p)) t)
  /\ has_shape3 b c ((n + Z.to_nat (nn.kernel_size p) - 1) / Z.to_nat (nn.kernel_size p))
                (map (map (nn.pool_row p)) t).
Proof.
  intros Hb Hc Hn Hk Ht. unfold nn.pool_forward.
  rewrite (shape3_of_has_shape Hb Hc Ht).
  destruct (Z.leb_spec (nn.kernel_size p) 0) as [|_]; [lia|].
  destruct (Nat.eqb_spec n 0) as [|_]; [lia|]. cbn [orb].
  split; [reflexivity|]. destruct Ht as [Hlen Hall].
  split; [now rewrite length_map|].
  apply Forall_map. eapply Forall_impl; [|exact Hall].
  intros m [Hm Hrows]. split; [now rewrite length_map|].
  apply Forall_map. eapply Forall_impl; [|exact Hrows].
  intros row Hrow. unfold has_shape1 in *. now rewrite pool_row_length, Hrow.
Qed.

Lemma permute021_has_shape (b m n : nat) (t : tensor3) :
  (0 < m)%nat -> has_shape3 b m n t -> has_shape3 b n m (Torch.permute021 t).
Proof.
  intros Hm [Hlen Hall]. unfold Torch.permute021.
  split; [now rewrite length_map|].
  apply Forall_map. eapply Forall_impl; [|exact Hall].
  intros x Hx. now apply transpose_has_shape.
Qed.

Lemma concat_length_rect {A : Type} (w : nat) (rows : list (list A)) :
  Forall (fun r => length r = w) rows -> length (concat rows) = (length rows * w)%nat.
Proof.
  induction 1 as [|r rows Hr _ IH]; [reflexivity|].
  cbn. rewrite length_app, IH, Hr. reflexivity.
Qed.

Lemma chunks_concat (w : nat) (rows : tensor2) :
  Forall (fun r => length r = w) rows ->
  Torch.chunks (length rows) w (concat rows) = rows.
Proof.
  unfold Torch.chunks. induction 1 as [|r rows Hr Hrows IH]; [reflexivity|].
  cbn [length seq map concat]. f_equal.
  - cbn [Nat.mul skipn]. rewrite firstn_app, <- Hr, Nat.sub_diag, firstn_all.
    cbn [firstn]. apply app_nil_r.
  - rewrite <- seq_shift, map_map. rewrite <- IH at 2.
    apply map_ext. intros j. f_equal.
    replace (S j * w)%nat with (length r + j * w)%nat by (cbn; lia).
    now rewrite skipn_app, skipn_all2, Nat.add_comm, Nat.add_sub by lia.
Qed.

Lemma concat_concat_map {A : Type} (t : list (list (list A))) :
  concat (concat t) = concat (map (@concat A) t).
Proof.
  induction t as [|x t IH]; [reflexivity|].
  cbn. now rewrite concat_app, IH.
Qed.

Lemma flatten3 (t : tensor3) :
  @concat Qc (@concat tensor1 t) = @concat Qc (map (@concat Qc) t).
Proof. apply concat_concat_map. Qed.

Lemma reshape_rows_ok (b m n : nat) (t : tensor3) :
  (0 < b)%nat -> has_shape3 b m n t ->
  Torch.reshape_rows b t = Ok (map (@concat Qc) t)
  /\ has_shape2 b (m * n) (map (@concat Qc) t).
Proof.
  intros Hb [Hlen Hall].
  assert (Hrows : Forall (fun r : tensor1 => length r = (m * n)%nat) (map (@concat Qc) t)).
  { apply Forall_map. eapply Forall_impl; [|exact Hall].
    intros x [Hx Hrows]. rewrite (concat_length_rect Hrows).
    apply (f_equal (fun v => (v * n)%nat)). exact Hx. }
  split; [|split; [now rewrite length_map | exact Hrows]].
  unfold Torch.reshape_rows. cbv zeta. rewrite flatten3.
  rewrite (concat_length_rect Hrows), length_map, Hlen.
  destruct (Nat.eqb_spec b 0) as [|_]; [lia|].
  rewrite (Nat.mul_comm b (m * n)), Nat.Div0.mod_mul, Nat.div_mul by lia. cbn [Nat.eqb].
  f_equal. rewrite <- Hlen at 1. rewrite <- (length_map (@concat Qc) t).
  now apply chunks_concat.
Qed.

Lemma cat1_ok (b w1 w2 : nat) (x y : tensor2) :
  has_shape2 b w1 x -> has_shape2 b w2 y ->
  Torch.cat1 x y = Ok (Torch.zip_with (@app Qc) x y)
  /\ has_shape2 b (w1 + w2) (Torch.zip_with (@app Qc) x y).
Proof.
  intros [Hx Hxs] [Hy Hys]. unfold Torch.cat1.
  destruct (Nat.eqb_spec (length x) (length y)) as [_|]; [|congruence].
  split; [reflexivity|].
  split; [rewrite zip_with_length; [assumption | same_length b]|].
  apply (zip_with_Forall (P := has_shape1 w1) (Q := has_shape1 w2));
    [|assumption|assumption].
  unfold has_shape1. intros u v <- <-. apply length_app.
Qed.

Lemma pooled_features_ok (self : NHITSBlock.t) (b w t c : nat)
      (y : tensor2) (exog : tensor3) :
  (0 < b)%nat -> (0 < t)%nat -> (0 < c)%nat ->
  (0 < nn.kernel_size (NHITSBlock.pooling_layer self))%Z ->
  has_shape2 b w y -> has_shape3 b t c exog ->
  exists r,
    NHITSBlock.pooled_features self b y exog = Ok r
    /\ has_shape2 b
         (w + (t + Z.to_nat (nn.kernel_size (NHITSBlock.pooling_layer self)) - 1)
              / Z.to_nat (nn.kernel_size (NHITSBlock.pooling_layer self)) * c) r.
Proof.
  intros Hb Ht Hc Hk Hy Hexog. unfold NHITSBlock.pooled_features.
  pose proof (permute021_has_shape Ht Hexog) as H1.
  destruct (pool_forward_ok (NHITSBlock.pooling_layer self) Hb Hc Ht Hk H1) as [-> H2].
  cbn [bind].
  pose proof (permute021_has_shape Hc H2) as H3.
  destruct (reshape_rows_ok Hb H3) as [-> H4]. cbn [bind].
  destruct (cat1_ok Hy H4) as [-> H5]. eauto.
Qed.

(** ** A block returns on well-formed input *)

Lemma binop2_same_shape (f : Qc -> Qc -> Qc) (b n : nat) (x y : tensor2) :
  (0 < b)%nat -> has_shape2 b n x -> has_shape2 b n y ->
  Torch.binop2 f x y = Ok (Torch.zip_with (Torch.zip_with f) x y)
  /\ has_shape2 b n (Torch.zip_with (Torch.zip_with f) x y).
Proof.
  intros Hb Hx Hy. unfold Torch.binop2.
  rewrite (shape2_of_has_shape Hb Hx), (shape2_of_has_shape Hb Hy).
  rewrite broadcast_shapes_same.
  destruct Hx as [Hlx Hx], Hy as [Hly Hy]. split.
  - apply f_equal. rewrite bmap_same_length by same_length b.
    apply zip_with_ext_in. intros u v Hu Hv.
    rewrite Forall_forall in Hx, Hy.
    pose proof (Hx u Hu) as Hlu. pose proof (Hy v Hv) as Hlv.
    unfold has_shape1 in Hlu, Hlv.
    apply bmap_same_length. same_length n.
  - split; [rewrite zip_with_length; [assumption | same_length b]|].
    apply (zip_with_Forall (P := has_shape1 n) (Q := has_shape1 n));
      [|assumption|assumption].
    unfold has_shape1. intros u v Hu Hv.
    rewrite zip_with_length; [assumption | same_length n].
Qed.

Lemma mem_nearest_linear (mode : string) :
  Py.mem mode ["nearest"; "linear"] = true -> mode = "nearest" \/ mode = "linear".
Proof.
  unfold Py.mem. cbn [existsb]. rewrite orb_false_r. intros H.
  apply orb_true_iff in H as [H|H]; apply String.eqb_eq in H; auto.
Qed.

Lemma basis_forward_with_ok (rnd : Qc -> Qc) (self : _IdentityBasis.t)
      (b l h q n : nat) (theta : tensor2) :
  _IdentityBasis.forecast_size self = Z.of_nat h ->
  _IdentityBasis.backcast_size self = Z.of_nat l ->
  _IdentityBasis.out_features self = Z.of_nat q ->
  Py.mem (_IdentityBasis.interpolation_mode self) ["nearest"; "linear"] = true ->
  (0 < b)%nat -> (0 < h)%nat -> (0 < q)%nat -> (0 < n)%nat ->
  has_shape2 b (l + q * n) theta ->
  exists forecast,
    _IdentityBasis.forward_with rnd self theta = Ok (map (firstn l) theta, forecast)
    /\ has_shape2 b l (map (firstn l) theta)
    /\ has_shape3 b h q forecast.
Proof.
  intros Eh El Eq Hmode Hb Hh Hq Hn [Hlen Hrows].
  assert (Hfwd : exists forecast,
             _IdentityBasis.forward_with rnd self theta = Ok (map (firstn l) theta, forecast)).
  { unfold _IdentityBasis.forward_with. rewrite Eh, El, Eq, Hmode.
    destruct (basis_slices l theta) as [-> ->].
    pose proof (knots_width _ _ Hrows) as Hk.
    rewrite (@reshape_q_ok q n) by
      (first [assumption | destruct theta; [cbn in Hlen; lia | discriminate]]).
    cbn [bind].
    pose proof (@reshape_q_has_shape q n _ Hk) as Hs. rewrite length_map, Hlen in Hs.
    rewrite (interpolate_with_ok rnd (_IdentityBasis.interpolation_mode self)
               Hb Hq Hn Hh Hs).
    destruct (mem_nearest_linear _ Hmode) as [-> | ->].
    - replace ("nearest" =? "nearest")%string with true by reflexivity.
      cbn [bind]. eauto.
    - replace ("linear" =? "nearest")%string with false by reflexivity.
      replace ("linear" =? "linear")%string with true by reflexivity.
      cbn [bind]. eauto. }
  destruct Hfwd as [forecast Hfwd]. exists forecast. split; [exact Hfwd|].
  split.
  - split; [now rewrite length_map|].
    apply Forall_map. eapply Forall_impl; [|exact Hrows].
    unfold has_shape1. intros row Hrow. rewrite length_firstn. lia.
  - apply basis_forward_with_shape in Hfwd as (_ & _ & _ & _ & Hs).
    now rewrite Eh, Eq, !Nat2Z.id, Hlen in Hs.
Qed.

Lemma basis_forward_ok (self : _IdentityBasis.t) (b l h q n : nat) (theta : tensor2) :
  _IdentityBasis.forecast_size self = Z.of_nat h ->
  _IdentityBasis.backcast_size self = Z.of_nat l ->
  _IdentityBasis.out_features self = Z.of_nat q ->
  Py.mem (_IdentityBasis.interpolation_mode self) ["nearest"; "linear"] = true ->
  (0 < b)%nat -> (0 < h)%nat -> (0 < q)%nat -> (0 < n)%nat ->
  has_shape2 b (l + q * n) theta ->
  exists forecast,
    _IdentityBasis.forward self theta = Ok (map (firstn l) theta, forecast)
    /\ has_shape2 b l (map (firstn l) theta)
    /\ has_shape3 b h q forecast.
Proof. apply basis_forward_with_ok. Qed.

Lemma unsqueeze1_has_shape (b n : nat) (y : tensor2) :
  has_shape2 b n y -> has_shape3 b 1 n (Torch.unsqueeze1 y).
Proof.
  intros [Hlen Hrows]. unfold Torch.unsqueeze1. split; [now rewrite length_map|].
  apply Forall_map. eapply Forall_impl; [|exact Hrows].
  intros row Hrow. split; [reflexivity | now constructor].
Qed.

Lemma pooled_rows_has_shape (p : nn.pooling) (b n : nat) (y : tensor2) :
  has_shape2 b n y ->
  has_shape2 b ((n + Z.to_nat (nn.kernel_size p) - 1) / Z.to_nat (nn.kernel_size p))
             (map (nn.pool_row p) y).
Proof.
  intros [Hlen Hrows]. split; [now rewrite length_map|].
  apply Forall_map. eapply Forall_impl; [|exact Hrows].
  unfold has_shape1. intros row Hrow. now rewrite pool_row_length, Hrow.
Qed.

Lemma squeeze_pooled (p : nn.pooling) (y : tensor2) :
  map (fun m => hd [] m) (map (map (nn.pool_row p)) (Torch.unsqueeze1 y))
  = map (nn.pool_row p) y.
Proof.
  unfold Torch.unsqueeze1. rewrite !map_map. now apply map_ext.
Qed.

(** An exogenous group joins the features when it has variables. *)
Lemma exog_step (self : NHITSBlock.t) (b w t c : nat) (y : tensor2) (exog : tensor3) :
  (0 < b)%nat -> (0 < t)%nat ->
  (0 < nn.kernel_size (NHITSBlock.pooling_layer self))%Z ->
  has_shape2 b w y -> ((0 < c)%nat -> has_shape3 b t c exog) ->
  exists r,
    (if (0 <? Z.of_nat c)%Z
     then NHITSBlock.pooled_features self b y exog
     else Ok y) = Ok r
    /\ has_shape2 b
         (w + (t + Z.to_nat (nn.kernel_size (NHITSBlock.pooling_layer self)) - 1)
              / Z.to_nat (nn.kernel_size (NHITSBlock.pooling_layer self)) * c) r.
Proof.
  intros Hb Ht Hk Hy Hexog. destruct c as [|c].
  - cbn [Z.of_nat Z.ltb Z.compare]. exists y. split; [reflexivity|].
    now rewrite Nat.mul_0_r, Nat.add_0_r.
  - destruct (Z.ltb_spec 0 (Z.of_nat (S c))) as [_|]; [|lia].
    apply pooled_features_ok; try assumption; try lia. apply Hexog. lia.
Qed.

Lemma static_step (b w c : nat) (y stat : tensor2) :
  (0 < b)%nat -> has_shape2 b w y -> ((0 < c)%nat -> has_shape2 b c stat) ->
  exists r,
    (if (0 <? Z.of_nat c)%Z
     then flat <- Torch.reshape_rows b [stat] ;; Torch.cat1 y flat
     else Ok y) = Ok r
    /\ has_shape2 b (w + c) r.
Proof.
  intros Hb Hy Hstat. destruct c as [|c].
  - cbn [Z.of_nat Z.ltb Z.compare]. exists y. split; [reflexivity|].
    now rewrite Nat.add_0_r.
  - destruct (Z.ltb_spec 0 (Z.of_nat (S c))) as [_|]; [|lia].
    specialize (Hstat ltac:(lia)). destruct Hstat as [Hlen Hrows].
    unfold Torch.reshape_rows. cbv zeta. cbn [concat]. rewrite app_nil_r.
    rewrite (concat_length_rect Hrows), Hlen.
    destruct (Nat.eqb_spec b 0) as [|_]; [lia|].
    rewrite (Nat.mul_comm b (S c)), Nat.Div0.mod_mul, Nat.div_mul by lia.
    cbn [Nat.eqb bind].
    replace (Torch.chunks b (S c) (concat stat)) with stat
      by (rewrite <- Hlen; symmetry; apply chunks_concat; exact Hrows).
    destruct (@cat1_ok b w (S c) y stat Hy (conj Hlen Hrows)) as [-> Hr]. eauto.
Qed.

Lemma block_forward_ok (self : NHITSBlock.t) (b l h q ch cf cs : nat)
      (wb : NHITS.windows_batch) (y : tensor2) :
  (0 < b)%nat -> (0 < l)%nat -> (0 < h)%nat -> (0 < q)%nat ->
  well_formed_block l h q ch cf cs self ->
  well_formed_exog b l h ch cf cs wb ->
  has_shape2 b l y ->
  exists backcast forecast,
    NHITSBlock.forward self y (NHITS.futr_exog wb) (NHITS.hist_exog wb)
                       (NHITS.stat_exog wb) = Ok (backcast, forecast)
    /\ has_shape2 b l backcast
    /\ has_shape3 b h q forecast.
Proof.
  intros Hb Hl Hh Hq
         (Eh & El & Eq & Hmode & Hk & Ech & Ecf & Ecs & n & Hn & Hwidths & Happly)
         (Hhist & Hfutr & Hstat) Hy.
  unfold NHITSBlock.forward.
  destruct (pool_forward_ok (NHITSBlock.pooling_layer self) Hb Nat.lt_0_1 Hl Hk
                            (unsqueeze1_has_shape Hy)) as [-> _].
  cbn [bind]. rewrite squeeze_pooled.
  pose proof (pooled_rows_has_shape (NHITSBlock.pooling_layer self) Hy) as H1.
  rewrite length_map. destruct Hy as [Hylen Hyrows]. rewrite Hylen.
  rewrite Ech, Ecf, Ecs.
  destruct (@exog_step self b _ l ch _ (NHITS.hist_exog wb) Hb Hl Hk H1 Hhist)
    as (y2 & -> & H2).
  cbn [bind].
  destruct (@exog_step self b _ (l + h) cf _ (NHITS.futr_exog wb) Hb ltac:(lia) Hk H2 Hfutr)
    as (y3 & -> & H3).
  cbn [bind].
  destruct (@static_step b _ cs y3 (NHITS.stat_exog wb) Hb H3 Hstat) as (y4 & -> & H4).
  cbn [bind]. unfold nn.Sequential_forward.
  assert (Hw : length (hd [] y4)
               = feature_width l h
                   (Z.to_nat (nn.kernel_size (NHITSBlock.pooling_layer self))) ch cf cs).
  { destruct H4 as [H4len H4rows]. destruct y4 as [|row y4]; [cbn in H4len; lia|].
    apply Forall_inv in H4rows. exact H4rows. }
  rewrite Hw, Hwidths. cbn [bind].
  destruct (@basis_forward_ok (NHITSBlock.basis self) b l h q n
              (map (nn.apply (NHITSBlock.layers self)) y4))
    as (forecast & Hfwd & Hbc & Hfc); try assumption.
  - destruct H4 as [H4len _]. split; [now rewrite length_map|].
    apply Forall_map, Forall_forall. intros x _. apply Happly.
  - eauto.
Qed.

(** ** A single knot *)



(** ** The loop returns on well-formed input *)

Lemma flip_last_has_shape (b n : nat) (t : tensor2) :
  has_shape2 b n t -> has_shape2 b n (Torch.flip_last t).
Proof.
  intros [Hlen Hrows]. unfold Torch.flip_last. split; [now rewrite length_map|].
  apply Forall_map. eapply Forall_impl; [|exact Hrows].
  unfold has_shape1. intros row Hrow. now rewrite length_rev.
Qed.

Lemma rows_nonempty (b n : nat) (t : tensor2) :
  (0 < n)%nat -> has_shape2 b n t -> Forall (fun row => row <> []) t.
Proof.
  intros Hn [_ Hrows]. eapply Forall_impl; [|exact Hrows].
  unfold has_shape1. intros row Hrow ->. cbn in Hrow. lia.
Qed.

Section WellFormed.

Variables b l h q ch cf cs : nat.
Variable wb : NHITS.windows_batch.
Variable msk : tensor2.

Hypothesis Hb : (0 < b)%nat.
Hypothesis Hl : (0 < l)%nat.
Hypothesis Hh : (0 < h)%nat.
Hypothesis Hq : (0 < q)%nat.
Hypothesis Hexog : well_formed_exog b l h ch cf cs wb.
Hypothesis Hmsk : has_shape2 b l msk.

(** One residual update on well-formed input. *)
Lemma residual_update_ok (block : NHITSBlock.t) (r : tensor2) :
  well_formed_block l h q ch cf cs block -> has_shape2 b l r ->
  exists backcast forecast difference r',
    NHITSBlock.forward block r (NHITS.futr_exog wb) (NHITS.hist_exog wb)
                       (NHITS.stat_exog wb) = Ok (backcast, forecast)
    /\ Torch.sub2 r backcast = Ok difference
    /\ Torch.mul2 difference msk = Ok r'
    /\ r' = Torch.zip_with (Torch.zip_with Qcmult)
              (Torch.zip_with (Torch.zip_with Qcminus) r backcast) msk
    /\ has_shape2 b l backcast
    /\ has_shape2 b l r'
    /\ has_shape3 b h q forecast.
Proof.
  intros Hblock Hr.
  destruct (block_forward_ok Hb Hl Hh Hq Hblock Hexog Hr)
    as (backcast & forecast & Hfwd & Hbc & Hfc).
  destruct (binop2_same_shape Qcminus Hb Hr Hbc) as [Hsub Hd].
  destruct (binop2_same_shape Qcmult Hb Hd Hmsk) as [Hmul Hr'].
  exists backcast, forecast. eexists. eexists.
  repeat split; try eassumption; try reflexivity; try apply Hbc; try apply Hr';
    try apply Hfc.
Qed.

(** Every block of a well-formed list returns along the chain. *)
Lemma chain_exists (blocks : list NHITSBlock.t) :
  Forall (well_formed_block l h q ch cf cs) blocks ->
  forall r, has_shape2 b l r ->
  exists bfs, block_outputs wb msk r blocks bfs.
Proof.
  induction 1 as [|block blocks Hblock _ IH]; intros r Hr.
  - exists []. constructor.
  - destruct (residual_update_ok Hblock Hr)
      as (backcast & forecast & difference & r' & Hfwd & Hsub & Hmul & _ & _ & Hr' & _).
    destruct (IH r' Hr') as [bfs Hbfs].
    exists (forecast :: bfs). econstructor; eassumption.
Qed.


End WellFormed.

(** ** The blocks a constructor builds fit the model *)

Lemma add_layers_result (activation : string) (dropout : Qc)
      (layers : list (list Z)) (acc hidden : list nn.module) :
  for_each layers (NHITSBlock.add_layer activation dropout) acc = Ok hidden ->
  hidden = acc ++ flat_map (layer_modules activation) layers.
Proof.
  revert acc. induction layers as [|layer layers IH]; intros acc H; cbn [for_each] in H.
  - injection H as <-. cbn. now rewrite app_nil_r.
  - destruct (NHITSBlock.add_layer activation dropout layer acc) as [acc'|] eqn:E;
      cbn [bind] in H; [|discriminate].
    apply IH in H as ->. cbn [flat_map]. rewrite app_assoc. f_equal.
    unfold NHITSBlock.add_layer in E.
    destruct layer as [|i [|o layer]]; try discriminate E.
    rewrite index_0, index_1 in E. cbn [bind] in E.
    destruct (nn.Linear_init i o) as [linear|] eqn:El; cbn [bind] in E;
      [|discriminate].
    apply Linear_init_inv in El as [-> _].
    destruct (Qclt_le_dec (Q2Qc 0) dropout); [discriminate|].
    now injection E as <-.
Qed.

Lemma index_0_nth {A : Type} (d a : A) (l : list A) :
  Py.index l 0 = Ok a -> nth 0 l d = a /\ l <> [].
Proof.
  destruct l as [|x l]; [discriminate|]. rewrite index_0. intros H.
  injection H as <-. split; [reflexivity | discriminate].
Qed.

Lemma index_1_nth {A : Type} (d a : A) (l : list A) :
  Py.index l 1 = Ok a -> nth 1 l d = a.
Proof.
  destruct l as [|x [|y l]]; try discriminate. rewrite index_1. intros H.
  now injection H as <-.
Qed.

Lemma block_init_inv init input_size h n_theta mlp_units basis
      futr hist stat k pooling_mode dropout activation b :
  NHITSBlock.__init__ init input_size h n_theta mlp_units basis
                      futr hist stat k pooling_mode dropout activation = Ok b ->
  k <> 0%Z
  /\ NHITSBlock.basis b = basis
  /\ NHITSBlock.futr_input_size b = futr
  /\ NHITSBlock.hist_input_size b = hist
  /\ NHITSBlock.stat_input_size b = stat
  /\ nn.kernel_size (NHITSBlock.pooling_layer b) = k
  /\ nn.modules (NHITSBlock.layers b)
     = projector_modules
         (- (- input_size / k) + hist * - (- input_size / k)
          + futr * - (- (input_size + h) / k) + stat)
         activation mlp_units n_theta
  /\ nn.apply (NHITSBlock.layers b) = init (nn.modules (NHITSBlock.layers b)).
Proof.
  unfold NHITSBlock.__init__, Py.ceil_div. intros H.
  destruct (Z.eqb_spec k 0) as [|Hk]; [discriminate|]. cbn [bind] in H.
  destruct (negb (Py.mem activation ACTIVATIONS)); [discriminate|].
  destruct (negb (Py.mem pooling_mode POOLING)); [discriminate|].
  destruct (Py.index mlp_units 0) as [first|] eqn:E1; cbn [bind] in H; [|discriminate].
  destruct (Py.index first 0) as [width|] eqn:E2; cbn [bind] in H; [|discriminate].
  destruct (nn.Linear_init _ width) as [input_layer|] eqn:Ei; cbn [bind] in H;
    [|discriminate].
  apply Linear_init_inv in Ei as [-> _].
  match type of H with bind ?r _ = _ => destruct r as [hidden|] eqn:E3 end;
    cbn [bind] in H; [|discriminate].
  destruct (Py.index mlp_units (-1)) as [lst|] eqn:E4; cbn [bind] in H; [|discriminate].
  destruct (Py.index lst 1) as [wl|] eqn:E5; cbn [bind] in H; [|discriminate].
  destruct (nn.Linear_init wl n_theta) as [output_layer|] eqn:Eo; cbn [bind] in H;
    [|discriminate].
  apply Linear_init_inv in Eo as [-> _].
  injection H as <-. cbn.
  apply add_layers_result in E3 as ->.
  apply (index_0_nth []) in E1 as [E1 Hne].
  apply (index_0_nth 0%Z) in E2 as [E2 _].
  rewrite (index_last [] Hne) in E4. injection E4 as <-.
  apply (index_1_nth 0%Z) in E5.
  repeat split; try assumption.
  - now destruct (pooling_mode =? "MaxPool1d")%string.
  - unfold projector_modules. subst first wl.
    destruct mlp_units as [|u rest]; [congruence|]. cbn [nth hd] in *.
    now rewrite E2.
Qed.

Lemma check_widths_chain (activation : string) (mlp_units : list (list Z))
      (tail : list nn.module) (w : Z) :
  chained w mlp_units ->
  nn.check_widths (flat_map (layer_modules activation) mlp_units ++ tail) w
  = nn.check_widths tail
      (match mlp_units with [] => w | _ => nth 1 (last mlp_units []) 0%Z end).
Proof.
  revert w. induction mlp_units as [|layer rest IH]; intros w Hc; [reflexivity|].
  destruct Hc as [Hin Hrest]. cbn [flat_map layer_modules app nn.check_widths].
  rewrite Hin, Z.eqb_refl, (IH _ Hrest).
  destruct rest; reflexivity.
Qed.

Lemma projector_widths (width : Z) (activation : string) (mlp_units : list (list Z))
      (n_theta : Z) :
  mlp_units <> [] -> chained (nth 0 (hd [] mlp_units) 0%Z) mlp_units ->
  nn.check_widths (projector_modules width activation mlp_units n_theta) width
  = Ok n_theta.
Proof.
  intros Hne Hc. unfold projector_modules. cbn [nn.check_widths].
  rewrite Z.eqb_refl, (@check_widths_chain activation mlp_units _ _ Hc).
  destruct mlp_units; [congruence|]. cbn [nn.check_widths].
  now rewrite Z.eqb_refl.
Qed.

Lemma ceil_div_of_nat (a k : Z) :
  (0 <= a)%Z -> (0 < k)%Z ->
  (- (- a / k) = Z.of_nat ((Z.to_nat a + Z.to_nat k - 1) / Z.to_nat k))%Z.
Proof.
  intros Ha Hk. rewrite ceil_div_pos by assumption.
  rewrite Nat2Z.inj_div. f_equal; lia.
Qed.

Section Constructed.

Variable init : nat -> list nn.module -> tensor1 -> tensor1.
Variable c : NHITS.config.

Local Abbreviation create_block :=
  (NHITS.create_block (NHITS.cfg_loss c) init (NHITS.cfg_h c) (NHITS.cfg_input_size c)
     (NHITS.stack_types c) (NHITS.mlp_units c)
     (NHITS.n_pool_kernel_size c) (NHITS.n_freq_downsample c)
     (NHITS.pooling_mode c) (NHITS.interpolation_mode c)
     (NHITS.dropout_prob_theta c) (NHITS.activation c)
     (Py.len (NHITS.futr_exog_list c)) (Py.len (NHITS.hist_exog_list c))
     (Py.len (NHITS.stat_exog_list c))).

Local Abbreviation create_stack_blocks :=
  (NHITS.create_stack_blocks (NHITS.cfg_loss c) init (NHITS.cfg_h c)
     (NHITS.cfg_input_size c) (NHITS.stack_types c) (NHITS.n_blocks c)
     (NHITS.mlp_units c) (NHITS.n_pool_kernel_size c) (NHITS.n_freq_downsample c)
     (NHITS.pooling_mode c) (NHITS.interpolation_mode c)
     (NHITS.dropout_prob_theta c) (NHITS.activation c)
     (Py.len (NHITS.futr_exog_list c)) (Py.len (NHITS.hist_exog_list c))
     (Py.len (NHITS.stat_exog_list c))).

Local Abbreviation fits :=
  (well_formed_block (Z.to_nat (NHITS.cfg_input_size c)) (Z.to_nat (NHITS.cfg_h c))
     (Z.to_nat (NHITS.outputsize_multiplier (NHITS.cfg_loss c)))
     (length (NHITS.hist_exog_list c)) (length (NHITS.futr_exog_list c))
     (length (NHITS.stat_exog_list c))).

Hypothesis Hrun : runnable c.
Hypothesis Hinit : respects_widths init.

Lemma create_block_fits (i : nat) (bl bl' : list NHITSBlock.t) :
  create_block i bl = Ok bl' -> exists b, bl' = bl ++ [b] /\ fits b.
Proof.
  destruct Hrun as (Hh & Hl & Hq & Hmode & Hks & Hchain).
  unfold NHITS.create_block. intros H.
  rewrite !index_of_nat in H.
  destruct (nth_error (NHITS.stack_types c) i) as [t|]; cbn [bind] in H; [|discriminate].
  destruct (negb (t =? "identity")%string); [discriminate|].
  destruct (nth_error (NHITS.n_freq_downsample c) i) as [d|] eqn:Ed;
    cbn [bind] in H; [|discriminate].
  unfold Py.floordiv in H. destruct (d =? 0)%Z; cbn [bind] in H; [discriminate|].
  unfold _IdentityBasis.__init__ in H.
  destruct (_ || _)%bool; cbn [bind] in H; [|discriminate].
  destruct (nth_error (NHITS.n_pool_kernel_size c) i) as [k|] eqn:Ek;
    cbn [bind] in H; [|discriminate].
  match type of H with bind ?r _ = _ => destruct r as [b|] eqn:Eb end;
    cbn [bind] in H; [|discriminate].
  injection H as <-. exists b. split; [reflexivity|].
  assert (Hne : NHITS.mlp_units c <> []).
  { unfold NHITSBlock.__init__ in Eb. intros E. rewrite E in Eb.
    destruct (Py.ceil_div _ _); cbn [bind] in Eb; [|discriminate].
    destruct (Py.ceil_div _ _); cbn [bind] in Eb; [|discriminate].
    destruct (negb _); [discriminate|]. destruct (negb _); discriminate. }
  apply block_init_inv in Eb
    as (_ & Hbasis & Hfutr & Hhist & Hstat & Hkernel & Hmods & Happly).
  assert (Hk : (0 < k)%Z).
  { rewrite Forall_forall in Hks. apply Hks. eapply nth_error_In, Ek. }
  unfold well_formed_block. rewrite Hbasis, Hfutr, Hhist, Hstat, Hkernel.
  cbn [_IdentityBasis.forecast_size _IdentityBasis.backcast_size
       _IdentityBasis.out_features _IdentityBasis.interpolation_mode].
  repeat split; try assumption; try (unfold Py.len; reflexivity); try lia.
  exists (Z.to_nat (Z.max (NHITS.cfg_h c / d) 1)).
  assert (Hn : (Z.of_nat (Z.to_nat (NHITS.cfg_input_size c)
                          + Z.to_nat (NHITS.outputsize_multiplier (NHITS.cfg_loss c))
                            * Z.to_nat (Z.max (NHITS.cfg_h c / d) 1))
                = NHITS.cfg_input_size c
                  + NHITS.outputsize_multiplier (NHITS.cfg_loss c)
                    * Z.max (NHITS.cfg_h c / d) 1)%Z) by lia.
  split; [lia|]. split.
  - rewrite Hmods, Hn. unfold feature_width. cbv zeta.
    rewrite <- (Z2Nat.inj_add (NHITS.cfg_input_size c) (NHITS.cfg_h c)) by lia.
    rewrite !Nat2Z.inj_add, !Nat2Z.inj_mul.
    rewrite <- !ceil_div_of_nat by lia.
    match goal with
    | |- nn.check_widths (projector_modules ?w _ _ _) ?w' = _ =>
        replace w' with w by (unfold Py.len; lia)
    end.
    now apply projector_widths.
  - intros x. rewrite Happly, Hmods.
    erewrite Hinit;
      [|unfold projector_modules; rewrite app_comm_cons; apply last_last].
    lia.
Qed.

Lemma inner_loop_fits (i : nat) (idx : list nat) (bl bl' : list NHITSBlock.t) :
  for_each idx (fun _ bl => create_block i bl) bl = Ok bl' ->
  exists new, bl' = bl ++ new /\ Forall fits new.
Proof.
  revert bl. induction idx as [|j idx IH]; intros bl H; cbn [for_each] in H.
  - injection H as <-. exists []. rewrite app_nil_r. split; [reflexivity | constructor].
  - match type of H with bind ?r _ = _ => destruct r as [bl1|] eqn:E end;
      cbn [bind] in H; [|discriminate].
    apply create_block_fits in E as [b [-> Hb]].
    apply IH in H as [new [-> Hnew]].
    exists (b :: new). rewrite <- app_assoc. split; [reflexivity | now constructor].
Qed.

Lemma outer_loop_fits (idx : list nat) (bl bl' : list NHITSBlock.t) :
  for_each idx create_stack_blocks bl = Ok bl' ->
  exists new, bl' = bl ++ new /\ Forall fits new.
Proof.
  revert bl. induction idx as [|i idx IH]; intros bl H; cbn [for_each] in H.
  - injection H as <-. exists []. rewrite app_nil_r. split; [reflexivity | constructor].
  - match type of H with bind ?r _ = _ => destruct r as [bl1|] eqn:E end;
      cbn [bind] in H; [|discriminate].
    unfold NHITS.create_stack_blocks in E.
    destruct (Py.index _ _) as [n|]; cbn [bind] in E; [|discriminate].
    apply inner_loop_fits in E as [new1 [-> H1]].
    apply IH in H as [new2 [-> H2]].
    exists (new1 ++ new2). rewrite <- app_assoc. split; [reflexivity|].
    apply Forall_app. now split.
Qed.

End Constructed.

(** ** Runs of well-formed models *)

Lemma well_formed_uniform (l h q ch cf cs : nat) (m : NHITS.t) :
  well_formed_model l h q ch cf cs m -> uniform_bases m.
Proof.
  intros (Eh & Eq & Hblocks). unfold uniform_bases.
  eapply Forall_impl; [|exact Hblocks].
  intros b (Efs & _ & Eof & _). rewrite Eh, Eq. now split.
Qed.


Lemma init_well_formed
        (init : nat -> list nn.module -> tensor1 -> tensor1)
        (c : NHITS.config) (m : NHITS.t) :
  runnable c -> respects_widths init ->
  NHITS.__init__ init c = Ok m ->
  well_formed_model (Z.to_nat (NHITS.cfg_input_size c)) (Z.to_nat (NHITS.cfg_h c))
    (Z.to_nat (NHITS.outputsize_multiplier (NHITS.cfg_loss c)))
    (length (NHITS.hist_exog_list c)) (length (NHITS.futr_exog_list c))
    (length (NHITS.stat_exog_list c)) m.
Proof.
  intros Hrun Hinit. rewrite init_unfold. intros H.
  match type of H with bind ?r _ = _ => destruct r as [blocks|] eqn:E end;
    cbn [bind] in H; [|discriminate].
  injection H as <-. destruct (Hrun) as (Hh & Hl & Hq & _).
  unfold well_formed_model. cbn [NHITS.h NHITS.loss NHITS.blocks].
  split; [lia|]. split; [lia|].
  apply (outer_loop_fits Hrun Hinit) in E as [new [-> Hnew]]. exact Hnew.
Qed.

Lemma forward_ok
        (b l h q ch cf cs : nat) (m : NHITS.t) (wb : NHITS.windows_batch) :
  (0 < b)%nat -> (0 < l)%nat -> (0 < h)%nat -> (0 < q)%nat ->
  well_formed_model l h q ch cf cs m ->
  well_formed_window b l h ch cf cs wb ->
  NHITS.blocks m <> [] -> NHITS.decompose_forecast m = false ->
  exists forecast,
    NHITS.forward m wb = Ok (NHITS.domain_map (NHITS.loss m) forecast)
    /\ has_shape3 b h q forecast.
Proof.
  intros Hb Hl Hh Hq Hm (Hy & Hmask & Hexog) Hne Hdec.
  pose proof (well_formed_uniform Hm) as Huni.
  destruct Hm as (Eh & Eq & Hblocks).
  destruct (chain_exists Hb Hl Hh Hq Hexog (flip_last_has_shape Hmask) Hblocks
                         (flip_last_has_shape Hy)) as [bfs Hbfs].
  assert (Hlen : length (NHITS.insample_mask wb) = length (NHITS.insample_y wb))
    by (destruct Hy, Hmask; congruence).
  pose proof (rows_nonempty Hl Hy) as Hrows.
  destruct (run_blocks_sum m Hne Huni Hlen Hrows Hbfs) as (r' & Hrun & Hshapes & _).
  eexists. split.
  - unfold NHITS.forward. rewrite Hrun, Hdec. reflexivity.
  - cbn [NHITS.forecast]. rewrite Eh, Eq, !Nat2Z.id in *.
    destruct Hy as [Hylen _]. rewrite Hylen in Hshapes.
    apply fold_add_has_shape; try assumption.
    rewrite <- Hylen. apply baseline_has_shape.
Qed.

(** ** Blocks without exogenous variables *)

Lemma block_forward_without_exog (self : NHITSBlock.t) (y : tensor2)
      (futr hist futr' hist' : tensor3) (stat stat' : tensor2) :
  (NHITSBlock.hist_input_size self <= 0)%Z ->
  (NHITSBlock.futr_input_size self <= 0)%Z ->
  (NHITSBlock.stat_input_size self <= 0)%Z ->
  NHITSBlock.forward self y futr hist stat
  = NHITSBlock.forward self y futr' hist' stat'.
Proof.
  intros Hh Hf Hs. unfold NHITSBlock.forward.
  replace (0 <? NHITSBlock.hist_input_size self)%Z with false
    by (symmetry; apply Z.ltb_ge; assumption).
  replace (0 <? NHITSBlock.futr_input_size self)%Z with false
    by (symmetry; apply Z.ltb_ge; assumption).
  replace (0 <? NHITSBlock.stat_input_size self)%Z with false
    by (symmetry; apply Z.ltb_ge; assumption).
  reflexivity.
Qed.

(** ** The exceptions of the basis *)

Lemma for_each_error {I S : Type} (P : error -> Prop) (idx : list I)
      (body : I -> S -> result S) :
  (forall i s e, body i s = Err e -> P e) ->
  forall s e, for_each idx body s = Err e -> P e.
Proof.
  intros Hbody. induction idx as [|i idx IH]; intros s e H; cbn [for_each] in H;
    [discriminate|].
  destruct (body i s) as [s'|e'] eqn:E; cbn [bind] in H.
  - exact (IH s' e H).
  - injection H as <-. exact (Hbody i s e' E).
Qed.

Ltac case_head :=
  match goal with
  | |- (if ?c then _ else _) = _ -> _ => destruct c
  | |- match ?c with _ => _ end = _ -> _ => destruct c
  | |- bind (if ?c then _ else _) _ = _ -> _ => destruct c; cbn [bind]
  | |- bind (match ?c with _ => _ end) _ = _ -> _ => destruct c; cbn [bind]
  end.

Ltac other_error :=
  let H := fresh in
  intros H; first [discriminate H | injection H as <-; discriminate].

Lemma reshape_q_raises (msg : string) (q : Z) (t : tensor2) (e : error) :
  Torch.reshape_q q t = Err e -> e <> UnboundLocalError msg.
Proof. unfold Torch.reshape_q. repeat case_head; other_error. Qed.

Lemma interpolate_raises (msg : string) (t : tensor3) (size : Z) (mode : string)
      (e : error) :
  F.interpolate t size mode = Err e -> e <> UnboundLocalError msg.
Proof. unfold F.interpolate, F.interpolate_with. repeat case_head; other_error. Qed.

Lemma cubic_loop_raises (msg : string) (self : _IdentityBasis.t) (knots : tensor4)
      (batch_size : Z) (idx : list nat) (forecast : tensor2) (e : error) :
  for_each idx (_IdentityBasis.cubic_step self knots batch_size) forecast = Err e ->
  e <> UnboundLocalError msg.
Proof.
  apply (for_each_error (fun e => e <> UnboundLocalError msg)).
  clear. intros i s e. unfold _IdentityBasis.cubic_step.
  destruct (F.interpolate_bicubic _ _) as [forecast_i|e'] eqn:E; cbn [bind].
  - destruct (for_each _ _ _) as [picked|e'] eqn:E'; cbn [bind].
    + unfold Torch.iadd2_3. repeat case_head; cbn [bind]; other_error.
    + intros H. injection H as <-. revert E'.
      apply (for_each_error (fun e => e <> UnboundLocalError msg)).
      clear. intros c acc e. unfold Py.index.
      repeat case_head; cbn [bind]; other_error.
  - intros H. injection H as <-. revert E. unfold F.interpolate_bicubic.
    repeat case_head; other_error.
Qed.

(** ** The decomposition of a forecast with one output *)

Lemma stack_same_shape (k m n : nat) (ts : list tensor3) :
  (0 < k)%nat -> (0 < m)%nat -> ts <> [] ->
  Forall (has_shape3 k m n) ts -> Torch.stack ts = Ok ts.
Proof.
  intros Hk Hm Hne Hts. unfold Torch.stack.
  destruct ts as [|t0 ts']; [congruence|].
  replace (forallb _ _) with true; [reflexivity|].
  symmetry. apply forallb_forall. intros t Ht.
  rewrite Forall_forall in Hts.
  rewrite (shape3_of_has_shape Hk Hm (Hts t Ht)).
  rewrite (shape3_of_has_shape Hk Hm (Hts t0 (or_introl eq_refl))).
  unfold Torch.shape_eqb. now destruct (list_eq_dec Nat.eq_dec _ _).
Qed.

(** * The theorems at concrete inputs *)

Ltac expose_blocks m :=
  let bs := eval vm_compute in (NHITS.blocks m) in
  replace (NHITS.blocks m) with bs by (vm_compute; reflexivity).

Ltac run_chain :=
  repeat first
    [ apply outputs_nil
    | eapply outputs_cons;
      [ vm_compute; reflexivity | vm_compute; reflexivity | vm_compute; reflexivity | ] ].

Ltac nonempty_rows := repeat constructor; discriminate.

(** The blocks of the examples all return. *)
Lemma two_blocks_chain :
  exists bfs,
    block_outputs example_window
      (Torch.flip_last (NHITS.insample_mask example_window))
      (Torch.flip_last (NHITS.insample_y example_window))
      (NHITS.blocks two_blocks) bfs.
Proof. eexists. expose_blocks two_blocks. run_chain. Defined.

Lemma two_blocks_two_outputs_chain :
  exists bfs,
    block_outputs example_window
      (Torch.flip_last (NHITS.insample_mask example_window))
      (Torch.flip_last (NHITS.insample_y example_window))
      (NHITS.blocks two_blocks_two_outputs) bfs.
Proof. eexists. expose_blocks two_blocks_two_outputs. run_chain. Defined.

Lemma two_blocks_uniform : uniform_bases two_blocks.
Proof. unfold uniform_bases. vm_compute. repeat constructor. Defined.

Lemma two_blocks_two_outputs_uniform : uniform_bases two_blocks_two_outputs.
Proof. unfold uniform_bases. vm_compute. repeat constructor. Defined.

Lemma forward_sums_block_forecasts_witness :
  exists bfs,
    block_outputs example_window
      (Torch.flip_last (NHITS.insample_mask example_window))
      (Torch.flip_last (NHITS.insample_y example_window))
      (NHITS.blocks two_blocks) bfs
    /\ NHITS.forward two_blocks example_window
       = Ok (NHITS.domain_map (NHITS.loss two_blocks)
               (fold_left add_entrywise bfs
                  (baseline 2 1 (NHITS.insample_y example_window)))).
Proof.
  destruct two_blocks_chain as [bfs Hbfs]. exists bfs. split; [exact Hbfs|].
  apply (@forward_sums_block_forecasts two_blocks example_window bfs).
  - vm_compute. discriminate.
  - reflexivity.
  - exact two_blocks_uniform.
  - reflexivity.
  - nonempty_rows.
  - exact Hbfs.
Defined.

Lemma forward_without_levels_the_horizon :
  NHITS.decompose_forecast (no_blocks 1) = false
  /\ block_outputs example_window
       (Torch.flip_last (NHITS.insample_mask example_window))
       (Torch.flip_last (NHITS.insample_y example_window))
       (NHITS.blocks (no_blocks 1)) []
  /\ NHITS.forward (no_blocks 1) example_window
     <> Ok (NHITS.domain_map (NHITS.loss (no_blocks 1))
              (fold_left add_entrywise []
                 (baseline 2 1 (NHITS.insample_y example_window)))).
Proof.
  split; [reflexivity|]. split; [apply outputs_nil|].
  intros E. vm_compute in E. discriminate E.
Qed.

Lemma forward_without_blocks_witness :
  NHITS.forward (no_blocks 1) example_window
  = Ok (NHITS.domain_map (NHITS.loss (no_blocks 1))
          (map (fun row => [[last row (Q2Qc 0)]]) (NHITS.insample_y example_window)))
  /\ has_shape3 2 1 1
       (map (fun row => [[last row (Q2Qc 0)]]) (NHITS.insample_y example_window)).
Proof.
  apply (@forward_without_blocks (no_blocks 1) example_window).
  - reflexivity.
  - reflexivity.
  - cbn. lia.
  - nonempty_rows.
Defined.


Lemma decomposition_raises_witness :
  NHITS.forward (set_decompose true two_blocks_two_outputs) example_window
  = Err (RuntimeError "stack expects each tensor to be equal size").
Proof.
  destruct two_blocks_two_outputs_chain as [bfs Hbfs].
  apply (@decomposition_raises_for_several_outputs
           (set_decompose true two_blocks_two_outputs) example_window bfs).
  - vm_compute. discriminate.
  - reflexivity.
  - exact two_blocks_two_outputs_uniform.
  - vm_compute. reflexivity.
  - reflexivity.
  - nonempty_rows.
  - exact Hbfs.
Defined.

Lemma cubic_forward_raises_witness :
  exists e,
    _IdentityBasis.forward
      {| _IdentityBasis.forecast_size := 2;
         _IdentityBasis.backcast_size := 4;
         _IdentityBasis.interpolation_mode := "cubic";
         _IdentityBasis.out_features := 1 |}
      [map Qc_of_Z [1; 2; 3; 4; 10; 20]%Z]
    = Err e.
Proof.
  apply cubic_forward_raises; reflexivity.
Defined.

Lemma basis_identity_witness :
  _IdentityBasis.forward
    {| _IdentityBasis.forecast_size := Z.of_nat 2;
       _IdentityBasis.backcast_size := Z.of_nat 4;
       _IdentityBasis.interpolation_mode := "linear";
       _IdentityBasis.out_features := Z.of_nat 1 |}
    [map Qc_of_Z [1; 2; 3; 4; 10; 20]%Z]
  = Ok ([map Qc_of_Z [1; 2; 3; 4]%Z], [[[Qc_of_Z 10]; [Qc_of_Z 20]]]).
Proof.
  apply (@basis_identity_when_knots_eq_horizon "linear" 4 2 1
           [map Qc_of_Z [1; 2; 3; 4; 10; 20]%Z]).
  - right. reflexivity.
  - lia.
  - lia.
  - discriminate.
  - repeat constructor.
Defined.



Lemma constructed_blocks_n_theta_witness :
  NHITS.__init__ counting_init
    (example_config 1 ["identity"; "identity"] [1; 1]%Z [2; 1]%Z "linear")
  = Ok two_blocks
  /\ Forall2 (built_for (example_config 1 ["identity"; "identity"] [1; 1]%Z [2; 1]%Z "linear"))
             [0; 1]%nat (NHITS.blocks two_blocks).
Proof.
  assert (E : NHITS.__init__ counting_init
                (example_config 1 ["identity"; "identity"] [1; 1]%Z [2; 1]%Z "linear")
              = Ok two_blocks) by (vm_compute; reflexivity).
  split; [exact E|].
  exact (@constructed_blocks_n_theta counting_init _ two_blocks E).
Defined.

Lemma example_settings_valid (st : list string) (nb ds : list Z) :
  valid_settings (example_config 1 st nb ds "linear").
Proof.
  unfold valid_settings. cbn.
  repeat split; try reflexivity; try discriminate.
  repeat constructor; cbn; lia.
Defined.

Lemma construction_ignores_list_lengths_witness :
  length (NHITS.stack_types (example_config 1 ["identity"] [1; 1; 1]%Z [2; 1]%Z "linear"))
  <> length (NHITS.n_blocks (example_config 1 ["identity"] [1; 1; 1]%Z [2; 1]%Z "linear"))
  /\ exists m,
      NHITS.__init__ counting_init
        (example_config 1 ["identity"] [1; 1; 1]%Z [2; 1]%Z "linear") = Ok m.
Proof.
  split; [cbn; lia|].
  apply (@construction_ignores_list_lengths counting_init
           (example_config 1 ["identity"] [1; 1; 1]%Z [2; 1]%Z "linear")).
  - apply example_settings_valid.
  - unfold stacks_ready. cbn.
    repeat split; try lia; repeat constructor; first [discriminate | lia].
  - cbn. lia.
Defined.

Lemma construction_accepts_unequal_lists :
  length (NHITS.stack_types (example_config 1 ["identity"] [1; 1; 1]%Z [2; 1]%Z "linear"))
  <> length (NHITS.n_blocks (example_config 1 ["identity"] [1; 1; 1]%Z [2; 1]%Z "linear"))
  /\ length (NHITS.stack_types (example_config 1 ["identity"] [1; 1; 1]%Z [2; 1]%Z "linear"))
     <> length (NHITS.mlp_units (example_config 1 ["identity"] [1; 1; 1]%Z [2; 1]%Z "linear"))
  /\ exists m,
      NHITS.__init__ counting_init
        (example_config 1 ["identity"] [1; 1; 1]%Z [2; 1]%Z "linear") = Ok m.
Proof.
  split; [cbn; lia|]. split; [cbn; lia|].
  eexists. vm_compute. reflexivity.
Qed.

Lemma non_identity_stack_rejected_witness :
  NHITS.__init__ counting_init
    (example_config 1 ["identity"; "trend"] [1; 1]%Z [2; 1]%Z "linear")
  = Err (AssertionError "Block type trend not found!")
  /\ NHITS.__init__ counting_init
       (example_config 1 ["identity"; "trend"] [1]%Z [2; 1]%Z "linear")
     = Err (IndexError "list index out of range").
Proof.
  split.
  - destruct (NHITS.__init__ counting_init
                (with_stack_types
                   (example_config 1 ["identity"; "trend"] [1; 1]%Z [2; 1]%Z "linear")
                   (firstn 1 ["identity"; "trend"]))) as [m|e] eqn:E;
      [|vm_compute in E; discriminate E].
    apply (@non_identity_stack_rejected counting_init
             (example_config 1 ["identity"; "trend"] [1; 1]%Z [2; 1]%Z "linear")
             1%nat "trend") with (m := m).
    + reflexivity.
    + discriminate.
    + intros n Hn. cbn in Hn. injection Hn as <-. lia.
    + exact E.
  - destruct (NHITS.__init__ counting_init
                (with_stack_types
                   (example_config 1 ["identity"; "trend"] [1]%Z [2; 1]%Z "linear")
                   (firstn 1 ["identity"; "trend"]))) as [m|e] eqn:E;
      [|vm_compute in E; discriminate E].
    apply (@non_identity_stack_rejected counting_init
             (example_config 1 ["identity"; "trend"] [1]%Z [2; 1]%Z "linear")
             1%nat "trend") with (m := m).
    + reflexivity.
    + discriminate.
    + intros n Hn. cbn in Hn. discriminate Hn.
    + exact E.
Defined.

Lemma non_identity_stack_accepted :
  In "trend" (NHITS.stack_types (example_config 1 ["trend"] [0]%Z [2; 1]%Z "linear"))
  /\ (exists m,
         NHITS.__init__ counting_init
           (example_config 1 ["trend"] [0]%Z [2; 1]%Z "linear") = Ok m)
  /\ NHITS.__init__ counting_init
       (example_config 1 ["trend"; "identity"] [1; 1]%Z [2; 1]%Z "linear")
     = NHITS.__init__ counting_init
         (example_config 1 ["identity"; "trend"] [1; 1]%Z [2; 1]%Z "linear").
Proof.
  split; [now left|]. split; [eexists; vm_compute; reflexivity|].
  vm_compute. reflexivity.
Qed.

(** * Further properties of the code *)

(** X1.  The blocks of a constructed model fit it: for a configuration
    with positive sizes and kernels, nearest or linear interpolation and
    layer widths that chain, every block has a basis of the model's sizes
    and a projector whose first layer takes exactly the features the block
    assembles and whose last layer gives lookback plus knots. *)
Theorem constructed_model_is_well_formed
        (init : nat -> list nn.module -> tensor1 -> tensor1)
        (c : NHITS.config) (m : NHITS.t) :
  runnable c -> respects_widths init ->
  NHITS.__init__ init c = Ok m ->
  well_formed_model (Z.to_nat (NHITS.cfg_input_size c)) (Z.to_nat (NHITS.cfg_h c))
    (Z.to_nat (NHITS.outputsize_multiplier (NHITS.cfg_loss c)))
    (length (NHITS.hist_exog_list c)) (length (NHITS.futr_exog_list c))
    (length (NHITS.stat_exog_list c)) m.
Proof. apply init_well_formed. Qed.

(** X2.  A well-formed model with at least one block that does not
    decompose returns, on every well-formed batch of windows, the output
    mapping of a forecast of shape batch x horizon x output features. *)
Theorem forward_returns_a_forecast
        (b l h q ch cf cs : nat) (m : NHITS.t) (wb : NHITS.windows_batch) :
  (0 < b)%nat -> (0 < l)%nat -> (0 < h)%nat -> (0 < q)%nat ->
  well_formed_model l h q ch cf cs m ->
  well_formed_window b l h ch cf cs wb ->
  NHITS.blocks m <> [] -> NHITS.decompose_forecast m = false ->
  exists forecast,
    NHITS.forward m wb = Ok (NHITS.domain_map (NHITS.loss m) forecast)
    /\ has_shape3 b h q forecast.
Proof. apply forward_ok. Qed.


(** X4.  Whatever its projector computes, a block that returns gives a
    backcast with one row per sample and a forecast of shape batch x
    [forecast_size] x [out_features] of its basis, both sizes positive and
    the batch not empty. *)
Theorem block_output_shapes
        (self : NHITSBlock.t) (y backcast : tensor2) (futr hist : tensor3)
        (stat : tensor2) (forecast : tensor3) :
  NHITSBlock.forward self y futr hist stat = Ok (backcast, forecast) ->
  (0 < _IdentityBasis.forecast_size (NHITSBlock.basis self))%Z
  /\ (0 < _IdentityBasis.out_features (NHITSBlock.basis self))%Z
  /\ (0 < length y)%nat
  /\ length backcast = length y
  /\ has_shape3 (length y)
                (Z.to_nat (_IdentityBasis.forecast_size (NHITSBlock.basis self)))
                (Z.to_nat (_IdentityBasis.out_features (NHITSBlock.basis self)))
                forecast.
Proof. apply block_forward_shape. Qed.

(** X5.  A positive dropout probability makes the constructor of a block
    raise [NotImplementedError('dropout')] in the first pass of the loop
    over the hidden layers, once the kernel size, the activation, the
    pooling mode and the first entry of [mlp_units] have been accepted and
    the first two affine layers have been built: the kernel size, the
    lookback and the two widths of the first entry are positive, the
    horizon and the numbers of exogenous variables not negative. *)
Theorem block_init_rejects_dropout
        (init : list nn.module -> tensor1 -> tensor1)
        (input_size h n_theta i o : Z) (widths : list Z) (more : list (list Z))
        (basis : _IdentityBasis.t) (futr hist stat k : Z)
        (pooling_mode activation : string) (dropout : Qc) :
  (0 < k)%Z -> (0 < input_size)%Z -> (0 <= h)%Z ->
  (0 <= futr)%Z -> (0 <= hist)%Z -> (0 <= stat)%Z ->
  (0 < i)%Z -> (0 < o)%Z ->
  Py.mem activation ACTIVATIONS = true ->
  Py.mem pooling_mode POOLING = true ->
  (Q2Qc 0 < dropout)%Qc ->
  NHITSBlock.__init__ init input_size h n_theta ((i :: o :: widths) :: more) basis
                      futr hist stat k pooling_mode dropout activation
  = Err (NotImplementedError "dropout").
Proof.
  intros Hk Hl Hh Hfutr Hhist Hstat Hi Ho Hact Hpool Hdrop.
  unfold NHITSBlock.__init__, Py.ceil_div.
  destruct (Z.eqb_spec k 0) as [|_]; [lia|]. cbn [bind].
  rewrite Hact, Hpool. cbn [negb].
  rewrite index_0. cbn [nth_error bind]. rewrite index_0. cbn [nth_error bind].
  pose proof (@ceil_nonneg input_size k ltac:(lia) Hk) as Hpooled.
  pose proof (@ceil_nonneg (input_size + h) k ltac:(lia) Hk) as Hpooled'.
  rewrite Linear_init_ok by nia. cbn [bind for_each].
  unfold NHITSBlock.add_layer at 1.
  rewrite index_0, index_1. cbn [nth_error bind].
  rewrite Linear_init_ok by lia. cbn [bind].
  destruct (Qclt_le_dec (Q2Qc 0) dropout) as [_|Hle]; [reflexivity|].
  exfalso. exact (Qcle_not_lt _ _ Hle Hdrop).
Qed.

(** X6.  Construction and evaluation compose: the model the constructor
    returns for a runnable configuration, if it has a block, forecasts
    every well-formed batch of windows; forward returns the output mapping
    of a tensor of shape batch x horizon x output features. *)
Theorem constructed_model_forecasts
        (init : nat -> list nn.module -> tensor1 -> tensor1)
        (c : NHITS.config) (m : NHITS.t) (b : nat) (wb : NHITS.windows_batch) :
  runnable c -> respects_widths init ->
  NHITS.__init__ init c = Ok m -> NHITS.blocks m <> [] ->
  (0 < b)%nat ->
  well_formed_window b (Z.to_nat (NHITS.cfg_input_size c)) (Z.to_nat (NHITS.cfg_h c))
    (length (NHITS.hist_exog_list c)) (length (NHITS.futr_exog_list c))
    (length (NHITS.stat_exog_list c)) wb ->
  exists forecast,
    NHITS.forward m wb = Ok (NHITS.domain_map (NHITS.cfg_loss c) forecast)
    /\ has_shape3 b (Z.to_nat (NHITS.cfg_h c))
                  (Z.to_nat (NHITS.outputsize_multiplier (NHITS.cfg_loss c)))
                  forecast.
Proof.
  intros Hrun Hinit Hm Hne Hb Hwb.
  pose proof (init_well_formed Hrun Hinit Hm) as Hwf.
  assert (Hloss : NHITS.loss m = NHITS.cfg_loss c /\ NHITS.decompose_forecast m = false).
  { rewrite init_unfold in Hm.
    match type of Hm with bind ?r _ = _ => destruct r end; cbn [bind] in Hm;
      [|discriminate].
    injection Hm as <-. now split. }
  destruct Hloss as [Hloss Hdec]. destruct Hrun as (Hh & Hl & Hq & _).
  assert (Hl' : (0 < Z.to_nat (NHITS.cfg_input_size c))%nat) by lia.
  assert (Hh' : (0 < Z.to_nat (NHITS.cfg_h c))%nat) by lia.
  assert (Hq' : (0 < Z.to_nat (NHITS.outputsize_multiplier (NHITS.cfg_loss c)))%nat)
    by lia.
  destruct (forward_ok Hb Hl' Hh' Hq' Hwf Hwb Hne Hdec)
    as (forecast & Hfwd & Hshape).
  exists forecast. rewrite Hloss in Hfwd. now split.
Qed.

(** X7.  A model whose blocks use no historic, future or static variable
    never reads the exogenous tensors of the batch: forward gives the same
    result, or raises the same exception, on two batches that agree on
    the windows and on the mask. *)
Theorem forward_ignores_unused_exog (m : NHITS.t) (wb wb' : NHITS.windows_batch) :
  Forall (fun b => (NHITSBlock.hist_input_size b <= 0)%Z
                   /\ (NHITSBlock.futr_input_size b <= 0)%Z
                   /\ (NHITSBlock.stat_input_size b <= 0)%Z) (NHITS.blocks m) ->
  NHITS.insample_y wb = NHITS.insample_y wb' ->
  NHITS.insample_mask wb = NHITS.insample_mask wb' ->
  NHITS.forward m wb = NHITS.forward m wb'.
Proof.
  intros Hblocks Hy Hmask. unfold NHITS.forward, NHITS.run_blocks, NHITS.init_state.
  rewrite Hy, Hmask.
  destruct (Torch.repeat_1n1 _ _) as [repeated|]; cbn [bind]; [|reflexivity].
  erewrite for_each_ext_in; [reflexivity|].
  intros block s Hin. rewrite Forall_forall in Hblocks.
  destruct (Hblocks block Hin) as (Hh & Hf & Hs).
  unfold NHITS.block_step.
  now rewrite (@block_forward_without_exog block (NHITS.residuals s)
                 (NHITS.futr_exog wb) (NHITS.hist_exog wb)
                 (NHITS.futr_exog wb') (NHITS.hist_exog wb')
                 (NHITS.stat_exog wb) (NHITS.stat_exog wb') Hh Hf Hs).
Qed.

(** X8.  The width the constructor of a block computes for the pooled
    lookback, [int(np.ceil(input_size / n_pool_kernel_size))], is the
    length of the row the pooling layer of forward returns, for every
    positive kernel size and either pooling mode. *)
Theorem pooled_size_matches_pooling (p : nn.pooling) (row : tensor1) :
  (0 < nn.kernel_size p)%Z ->
  Py.ceil_div (Z.of_nat (length row)) (nn.kernel_size p)
  = Ok (Z.of_nat (length (nn.pool_row p row))).
Proof.
  intros Hk. unfold Py.ceil_div.
  destruct (Z.eqb_spec (nn.kernel_size p) 0) as [E|_]; [lia|].
  rewrite pool_row_length, ceil_div_of_nat by lia. now rewrite Nat2Z.id.
Qed.

(** X9.  The assertion of the constructor of the basis makes the two
    branches of its forward exhaustive: a basis the constructor returned
    never uses [forecast] before one of the branches assigned it. *)
Theorem constructed_basis_never_unbound
        (backcast_size forecast_size out_features : Z) (interpolation_mode : string)
        (self : _IdentityBasis.t) (theta : tensor2) (msg : string) :
  _IdentityBasis.__init__ backcast_size forecast_size interpolation_mode out_features
  = Ok self ->
  _IdentityBasis.forward self theta <> Err (UnboundLocalError msg).
Proof.
  unfold _IdentityBasis.__init__. intros Hinit.
  destruct (Py.mem interpolation_mode ["linear"; "nearest"]
            || Py.contains "cubic" interpolation_mode)%bool eqn:Hmode;
    [|discriminate].
  injection Hinit as <-. unfold _IdentityBasis.forward, _IdentityBasis.forward_with.
  change (F.interpolate_with F.exact) with F.interpolate.
  cbn [_IdentityBasis.interpolation_mode _IdentityBasis.out_features
       _IdentityBasis.backcast_size _IdentityBasis.forecast_size].
  destruct (Torch.reshape_q _ _) as [knots|e] eqn:E; cbn [bind];
    [|intros H; injection H as ->; exact (@reshape_q_raises msg _ _ _ E eq_refl)].
  assert (Hcubic : Py.mem interpolation_mode ["nearest"; "linear"] = false ->
                   Py.contains "cubic" interpolation_mode = true).
  { intros Hmem. apply orb_true_iff in Hmode as [Hmode|Hmode]; [|assumption].
    unfold Py.mem in *. cbn [existsb] in *.
    rewrite orb_false_r in *. rewrite orb_comm in Hmode. congruence. }
  destruct (Py.mem interpolation_mode ["nearest"; "linear"]).
  - destruct (F.interpolate _ _ _) as [f|e] eqn:Ei; cbn [bind]; [discriminate|].
    intros H; injection H as ->; exact (@interpolate_raises msg _ _ _ _ Ei eq_refl).
  - rewrite Hcubic by reflexivity.
    destruct (Torch.zeros2 _ _) as [zeros|e] eqn:Ez; cbn [bind];
      [|intros H; injection H as ->; revert Ez; unfold Torch.zeros2;
        case_head; discriminate].
    destruct (Py.ceil_div _ _) as [n|e] eqn:Ec; cbn [bind];
      [|intros H; injection H as ->; revert Ec; unfold Py.ceil_div;
        case_head; discriminate].
    destruct (for_each _ _ _) as [f|e] eqn:E'; cbn [bind]; [discriminate|].
    intros H; injection H as ->.
    exact (@cubic_loop_raises msg _ _ _ _ _ _ E' eq_refl).
Qed.

(** X10.  The knots have to fill whole output features: when what a row
    of theta holds after the backcast is not a multiple of [out_features],
    the reshape of forward raises. *)
Theorem basis_rejects_ragged_knots
        (self : _IdentityBasis.t) (L : nat) (row : tensor1) (rest : tensor2) :
  _IdentityBasis.backcast_size self = Z.of_nat L ->
  (0 < _IdentityBasis.out_features self)%Z ->
  (Z.of_nat (length row - L) mod _IdentityBasis.out_features self <> 0)%Z ->
  _IdentityBasis.forward self (row :: rest)
  = Err (RuntimeError "shape is invalid for input size").
Proof.
  intros HL Hq Hmod. unfold _IdentityBasis.forward, _IdentityBasis.forward_with, Torch.reshape_q.
  change (F.interpolate_with F.exact) with F.interpolate.
  rewrite HL. cbn [map length hd Nat.eqb orb].
  destruct (Z.leb_spec (_IdentityBasis.out_features self) 0) as [|_]; [lia|].
  rewrite slice_from, length_skipn.
  destruct (Z.eqb_spec (Z.of_nat (length row - L) mod _IdentityBasis.out_features self) 0)
    as [E|_]; [contradiction|].
  reflexivity.
Qed.

(** X11.  A theta whose rows are no longer than the backcast leaves no
    knot: the reshape gives rows of length zero and, in nearest and linear
    mode, the interpolation refuses them. *)
Theorem basis_rejects_missing_knots
        (self : _IdentityBasis.t) (L : nat) (row : tensor1) (rest : tensor2) :
  _IdentityBasis.backcast_size self = Z.of_nat L ->
  (0 < _IdentityBasis.out_features self)%Z ->
  Py.mem (_IdentityBasis.interpolation_mode self) ["nearest"; "linear"] = true ->
  (length row <= L)%nat ->
  _IdentityBasis.forward self (row :: rest) = Err F.bad_size.
Proof.
  intros HL Hq Hmode Hrow. unfold _IdentityBasis.forward, _IdentityBasis.forward_with, Torch.reshape_q.
  change (F.interpolate_with F.exact) with F.interpolate.
  rewrite HL, Hmode. cbn [map length hd Nat.eqb orb].
  destruct (Z.leb_spec (_IdentityBasis.out_features self) 0) as [|_]; [lia|].
  rewrite slice_from, length_skipn.
  replace (length row - L)%nat with 0%nat by lia.
  rewrite Z.mod_0_l by lia. cbn [Z.of_nat Z.eqb bind].
  unfold F.interpolate, F.interpolate_with, shape3, shape2, shape1. cbn [hd].
  destruct (Z.to_nat (_IdentityBasis.out_features self)) as [|q] eqn:E; [lia|].
  unfold Torch.chunks at 1 2. cbn [seq map hd length].
  rewrite Nat.Div0.div_0_l. cbn [firstn length Nat.eqb orb bind].
  reflexivity.
Qed.

(** X12.  With one output per horizon step the decomposition goes
    through: forward returns, without the output mapping, a rank-3 tensor
    that holds for every sample the baseline and then the forecast of
    every block, each as a row over the horizon; its shape is batch x
    (1 + blocks) x horizon. *)
Theorem decomposition_of_one_output
        (m : NHITS.t) (wb : NHITS.windows_batch) (bfs : list tensor3) :
  NHITS.blocks m <> [] -> NHITS.decompose_forecast m = true ->
  uniform_bases m ->
  NHITS.outputsize_multiplier (NHITS.loss m) = 1%Z ->
  length (NHITS.insample_mask wb) = length (NHITS.insample_y wb) ->
  Forall (fun row => row <> []) (NHITS.insample_y wb) ->
  block_outputs wb (Torch.flip_last (NHITS.insample_mask wb))
                (Torch.flip_last (NHITS.insample_y wb)) (NHITS.blocks m) bfs ->
  let parts := baseline (Z.to_nat (NHITS.h m)) 1 (NHITS.insample_y wb) :: bfs in
  let decomposition :=
    map (fun i => map (fun part => map (fun r => hd (Q2Qc 0) r) (nth i part [])) parts)
        (seq 0 (length (NHITS.insample_y wb))) in
  NHITS.forward m wb = Ok (T3 decomposition)
  /\ has_shape3 (length (NHITS.insample_y wb)) (S (length (NHITS.blocks m)))
                (Z.to_nat (NHITS.h m)) decomposition.
Proof.
  intros Hne Hdec Huni Hq Hmask Hrows Hout parts decomposition.
  destruct (run_blocks_sum m Hne Huni Hmask Hrows Hout)
    as (r' & Hrun & Hshapes & HB & HH & _).
  rewrite Hq in Hshapes. change (Z.to_nat 1) with 1%nat in Hshapes.
  assert (Hparts : Forall (has_shape3 (length (NHITS.insample_y wb))
                                      (Z.to_nat (NHITS.h m)) 1) parts).
  { constructor; [apply baseline_has_shape | exact Hshapes]. }
  assert (Hlen : length bfs = length (NHITS.blocks m)).
  { eapply block_outputs_shape; [exact Hout | exact Huni |].
    unfold Torch.flip_last. now rewrite !length_map. }
  assert (Hsome : parts <> []) by discriminate.
  split.
  - unfold NHITS.forward. rewrite Hrun, Hdec. cbn [bind NHITS.block_forecasts].
    fold parts.
    rewrite (stack_same_shape HB HH Hsome Hparts). cbn [bind].
    unfold Torch.permute1023, Torch.transpose, Torch.squeeze_last4.
    assert (Hfirst : length (hd [] parts) = length (NHITS.insample_y wb)).
    { unfold parts. cbn [hd]. unfold baseline. apply length_map. }
    rewrite Hfirst.
    assert (Hshape : shape4 (map (fun j => map (fun r => nth j r []) parts)
                                 (seq 0 (length (NHITS.insample_y wb))))
                     = [length (NHITS.insample_y wb); S (length bfs);
                        Z.to_nat (NHITS.h m); 1%nat]).
    { unfold shape4. rewrite length_map, length_seq. f_equal.
      destruct (length (NHITS.insample_y wb)) as [|B] eqn:EB; [lia|].
      cbn [seq map hd]. unfold shape3. rewrite length_map. f_equal.
      unfold parts at 1. cbn [map hd].
      destruct (NHITS.insample_y wb) as [|row rows]; [discriminate|].
      unfold baseline. cbn [map nth]. unfold shape2, shape1.
      rewrite repeat_length.
      destruct (Z.to_nat (NHITS.h m)); [lia | reflexivity]. }
    rewrite Hshape. unfold decomposition.
    do 2 f_equal. rewrite map_map. apply map_ext. intros i. now rewrite map_map.
  - unfold decomposition. split; [now rewrite length_map, length_seq|].
    apply Forall_map, Forall_forall. intros i Hi. apply in_seq in Hi.
    split; [rewrite length_map; unfold parts; cbn [length]; now rewrite Hlen|].
    apply Forall_map. eapply Forall_impl; [|exact Hparts].
    intros part [Hpl Hpart]. unfold has_shape1. rewrite length_map.
    rewrite Forall_forall in Hpart.
    apply (Hpart (nth i part [])). apply nth_In. lia.
Qed.

(** X13.  In nearest and linear mode the basis returns for every number
    of knots from one on: given rows of [backcast_size] entries followed
    by [out_features] times the knots, the backcast is the first
    [backcast_size] entries of every row and the forecast has the shape
    batch x [forecast_size] x [out_features]. *)
Theorem basis_forward_returns
        (self : _IdentityBasis.t) (b l h q n : nat) (theta : tensor2) :
  _IdentityBasis.forecast_size self = Z.of_nat h ->
  _IdentityBasis.backcast_size self = Z.of_nat l ->
  _IdentityBasis.out_features self = Z.of_nat q ->
  Py.mem (_IdentityBasis.interpolation_mode self) ["nearest"; "linear"] = true ->
  (0 < b)%nat -> (0 < h)%nat -> (0 < q)%nat -> (0 < n)%nat ->
  has_shape2 b (l + q * n) theta ->
  exists forecast,
    _IdentityBasis.forward self theta = Ok (map (firstn l) theta, forecast)
    /\ has_shape2 b l (map (firstn l) theta)
    /\ has_shape3 b h q forecast.
Proof. apply basis_forward_ok. Qed.

(** X14.  A block that fits the model returns on every residual of shape
    batch x lookback: the pooled window and the pooled and flattened
    exogenous tensors it uses make rows of the width its first layer
    takes, and it gives a backcast of shape batch x lookback and a
    forecast of shape batch x horizon x output features. *)
Theorem block_forward_returns
        (self : NHITSBlock.t) (b l h q ch cf cs : nat)
        (wb : NHITS.windows_batch) (y : tensor2) :
  (0 < b)%nat -> (0 < l)%nat -> (0 < h)%nat -> (0 < q)%nat ->
  well_formed_block l h q ch cf cs self ->
  well_formed_exog b l h ch cf cs wb ->
  has_shape2 b l y ->
  exists backcast forecast,
    NHITSBlock.forward self y (NHITS.futr_exog wb) (NHITS.hist_exog wb)
                       (NHITS.stat_exog wb) = Ok (backcast, forecast)
    /\ has_shape2 b l backcast
    /\ has_shape3 b h q forecast.
Proof. apply block_forward_ok. Qed.

(** * The further properties at concrete inputs *)

Lemma example_runnable (st : list string) (nb ds : list Z) :
  runnable (example_config 1 st nb ds "linear").
Proof.
  unfold runnable. cbn.
  repeat split; try reflexivity; try lia.
  repeat constructor.
Defined.

Lemma counting_respects_widths : respects_widths counting_init.
Proof.
  intros position modules i o x Hlast. unfold counting_init. rewrite Hlast.
  now rewrite length_map, length_seq.
Defined.

Lemma two_blocks_built :
  NHITS.__init__ counting_init
    (example_config 1 ["identity"; "identity"] [1; 1]%Z [2; 1]%Z "linear")
  = Ok two_blocks.
Proof. vm_compute. reflexivity. Defined.

Lemma two_blocks_well_formed : well_formed_model 4 2 1 0 0 0 two_blocks.
Proof.
  exact (init_well_formed (example_runnable _ _ _) counting_respects_widths
                          two_blocks_built).
Defined.

Lemma example_window_well_formed : well_formed_window 2 4 2 0 0 0 example_window.
Proof.
  unfold well_formed_window, well_formed_exog, has_shape2, has_shape1. cbn.
  repeat split; try lia; repeat constructor.
Defined.

Lemma two_blocks_some : NHITS.blocks two_blocks <> [].
Proof. vm_compute. discriminate. Defined.

Lemma constructed_model_is_well_formed_witness :
  NHITS.__init__ counting_init
    (example_config 1 ["identity"; "identity"] [1; 1]%Z [2; 1]%Z "linear")
  = Ok two_blocks
  /\ well_formed_model 4 2 1 0 0 0 two_blocks.
Proof.
  split; [exact two_blocks_built|].
  exact (@constructed_model_is_well_formed counting_init
           (example_config 1 ["identity"; "identity"] [1; 1]%Z [2; 1]%Z "linear")
           two_blocks (example_runnable _ _ _) counting_respects_widths
           two_blocks_built).
Defined.

Lemma forward_returns_a_forecast_witness :
  exists forecast,
    NHITS.forward two_blocks example_window
    = Ok (NHITS.domain_map (NHITS.loss two_blocks) forecast)
    /\ has_shape3 2 2 1 forecast.
Proof.
  apply (@forward_returns_a_forecast 2 4 2 1 0 0 0 two_blocks example_window).
  - lia.
  - lia.
  - lia.
  - lia.
  - exact two_blocks_well_formed.
  - exact example_window_well_formed.
  - exact two_blocks_some.
  - reflexivity.
Defined.


Lemma block_output_shapes_witness :
  exists self backcast forecast,
    In self (NHITS.blocks two_blocks)
    /\ NHITSBlock.forward self (Torch.flip_last (NHITS.insample_y example_window))
                          [] [] [] = Ok (backcast, forecast)
    /\ length backcast = 2%nat
    /\ has_shape3 2 2 1 forecast.
Proof.
  destruct (NHITS.blocks two_blocks) as [|self rest] eqn:E;
    [vm_compute in E; discriminate E|].
  destruct (NHITSBlock.forward self (Torch.flip_last (NHITS.insample_y example_window))
                               [] [] []) as [[backcast forecast]|e] eqn:Ef;
    [|vm_compute in E; injection E as <- _; vm_compute in Ef; discriminate Ef].
  exists self, backcast, forecast. split; [now left|]. split; [exact Ef|].
  pose proof (@block_output_shapes self _ backcast [] [] [] forecast Ef)
    as (_ & _ & _ & Hlen & Hshape).
  assert (Hsizes : _IdentityBasis.forecast_size (NHITSBlock.basis self) = 2%Z
                   /\ _IdentityBasis.out_features (NHITSBlock.basis self) = 1%Z).
  { vm_compute in E. injection E as <- _. split; reflexivity. }
  destruct Hsizes as [Hh Hq]. rewrite Hh, Hq in Hshape.
  split; [exact Hlen | exact Hshape].
Defined.

Lemma block_init_rejects_dropout_witness :
  NHITSBlock.__init__ (counting_init 0) 4 2 6 [[8; 8]; [8; 8]]%Z
    {| _IdentityBasis.forecast_size := 2;
       _IdentityBasis.backcast_size := 4;
       _IdentityBasis.interpolation_mode := "linear";
       _IdentityBasis.out_features := 1 |}
    0 0 0 2 "MaxPool1d" (Q2Qc (1 # 2)) "ReLU"
  = Err (NotImplementedError "dropout").
Proof.
  apply block_init_rejects_dropout; try lia; reflexivity.
Defined.

Lemma constructed_model_forecasts_witness :
  exists forecast,
    NHITS.forward two_blocks example_window
    = Ok (Torch.squeeze_last3 forecast)
    /\ has_shape3 2 2 1 forecast.
Proof.
  apply (@constructed_model_forecasts counting_init
           (example_config 1 ["identity"; "identity"] [1; 1]%Z [2; 1]%Z "linear")
           two_blocks 2 example_window).
  - apply example_runnable.
  - exact counting_respects_widths.
  - exact two_blocks_built.
  - exact two_blocks_some.
  - lia.
  - exact example_window_well_formed.
Defined.

Lemma forward_ignores_unused_exog_witness :
  NHITS.forward two_blocks example_window
  = NHITS.forward two_blocks
      {| NHITS.insample_y := NHITS.insample_y example_window;
         NHITS.insample_mask := NHITS.insample_mask example_window;
         NHITS.futr_exog := [[[Qc_of_Z 7]]];
         NHITS.hist_exog := [[[Qc_of_Z 8]]];
         NHITS.stat_exog := [[Qc_of_Z 9]] |}.
Proof.
  apply forward_ignores_unused_exog.
  - destruct two_blocks_well_formed as (_ & _ & Hblocks).
    eapply Forall_impl; [|exact Hblocks].
    intros b (_ & _ & _ & _ & _ & Hh & Hf & Hs & _).
    rewrite Hh, Hf, Hs. cbn. lia.
  - reflexivity.
  - reflexivity.
Defined.

Lemma pooled_size_matches_pooling_witness :
  Py.ceil_div 3 2 = Ok (Z.of_nat (length (nn.pool_row (nn.MaxPool1d 2)
                                            (map Qc_of_Z [1; 2; 3]%Z)))).
Proof.
  apply (@pooled_size_matches_pooling (nn.MaxPool1d 2) (map Qc_of_Z [1; 2; 3]%Z)).
  cbn. lia.
Defined.

Lemma constructed_basis_never_unbound_witness :
  _IdentityBasis.forward
    {| _IdentityBasis.forecast_size := 2;
       _IdentityBasis.backcast_size := 4;
       _IdentityBasis.interpolation_mode := "bicubic";
       _IdentityBasis.out_features := 1 |}
    [map Qc_of_Z [1; 2; 3; 4; 10; 20]%Z]
  <> Err (UnboundLocalError "forecast").
Proof.
  apply (@constructed_basis_never_unbound 4 2 1 "bicubic").
  reflexivity.
Defined.

Lemma basis_rejects_ragged_knots_witness :
  _IdentityBasis.forward
    {| _IdentityBasis.forecast_size := 2;
       _IdentityBasis.backcast_size := 4;
       _IdentityBasis.interpolation_mode := "linear";
       _IdentityBasis.out_features := 2 |}
    [map Qc_of_Z [1; 2; 3; 4; 10; 20; 30]%Z]
  = Err (RuntimeError "shape is invalid for input size").
Proof.
  apply (@basis_rejects_ragged_knots _ 4).
  - reflexivity.
  - reflexivity.
  - cbn. discriminate.
Defined.

Lemma basis_rejects_missing_knots_witness :
  _IdentityBasis.forward
    {| _IdentityBasis.forecast_size := 2;
       _IdentityBasis.backcast_size := 4;
       _IdentityBasis.interpolation_mode := "nearest";
       _IdentityBasis.out_features := 1 |}
    [map Qc_of_Z [1; 2; 3; 4]%Z]
  = Err F.bad_size.
Proof.
  apply (@basis_rejects_missing_knots _ 4).
  - reflexivity.
  - reflexivity.
  - reflexivity.
  - cbn. lia.
Defined.

Lemma decomposition_of_one_output_witness :
  exists bfs,
    block_outputs example_window
      (Torch.flip_last (NHITS.insample_mask example_window))
      (Torch.flip_last (NHITS.insample_y example_window))
      (NHITS.blocks two_blocks) bfs
    /\ NHITS.forward (set_decompose true two_blocks) example_window
       = Ok (T3 (map (fun i =>
                        map (fun part => map (fun r => hd (Q2Qc 0) r) (nth i part []))
                            (baseline 2 1 (NHITS.insample_y example_window) :: bfs))
                     (seq 0 2)))
    /\ has_shape3 2 3 2
         (map (fun i =>
                 map (fun part => map (fun r => hd (Q2Qc 0) r) (nth i part []))
                     (baseline 2 1 (NHITS.insample_y example_window) :: bfs))
              (seq 0 2)).
Proof.
  destruct two_blocks_chain as [bfs Hbfs]. exists bfs. split; [exact Hbfs|].
  apply (@decomposition_of_one_output (set_decompose true two_blocks)
           example_window bfs).
  - exact two_blocks_some.
  - reflexivity.
  - exact two_blocks_uniform.
  - reflexivity.
  - reflexivity.
  - nonempty_rows.
  - exact Hbfs.
Defined.

Lemma basis_forward_returns_witness :
  exists forecast,
    _IdentityBasis.forward
      {| _IdentityBasis.forecast_size := 3;
         _IdentityBasis.backcast_size := 2;
         _IdentityBasis.interpolation_mode := "nearest";
         _IdentityBasis.out_features := 2 |}
      [map Qc_of_Z [1; 2; 10; 20]%Z]
    = Ok (map (firstn 2) [map Qc_of_Z [1; 2; 10; 20]%Z], forecast)
    /\ has_shape2 1 2 (map (firstn 2) [map Qc_of_Z [1; 2; 10; 20]%Z])
    /\ has_shape3 1 3 2 forecast.
Proof.
  apply (@basis_forward_returns _ 1 2 3 2 1).
  - reflexivity.
  - reflexivity.
  - reflexivity.
  - reflexivity.
  - lia.
  - lia.
  - lia.
  - lia.
  - split; [reflexivity | repeat constructor].
Defined.

Lemma block_forward_returns_witness :
  exists self backcast forecast,
    In self (NHITS.blocks two_blocks)
    /\ NHITSBlock.forward self (NHITS.insample_y example_window)
         (NHITS.futr_exog example_window) (NHITS.hist_exog example_window)
         (NHITS.stat_exog example_window) = Ok (backcast, forecast)
    /\ has_shape2 2 4 backcast
    /\ has_shape3 2 2 1 forecast.
Proof.
  destruct two_blocks_well_formed as (_ & _ & Hblocks).
  destruct (NHITS.blocks two_blocks) as [|self rest] eqn:E;
    [vm_compute in E; discriminate E|].
  apply Forall_inv in Hblocks.
  destruct example_window_well_formed as (Hy & _ & Hexog).
  destruct (@block_forward_returns self 2 4 2 1 0 0 0 example_window
              (NHITS.insample_y example_window)
              ltac:(lia) ltac:(lia) ltac:(lia) ltac:(lia) Hblocks Hexog Hy)
    as (backcast & forecast & Hfwd & Hbc & Hfc).
  exists self, backcast, forecast.
  split; [now left|]. split; [exact Hfwd|]. split; [exact Hbc | exact Hfc].
Defined.
